(** * FerretDB protocol-dispatch core: connection runner and storage contract

    A shallow embedding of [internal/clientconn/conn.go] (the per-connection
    runner: [newConn], [run], [route], [handleOpMsg], [logResponse]) and of
    [internal/backends/collection.go] (the contract wrapper around
    [Collection]) and of the two methods [MsgDistinct] and [MsgExplain] of
    the SQLite handler in [internal/handlers/sqlite], followed by the
    properties of the runner and of the contract that the specification
    states, and by further properties of the runner, the contract and the
    handler that the code shows.

    Conventions.
    - Go's [int32] is a [Z] together with the wrap-around [int32] below.
    - A Go pointer or interface that the code treats as possibly nil is an
      [option].
    - A Go call that may panic returns an [Outcome].
    - Effects (log records, metric increments, calls into collaborators,
      increments of the request-id counter, writes and flushes) are recorded
      in chronological order as a list of [Event]s.
    - The packages [wire], [types], [commonerrors], [commoncommands],
      [handlers] and [proxy] are collaborators of the code embedded here.
      What the runner needs from them is either modelled from the
      specification (and marked so) or taken as a field of the class
      [Collaborators]. *)

From Stdlib Require Import ZArith Lia.
From Stdlib Require Import Floats.SpecFloat.
From stdpp Require Import gmap strings list.

Local Open Scope Z_scope.
Local Open Scope string_scope.
Local Open Scope list_scope.

Set Warnings "-register-all".

(** ** Machine integers *)

Definition MaxInt32 : Z := 2147483647.
Definition MinInt32 : Z := -2147483648.

(** Conversion to Go's [int32]: two's complement wrap-around. *)
Definition int32 (z : Z) : Z := (z + 2147483648) mod 4294967296 - 2147483648.

(** A call that either returns or panics. *)
Inductive Outcome (A : Type) : Type :=
| Returned (a : A)
| Panicked (p : string).
Arguments Returned {A} a.
Arguments Panicked {A} p.

(** ** Package [types]: documents *)

(** Modelled from the spec: the document value model of section 3 (the
    package [types] is a collaborator); a double is an IEEE 754 binary64
    value. *)
Inductive value : Type :=
| VDouble (f : spec_float)
| VString (s : string)
| VDocument (d : list (string * value))
| VArray (a : list value)
| VBinary (subtype : Z) (b : list Byte.byte)
| VObjectID (b : list Byte.byte)
| VBool (b : bool)
| VDateTime (ms : Z)
| VNull
| VRegex (pattern options : string)
| VTimestamp (t i : Z)
| VInt32 (i : Z)
| VInt64 (i : Z).

(** Modelled from the spec: an ordered sequence of (key, value) pairs that
    may be marked frozen. *)
Record Document : Type := mkDocument {
  fields : list (string * value);
  frozen : bool
}.

Definition NewDocument (kvs : list (string * value)) : Document :=
  {| fields := kvs; frozen := false |}.

(** Modelled from the spec: "The command name is the key of the first
    field"; a nil or empty document has the empty command name. *)
Definition Document_Command (d : option Document) : string :=
  match d with
  | Some doc => match fields doc with (k, _) :: _ => k | [] => "" end
  | None => ""
  end.

Fixpoint lookup_field (key : string) (kvs : list (string * value)) : option value :=
  match kvs with
  | [] => None
  | (k, v) :: rest => if String.eqb k key then Some v else lookup_field key rest
  end.

(** [doc.Get(key)]: the value of the first field named [key], if any. *)
Definition Document_Get (d : Document) (key : string) : option value :=
  lookup_field key (fields d).

Definition float64_zero : spec_float := S754_zero false.
Definition float64_one : spec_float := S754_finite false 4503599627370496 (-52).

(** ** Errors *)

(** [*wire.ValidationError]: a structural decode failure. *)
Record ValidationError : Type := { veMsg : string }.

(** [commonerrors.ErrInfo]. *)
Record ErrInfo : Type := { Argument : string }.

(** [*commonerrors.CommandError]: a coded error with a message and an
    optional argument. *)
Record CommandError : Type := mkCommandError {
  ceCode : Z;
  ceMsg : string;
  ceInfo : option ErrInfo
}.

Record WriteError : Type := { weIndex : Z; weCode : Z; weMsg : string }.

(** [*commonerrors.WriteErrors]. *)
Definition WriteErrors : Type := list WriteError.

(** Go [error] values, by kind. [ErrOpCode] is an error made by
    [lazyerrors.Errorf] with an opcode argument; [ErrOther] is any other
    error (transport errors, [errors.New]). *)
Inductive error : Type :=
| ErrZeroRead
| ErrValidation (v : ValidationError)
| ErrCommand (e : CommandError)
| ErrWrite (e : WriteErrors)
| ErrOpCode (format : string) (opcode : Z)
| ErrOther (msg : string).

(** [commonerrors.ProtoErr] has the two implementations the type switch of
    [route] names. *)
Inductive ProtoErr : Type :=
| PECommand (e : CommandError)
| PEWrite (e : WriteErrors).

(** Modelled from the spec: scenario 2 gives [CommandNotFound] the code 59. *)
Definition ErrCommandNotFound : Z := 59.

Definition NewCommandErrorMsg (code : Z) (msg : string) : CommandError :=
  {| ceCode := code; ceMsg := msg; ceInfo := None |}.

Definition ProtoErr_Info (pe : ProtoErr) : option ErrInfo :=
  match pe with
  | PECommand e => ceInfo e
  | PEWrite _ => None
  end.

(** ** Package [wire]: headers and bodies *)

(** Modelled from the spec: the opcodes of section 6. *)
Definition OpCodeReply : Z := 1.
Definition OpCodeUpdate : Z := 2001.
Definition OpCodeInsert : Z := 2002.
Definition OpCodeGetByOID : Z := 2003.
Definition OpCodeQuery : Z := 2004.
Definition OpCodeGetMore : Z := 2005.
Definition OpCodeDelete : Z := 2006.
Definition OpCodeKillCursors : Z := 2007.
Definition OpCodeCompressed : Z := 2012.
Definition OpCodeMsg : Z := 2013.

(** Modelled from the spec: the header is four [int32] fields. *)
Definition MsgHeaderLen : Z := 16.

Record MsgHeader : Type := mkMsgHeader {
  MessageLength : Z;
  RequestID : Z;
  ResponseTo : Z;
  OpCode : Z
}.

(** [new(wire.MsgHeader)]. *)
Definition MsgHeader_zero : MsgHeader :=
  {| MessageLength := 0; RequestID := 0; ResponseTo := 0; OpCode := 0 |}.

Record OpMsgSection : Type := mkSection {
  Kind : Z;
  Identifier : string;
  Documents : list Document
}.

Record OpMsg : Type := mkOpMsg {
  FlagBits : Z;
  sections : list OpMsgSection
}.

(** The legacy handshake bodies are opaque to the runner. *)
Record OpQuery : Type := mkOpQuery {
  FullCollectionName : string;
  query : Document
}.

Record OpReply : Type := mkOpReply {
  ResponseFlags : Z;
  replyDocuments : list Document
}.

(** [wire.MsgBody]: the interface implemented by the three body types. *)
Inductive MsgBody : Type :=
| BodyMsg (m : OpMsg)
| BodyQuery (q : OpQuery)
| BodyReply (r : OpReply).

Definition kind0 (s : OpMsgSection) : bool := Z.eqb (Kind s) 0.

(** Modelled from the spec: "A well-formed request has exactly one kind-0
    section whose document carries the command name"; [msg.Document()]
    returns that document and fails for any other shape. *)
Definition OpMsg_Document (msg : OpMsg) : Document + error :=
  match List.filter kind0 (sections msg) with
  | [s] =>
      match Documents s with
      | [d] => inl d
      | _ => inr (ErrOther "wire.OpMsg.Document: wrong number of documents")
      end
  | _ => inr (ErrOther "wire.OpMsg.Document: wrong number of kind-0 sections")
  end.

(** Modelled from the spec: [msg.SetSections] stores the sections and
    reports an error when they are not well-formed. *)
Definition SetSections (msg : OpMsg) (ss : list OpMsgSection) : OpMsg * option error :=
  let msg' := {| FlagBits := FlagBits msg; sections := ss |} in
  match OpMsg_Document msg' with
  | inl _ => (msg', None)
  | inr e => (msg', Some e)
  end.

(** [var res wire.OpMsg]. *)
Definition OpMsg_zero : OpMsg := {| FlagBits := 0; sections := [] |}.

(** [wire.OpMsgSection{Documents: []*types.Document{d}}]. *)
Definition docSection (d : Document) : OpMsgSection :=
  {| Kind := 0; Identifier := ""; Documents := [d] |}.

(** ** Package [zapcore]: log levels *)

Definition DebugLevel : Z := -1.
Definition InfoLevel : Z := 0.
Definition WarnLevel : Z := 1.
Definition ErrorLevel : Z := 2.
Definition DPanicLevel : Z := 3.

(** ** Collaborators of the runner *)

(** [commoncommands.Command]: a handler reference (possibly nil) and a help
    string. The handler receives the handler implementation and the
    request; the context argument carries cancellation only and is left
    out. The [World] is the state handlers and the upstream server work
    on. *)
Record Command (World Interface : Type) : Type := mkCommand {
  Handler : option (Interface -> World -> OpMsg -> World * Outcome (option OpMsg * option error));
  Help : string
}.
Arguments mkCommand {World Interface} Handler Help.
Arguments Handler {World Interface} c.
Arguments Help {World Interface} c.

(** [Route] of [proxy.Router]: forwards a request and returns the upstream
    response; either part may be nil. *)
Definition Router (World : Type) : Type :=
  World -> MsgHeader -> MsgBody -> World * (option MsgHeader * option MsgBody).

Class Collaborators : Type := {
  (** the state of the backend and of the upstream server *)
  World : Type;
  (** an implementation of [handlers.Interface] *)
  Interface : Type;
  (** [handlers.Interface.CmdQuery] *)
  CmdQuery : Interface -> World -> OpQuery -> World * Outcome (option OpReply * option error);
  (** [commoncommands.Commands], the process-wide command registry *)
  Commands : gmap string (Command World Interface);
  (** [wire.MsgBody.MarshalBinary] *)
  MarshalBinary : MsgBody -> list Byte.byte + error;
  (** [proxy.New] *)
  proxy_New : string -> Router World + error;
  (** how [commonerrors.ProtocolError] renders an error that is neither a
      [CommandError] nor a [WriteErrors] *)
  renderError : error -> CommandError;
  (** [Document] of [commonerrors.WriteErrors] *)
  WriteErrors_Document : WriteErrors -> Document;
  (** the generated names of the error codes other than [CommandNotFound] *)
  ErrorCode_name : Z -> string
}.

Section Runner.
Context `{Collaborators}.

(** ** Package [commonerrors] *)

(** [ErrorCode.String]. *)
Definition ErrorCode_String (code : Z) : string :=
  if decide (code = ErrCommandNotFound) then "CommandNotFound" else ErrorCode_name code.

(** Modelled from the spec: "ProtocolError (wrapper that renders any backend
    or internal error into one of the above for on-wire emission)"; a
    [CommandError] and a [WriteErrors] are rendered as themselves. *)
Definition ProtocolError (err : error) : ProtoErr :=
  match err with
  | ErrCommand e => PECommand e
  | ErrWrite e => PEWrite e
  | _ => PECommand (renderError err)
  end.

(** Modelled from the spec: "Every error response is an Msg whose first
    document has an ok: 0.0, a code, a codeName, and an errmsg". *)
Definition CommandError_Document (e : CommandError) : Document :=
  NewDocument [("ok", VDouble float64_zero);
               ("code", VInt32 (ceCode e));
               ("codeName", VString (ErrorCode_String (ceCode e)));
               ("errmsg", VString (ceMsg e))].

Definition ProtoErr_Document (pe : ProtoErr) : Document :=
  match pe with
  | PECommand e => CommandError_Document e
  | PEWrite e => WriteErrors_Document e
  end.

(** ** Observable effects *)

Inductive LogMsg : Type :=
| LogRequestHeader (h : MsgHeader)
| LogRequestMessage (b : MsgBody)
| LogResponseHeader (who : string) (h : MsgHeader)
| LogResponseMessage (who : string) (b : option MsgBody)
| LogDiff (resHeader proxyHeader : option MsgHeader) (resBody proxyBody : option MsgBody)
| LogHandlerError (msg : string) (err : error) (opcode : Z)
| LogPanic (p : string).

Inductive Event : Type :=
| EvLog (level : Z) (m : LogMsg)
| EvProxyRoute (h : MsgHeader) (b : MsgBody)
| EvHandler (command : string) (msg : OpMsg)
| EvCmdQuery (q : OpQuery)
| EvRequestsInc (opcode : Z) (command : string)
| EvResponsesInc (opcode : Z) (command argument result : string)
| EvAtomicAdd (new : Z)
| EvWrite (h : MsgHeader) (b : MsgBody)
| EvFlush.

(** ** Modes and connections *)

Definition Mode : Type := string.
Definition NormalMode : Mode := "normal".
Definition ProxyMode : Mode := "proxy".
Definition DiffNormalMode : Mode := "diff-normal".
Definition DiffProxyMode : Mode := "diff-proxy".

Definition AllModes : list string := [NormalMode; ProxyMode; DiffNormalMode; DiffProxyMode].

(** The fields of [conn] the runner reads or updates; the network
    connection is represented by the script of [Input]s below, the logger
    and the metrics by [Event]s. *)
Record conn : Type := mkConn {
  mode : Mode;
  h : Interface;
  proxy : option (Router World);
  lastRequestID : Z
}.

Record newConnOpts : Type := mkOpts {
  o_mode : Mode;
  o_handler : option Interface;
  o_proxyAddr : string
}.

Definition newConn (opts : newConnOpts) : Outcome (conn + error) :=
  if decide (o_mode opts = "") then Panicked "mode required"
  else match o_handler opts with
       | None => Panicked "handler required"
       | Some hd =>
           if decide (o_mode opts <> NormalMode) then
             match proxy_New (o_proxyAddr opts) with
             | inr e => Returned (inr e)
             | inl p => Returned (inl {| mode := o_mode opts; h := hd; proxy := Some p;
                                         lastRequestID := 0 |})
             end
           else Returned (inl {| mode := o_mode opts; h := hd; proxy := None;
                                 lastRequestID := 0 |})
       end.

(** [c.lastRequestID.Add(1)]: the new value, wrapped to [int32], and the
    connection holding it. *)
Definition lastRequestID_Add1 (c : conn) : Z * conn :=
  let new := int32 (lastRequestID c + 1) in
  (new, {| mode := mode c; h := h c; proxy := proxy c; lastRequestID := new |}).

(** ** [handleOpMsg] *)

(** The tracing span and the profiler labels around the call of the
    handler are left out. *)
Definition handleOpMsg (c : conn) (w : World) (msg : OpMsg) (command : string)
  : World * list Event * Outcome (option OpMsg * option error) :=
  let notFound :=
    (w, [], Returned (None, Some (ErrCommand
       (NewCommandErrorMsg ErrCommandNotFound ("no such command: '" +:+ command +:+ "'"))))) in
  match Commands !! command with
  | Some cmd =>
      match Handler cmd with
      | Some handler =>
          let '(w', r) := handler (h c) w msg in
          (w', [EvHandler command msg], r)
      | None => notFound
      end
  | None => notFound
  end.

(** ** [logResponse] *)

(** [ok, _ := doc.Get("ok"); f, _ := ok.(float64); f != 1], negated. *)
Definition ok_is_one (doc : Document) : bool :=
  match Document_Get doc "ok" with
  | Some (VDouble f) => SFeqb f float64_one
  | _ => false
  end.

Definition logResponse (who : string) (resHeader : option MsgHeader)
    (resBody : option MsgBody) (closeConn : bool) : list Event * Outcome Z :=
  match resHeader with
  | None => ([], Panicked "nil pointer dereference")
  | Some hd =>
      let level : Outcome Z :=
        if decide (OpCode hd = OpCodeMsg) then
          match resBody with
          | Some (BodyMsg m) =>
              match OpMsg_Document m with
              | inl doc =>
                  Returned (if ok_is_one doc then DebugLevel
                            else if closeConn then ErrorLevel else WarnLevel)
              | inr _ => Panicked "must.NotFail"
              end
          | _ => Panicked "interface conversion"
          end
        else Returned DebugLevel in
      match level with
      | Returned l =>
          ([EvLog l (LogResponseHeader who hd); EvLog l (LogResponseMessage who resBody)],
           Returned l)
      | Panicked p => ([], Panicked p)
      end
  end.

(** ** [route] *)

(** The named results of [route]. *)
Record routeRet : Type := mkRet {
  resHeader : MsgHeader;
  resBody : option MsgBody;
  closeConn : bool
}.

Record routeOut : Type := mkRouteOut {
  ro_conn : conn;
  ro_world : World;
  ro_events : list Event;
  ro_ret : Outcome routeRet
}.

(** The opcodes that the first switch of [route] leaves unhandled. *)
Definition legacyOpCodes : list Z :=
  [OpCodeReply; OpCodeUpdate; OpCodeInsert; OpCodeGetByOID; OpCodeGetMore;
   OpCodeDelete; OpCodeKillCursors; OpCodeCompressed].

(** The deferred function of [route]: it runs on every exit, also on a
    panic, with the values the variables have at that point. *)
Definition route_deferred (opcode : Z) (command argument result : string) : Event :=
  EvResponsesInc opcode command
    (if decide (argument = "") then "unknown" else argument)
    (if decide (result = "") then "panic" else result).

(** The state of [route] after its first switch: the opcode stored in
    [resHeader] so far, the command name, and either the response body and
    error, or a panic. *)
Record switched : Type := mkSwitched {
  sw_world : World;
  sw_events : list Event;
  sw_command : string;
  sw_opcode : Z;
  sw_out : Outcome (option MsgBody * option error)
}.

Definition route_switch (c : conn) (w : World) (reqHeader : MsgHeader) (reqBody : MsgBody)
  : switched :=
  if decide (OpCode reqHeader = OpCodeMsg) then
    match reqBody with
    | BodyMsg msg =>
        let document := match OpMsg_Document msg with inl d => Some d | inr _ => None end in
        let command := Document_Command document in
        match OpMsg_Document msg with
        | inr e => mkSwitched w [] command OpCodeMsg (Returned (None, Some e))
        | inl _ =>
            let '(w', evs, r) := handleOpMsg c w msg command in
            match r with
            | Returned (resMsg, err) =>
                mkSwitched w' evs command OpCodeMsg (Returned (BodyMsg <$> resMsg, err))
            | Panicked p => mkSwitched w' evs command OpCodeMsg (Panicked p)
            end
        end
    | _ => mkSwitched w [] "" 0 (Panicked "interface conversion")
    end
  else if decide (OpCode reqHeader = OpCodeQuery) then
    match reqBody with
    | BodyQuery q =>
        let '(w', r) := CmdQuery (h c) w q in
        match r with
        | Returned (resReply, err) =>
            mkSwitched w' [EvCmdQuery q] "" OpCodeReply (Returned (BodyReply <$> resReply, err))
        | Panicked p => mkSwitched w' [EvCmdQuery q] "" OpCodeReply (Panicked p)
        end
    | _ => mkSwitched w [] "" 0 (Panicked "interface conversion")
    end
  else if decide (OpCode reqHeader ∈ legacyOpCodes) then
    mkSwitched w [] "" 0
      (Returned (None, Some (ErrOpCode "unhandled OpCode %s" (OpCode reqHeader))))
  else
    mkSwitched w [] "" 0
      (Returned (None, Some (ErrOpCode "unexpected OpCode %s" (OpCode reqHeader)))).

(** [var res wire.OpMsg; must.NoError(res.SetSections(...))] with the
    document of a protocol error. *)
Definition errorOpMsg (pe : ProtoErr) : Outcome OpMsg :=
  match SetSections OpMsg_zero [docSection (ProtoErr_Document pe)] with
  | (res, None) => Returned res
  | (_, Some _) => Panicked "must.NoError"
  end.

(** The end of [route]: marshal the body, fill in the header. *)
Definition route_finish (c : conn) (w : World) (evs : list Event) (reqHeader : MsgHeader)
    (opcode : Z) (command argument result : string) (body : option MsgBody) : routeOut :=
  match body with
  | None =>
      mkRouteOut c w (evs ++ [route_deferred opcode command argument result])
        (Panicked "nil pointer dereference")
  | Some bd =>
      match MarshalBinary bd with
      | inr _ =>
          mkRouteOut c w (evs ++ [route_deferred opcode command argument ""])
            (Panicked "MarshalBinary")
      | inl b =>
          let '(id, c') := lastRequestID_Add1 c in
          let hd := {| MessageLength := int32 (MsgHeaderLen + Z.of_nat (length b));
                       RequestID := id;
                       ResponseTo := RequestID reqHeader;
                       OpCode := opcode |} in
          let result' := if decide (result = "") then "ok" else result in
          mkRouteOut c' w
            (evs ++ [EvAtomicAdd id; route_deferred opcode command argument result'])
            (Returned (mkRet hd (Some bd) false))
      end
  end.

Definition route (c : conn) (w : World) (reqHeader : MsgHeader) (reqBody : MsgBody)
  : routeOut :=
  let sw := route_switch c w reqHeader reqBody in
  let w1 := sw_world sw in
  let opcode := sw_opcode sw in
  match sw_out sw with
  | Panicked p =>
      mkRouteOut c w1 (sw_events sw ++ [route_deferred opcode (sw_command sw) "" ""])
        (Panicked p)
  | Returned (body, err) =>
      let command := if decide (sw_command sw = "") then "unknown" else sw_command sw in
      let evs := sw_events sw ++ [EvRequestsInc (OpCode reqHeader) command] in
      match err with
      | None => route_finish c w1 evs reqHeader opcode command "" "" body
      | Some e =>
          if decide (opcode = OpCodeMsg) then
            let protoErr := ProtocolError e in
            match errorOpMsg protoErr with
            | Panicked p =>
                mkRouteOut c w1 (evs ++ [route_deferred opcode command "" ""]) (Panicked p)
            | Returned res =>
                let result := match protoErr with
                              | PECommand ce => ErrorCode_String (ceCode ce)
                              | PEWrite _ => "write-error"
                              end in
                let argument := match ProtoErr_Info protoErr with
                                | Some info => Argument info
                                | None => ""
                                end in
                route_finish c w1 evs reqHeader opcode command argument result
                  (Some (BodyMsg res))
            end
          else if decide (opcode ∈ OpCodeQuery :: legacyOpCodes) then
            mkRouteOut c w1
              (evs ++ [EvLog ErrorLevel
                         (LogHandlerError "Handler error for unhandled response opcode" e opcode);
                       route_deferred opcode command "" "unhandled"])
              (Returned (mkRet {| MessageLength := 0; RequestID := 0; ResponseTo := 0;
                                  OpCode := opcode |} body true))
          else
            mkRouteOut c w1
              (evs ++ [EvLog ErrorLevel
                         (LogHandlerError "Handler error for unexpected response opcode" e opcode);
                       route_deferred opcode command "" "unexpected"])
              (Returned (mkRet {| MessageLength := 0; RequestID := 0; ResponseTo := 0;
                                  OpCode := opcode |} body true))
      end
  end.

(** ** [run] *)

(** What [wire.ReadMessage] returns.

    Modelled from the spec: "produces a decoded body or a ValidationError
    distinguished from transport errors"; on a validation error the header
    of the offending message is returned with it (the branch of [run] for
    validation errors reads its opcode and request id). [ReadFailed]
    carries an error in which [errors.As] finds no [ValidationError]. *)
Inductive ReadResult : Type :=
| ReadMsg (reqHeader : MsgHeader) (reqBody : MsgBody)
| ReadInvalid (reqHeader : MsgHeader) (validationErr : ValidationError)
| ReadFailed (err : error).

(** What the network does in one iteration of the loop: the result of the
    read, and the results that [wire.WriteMessage] and [bufw.Flush] give if
    the iteration calls them ([None] is success). *)
Record Input : Type := mkInput {
  in_read : ReadResult;
  in_write : option error;
  in_flush : option error
}.

(** How an iteration ends: with the next iteration, with [return], or with a
    panic. *)
Inductive Status : Type :=
| Continue
| Return (err : error)
| Panic (p : string).

Record iterOut : Type := mkIterOut {
  it_conn : conn;
  it_world : World;
  it_events : list Event;
  it_status : Status
}.

(** [wire.WriteMessage(bufw, resHeader, resBody)] followed by
    [bufw.Flush()]; the error of the first one that fails. *)
Definition writeFlush (i : Input) (hd : MsgHeader) (body : MsgBody)
  : list Event * option error :=
  match in_write i with
  | Some e => ([], Some e)
  | None =>
      match in_flush i with
      | Some e => ([EvWrite hd body], Some e)
      | None => ([EvWrite hd body; EvFlush], None)
      end
  end.

(** The branch of the loop for a validation error. *)
Definition run_invalid (c : conn) (w : World) (i : Input) (reqHeader : MsgHeader)
    (validationErr : ValidationError) : iterOut :=
  let protoErr := ProtocolError (ErrValidation validationErr) in
  match errorOpMsg protoErr with
  | Panicked p => mkIterOut c w [] (Panic p)
  | Returned res =>
      match MarshalBinary (BodyMsg res) with
      | inr _ => mkIterOut c w [] (Panic "must.NotFail")
      | inl b =>
          let '(id, c') := lastRequestID_Add1 c in
          let hd := {| OpCode := OpCode reqHeader;
                       RequestID := id;
                       ResponseTo := RequestID reqHeader;
                       MessageLength := int32 (MsgHeaderLen + Z.of_nat (length b)) |} in
          let '(evs, err) := writeFlush i hd (BodyMsg res) in
          mkIterOut c' w (EvAtomicAdd id :: evs)
            (match err with Some e => Return e | None => Continue end)
      end
  end.

(** "send request to proxy first (unless we are in normal mode)". *)
Definition run_proxy (c : conn) (w : World) (reqHeader : MsgHeader) (reqBody : MsgBody)
  : Outcome (World * list Event * (option MsgHeader * option MsgBody)) :=
  if decide (mode c <> NormalMode) then
    match proxy c with
    | None => Panicked "proxy addr was nil"
    | Some r =>
        let '(w1, res) := r w reqHeader reqBody in
        Returned (w1, [EvProxyRoute reqHeader reqBody], res)
    end
  else Returned (w, [], (None, None)).

(** [if level > diffLogLevel { diffLogLevel = level }]. *)
Definition raiseLevel (level diffLogLevel : Z) : Z :=
  if decide (level > diffLogLevel) then level else diffLogLevel.

(** The local variables of the loop that the later steps read. *)
Record locals : Type := mkLocals {
  l_resHeader : option MsgHeader;
  l_resBody : option MsgBody;
  l_resCloseConn : bool;
  l_diffLogLevel : Z
}.

(** "handle request unless we are in proxy mode". *)
Definition run_local (c : conn) (w : World) (reqHeader : MsgHeader) (reqBody : MsgBody)
    (diffLogLevel : Z) : conn * World * list Event * Outcome locals :=
  if decide (mode c <> ProxyMode) then
    let ro := route c w reqHeader reqBody in
    match ro_ret ro with
    | Panicked p => (ro_conn ro, ro_world ro, ro_events ro, Panicked p)
    | Returned r =>
        let '(evs, lv) := logResponse "Response" (Some (resHeader r)) (resBody r) (closeConn r) in
        match lv with
        | Panicked p => (ro_conn ro, ro_world ro, ro_events ro ++ evs, Panicked p)
        | Returned level =>
            (ro_conn ro, ro_world ro, ro_events ro ++ evs,
             Returned (mkLocals (Some (resHeader r)) (resBody r) (closeConn r)
                         (raiseLevel level diffLogLevel)))
        end
    end
  else (c, w, [], Returned (mkLocals None None false diffLogLevel)).

(** "log proxy response after the normal response". *)
Definition run_logProxy (c : conn) (proxyHeader : option MsgHeader)
    (proxyBody : option MsgBody) (diffLogLevel : Z) : list Event * Outcome Z :=
  if decide (mode c <> NormalMode) then
    let '(evs, lv) := logResponse "Proxy response" proxyHeader proxyBody false in
    match lv with
    | Panicked p => (evs, Panicked p)
    | Returned level => (evs, Returned (raiseLevel level diffLogLevel))
    end
  else ([], Returned diffLogLevel).

(** "diff in diff mode": the record carries the four values whose texts
    are compared; rendering them and computing the unified diff does not
    fail. *)
Definition run_diff (c : conn) (l : locals) (proxyHeader : option MsgHeader)
    (proxyBody : option MsgBody) (diffLogLevel : Z) : list Event :=
  if decide (mode c = DiffNormalMode \/ mode c = DiffProxyMode) then
    [EvLog diffLogLevel (LogDiff (l_resHeader l) proxyHeader (l_resBody l) proxyBody)]
  else [].

(** "replace response with one from proxy in proxy and diff-proxy modes". *)
Definition run_select (c : conn) (l : locals) (proxyHeader : option MsgHeader)
    (proxyBody : option MsgBody) : option MsgHeader * option MsgBody :=
  if decide (mode c = ProxyMode \/ mode c = DiffProxyMode) then (proxyHeader, proxyBody)
  else (l_resHeader l, l_resBody l).

(** The end of an iteration: the nil check, the write, the flush and the
    close flag. *)
Definition run_send (i : Input) (res : option MsgHeader * option MsgBody)
    (resCloseConn : bool) : list Event * Status :=
  match res with
  | (Some hd, Some body) =>
      match writeFlush i hd body with
      | (evs, Some e) => (evs, Return e)
      | (evs, None) =>
          (evs, if resCloseConn then Return (ErrOther "fatal error") else Continue)
      end
  | _ => ([], Panic "no response to send to client")
  end.

(** The branch of the loop for a decoded message. *)
Definition run_message (c : conn) (w : World) (i : Input) (reqHeader : MsgHeader)
    (reqBody : MsgBody) : iterOut :=
  let evs0 := [EvLog DebugLevel (LogRequestHeader reqHeader);
               EvLog DebugLevel (LogRequestMessage reqBody)] in
  match run_proxy c w reqHeader reqBody with
  | Panicked p => mkIterOut c w evs0 (Panic p)
  | Returned (w1, evs1, (proxyHeader, proxyBody)) =>
      match run_local c w1 reqHeader reqBody 0 with
      | (c2, w2, evs2, Panicked p) => mkIterOut c2 w2 (evs0 ++ evs1 ++ evs2) (Panic p)
      | (c2, w2, evs2, Returned l) =>
          match run_logProxy c proxyHeader proxyBody (l_diffLogLevel l) with
          | (evs3, Panicked p) => mkIterOut c2 w2 (evs0 ++ evs1 ++ evs2 ++ evs3) (Panic p)
          | (evs3, Returned diffLogLevel) =>
              let evs4 := run_diff c l proxyHeader proxyBody diffLogLevel in
              let '(evs5, st) :=
                run_send i (run_select c l proxyHeader proxyBody) (l_resCloseConn l) in
              mkIterOut c2 w2 (evs0 ++ evs1 ++ evs2 ++ evs3 ++ evs4 ++ evs5) st
          end
      end
  end.

(** One iteration of the loop of [run]. *)
Definition run_iter (c : conn) (w : World) (i : Input) : iterOut :=
  match in_read i with
  | ReadInvalid reqHeader validationErr => run_invalid c w i reqHeader validationErr
  | ReadFailed err => mkIterOut c w [] (Return err)
  | ReadMsg reqHeader reqBody => run_message c w i reqHeader reqBody
  end.

Definition prepend (evs : list Event) (o : iterOut) : iterOut :=
  mkIterOut (it_conn o) (it_world o) (evs ++ it_events o) (it_status o).

(** The loop of [run] over what the network delivers. At the end of the
    script the loop is waiting in [ReadMessage]: the status is
    [Continue]. *)
Fixpoint run_loop (c : conn) (w : World) (script : list Input) : iterOut :=
  match script with
  | [] => mkIterOut c w [] Continue
  | i :: rest =>
      let o := run_iter c w i in
      match it_status o with
      | Continue => prepend (it_events o) (run_loop (it_conn o) (it_world o) rest)
      | _ => o
      end
  end.

(** The result of [run]: [None] while the connection is open and waiting
    for the next message, otherwise the error [run] returns. *)
Record runOut : Type := mkRunOut {
  out_conn : conn;
  out_world : World;
  out_events : list Event;
  out_err : option error
}.

(** [run]: the loop under the deferred [recover], which logs a panic and
    turns it into the error "panic". The deferred [bufw.Flush()] finds
    nothing it could still send: every frame written is flushed in the
    iteration that wrote it, or the writer has failed. Recording of the
    incoming bytes and cancellation are outside this model. *)
Definition run (c : conn) (w : World) (script : list Input) : runOut :=
  let o := run_loop c w script in
  match it_status o with
  | Continue => mkRunOut (it_conn o) (it_world o) (it_events o) None
  | Return err => mkRunOut (it_conn o) (it_world o) (it_events o) (Some err)
  | Panic p =>
      mkRunOut (it_conn o) (it_world o)
        (it_events o ++ [EvLog DPanicLevel (LogPanic p)]) (Some (ErrOther "panic"))
  end.

(** The frames written to the client, in order. *)
Definition written (evs : list Event) : list (MsgHeader * MsgBody) :=
  omap (fun e => match e with EvWrite hd b => Some (hd, b) | _ => None end) evs.

(** The values returned by [c.lastRequestID.Add(1)], in order. *)
Definition issued (evs : list Event) : list Z :=
  omap (fun e => match e with EvAtomicAdd id => Some id | _ => None end) evs.

End Runner.

Arguments mkIterOut {H} it_conn it_world it_events it_status.
Arguments mkRunOut {H} out_conn out_world out_events out_err.

(** * A concrete server

    A registry with two commands, a handler implementation that counts the
    requests it serves, and an upstream server that answers every request
    with [{ok: 1.0, upstream: true}]. It instantiates the theorems below. *)
Module Demo.

Definition okDoc : Document := NewDocument [("ok", VDouble float64_one)].
Definition okMsg : OpMsg := mkOpMsg 0 [docSection okDoc].

Definition handlePing (_ : unit) (w : nat) (_ : OpMsg)
  : nat * Outcome (option OpMsg * option error) :=
  (S w, Returned (Some okMsg, None)).

Definition upstreamDoc : Document :=
  NewDocument [("ok", VDouble float64_one); ("upstream", VBool true)].

Definition upstream : Router nat :=
  fun w reqHeader _ =>
    (w, (Some {| MessageLength := 0; RequestID := 7000; ResponseTo := RequestID reqHeader;
                 OpCode := OpCodeMsg |},
         Some (BodyMsg (mkOpMsg 0 [docSection upstreamDoc])))).

Definition countFields (ds : list Document) : nat :=
  foldr (fun d n => (length (fields d) + n)%nat) 0%nat ds.

(** A toy encoding: five bytes per section and eight bytes per field. *)
Definition marshal (b : MsgBody) : list Byte.byte + error :=
  match b with
  | BodyMsg m =>
      inl (flat_map (fun s => repeat Byte.x00 (5 + 8 * countFields (Documents s))) (sections m))
  | BodyQuery q => inl (repeat Byte.x00 (8 * length (fields (query q))))
  | BodyReply r => inl (repeat Byte.x00 (20 + 8 * countFields (replyDocuments r)))
  end.

#[global] Instance collaborators : Collaborators := {|
  World := nat;
  Interface := unit;
  CmdQuery := fun _ w _ => (S w, Returned (Some (mkOpReply 0 [okDoc]), None));
  Commands := {[ "ping" := mkCommand (Some handlePing) "Returns a pong response.";
                 "whatsmyuri" := mkCommand None "Not implemented." ]};
  MarshalBinary := marshal;
  proxy_New := fun addr => if decide (addr = "") then inr (ErrOther "empty address")
                           else inl upstream;
  renderError := fun _ => mkCommandError 1 "internal error" None;
  WriteErrors_Document := fun _ => NewDocument [("ok", VDouble float64_one)];
  ErrorCode_name := fun _ => "InternalError"
|}.

Definition normalConn : conn := mkConn NormalMode tt None 0.
Definition proxyConn : conn := mkConn ProxyMode tt (Some upstream) 0.
Definition diffNormalConn : conn := mkConn DiffNormalMode tt (Some upstream) 0.
Definition diffProxyConn : conn := mkConn DiffProxyMode tt (Some upstream) 0.

Definition cmdMsg (command : string) : OpMsg :=
  mkOpMsg 0 [docSection (NewDocument [(command, VInt32 1); ("$db", VString "admin")])].

(** A decoded [OP_MSG] request carrying [command], on a working socket. *)
Definition request (id : Z) (command : string) : Input :=
  mkInput (ReadMsg (mkMsgHeader 60 id 0 OpCodeMsg) (BodyMsg (cmdMsg command))) None None.

(** A message of declared length 15 whose decoding failed. *)
Definition malformed (id : Z) (opcode : Z) : Input :=
  mkInput (ReadInvalid (mkMsgHeader 15 id 0 opcode) {| veMsg := "invalid message length" |})
    None None.

(** A decoded [OP_REPLY] message: a legacy opcode with a body that
    [ReadMessage] decodes. *)
Definition legacy (id : Z) : Input :=
  mkInput (ReadMsg (mkMsgHeader 36 id 0 OpCodeReply) (BodyReply (mkOpReply 0 []))) None None.

(** An upstream server whose first answer is, header and body, the answer
    of the local handler to [ping]. *)
Definition mirror : Router nat :=
  fun w reqHeader _ =>
    (w, (Some {| MessageLength := 29; RequestID := 1; ResponseTo := RequestID reqHeader;
                 OpCode := OpCodeMsg |},
         Some (BodyMsg okMsg))).

Definition mirrorConn : conn := mkConn DiffNormalMode tt (Some mirror) 0.

(** A handler that fails after it has changed the state and built a
    response. *)
Definition handleFailing (_ : unit) (w : nat) (_ : OpMsg)
  : nat * Outcome (option OpMsg * option error) :=
  (S w, Returned (Some okMsg, Some (ErrOther "disk full"))).

(** The same server with the failing handler registered for [ping]. *)
Definition failing : Collaborators := {|
  World := nat;
  Interface := unit;
  CmdQuery := fun _ w _ =>
    (S w, Returned (Some (mkOpReply 0 [okDoc]), Some (ErrOther "disk full")));
  Commands := {[ "ping" := mkCommand (Some handleFailing) "Returns a pong response." ]};
  MarshalBinary := marshal;
  proxy_New := fun addr => inl upstream;
  renderError := fun _ => mkCommandError 1 "internal error" None;
  WriteErrors_Document := fun _ => NewDocument [("ok", VDouble float64_one)];
  ErrorCode_name := fun _ => "InternalError"
|}.

(** An [OP_MSG] with no section. *)
Definition emptyMsg : OpMsg := mkOpMsg 0 [].

End Demo.

(** * The storage contract: [internal/backends/collection.go] *)
Module Backends.

(** Modelled from the spec: the error kinds of the storage contract that
    section 4.2 names. *)
Inductive ErrorCode : Type :=
| ErrorCodeDatabaseNameIsInvalid
| ErrorCodeCollectionNameIsInvalid
| ErrorCodeInsertDuplicateID.

#[export] Instance ErrorCode_eq_dec : EqDecision ErrorCode.
Proof. solve_decision. Defined.

(** Errors a backend returns: a [backends.Error] with a code, or any other
    error. *)
Inductive Error : Type :=
| BackendError (code : ErrorCode) (msg : string)
| OtherError (msg : string).

(** Modelled from the spec: "Checks that returned errors are drawn from an
    allowed set for that operation; an unexpected error kind is itself an
    error (a programmer bug, not a user error)". *)
Definition checkError (err : option Error) (codes : list ErrorCode) : Outcome unit :=
  match err with
  | Some (BackendError code _) =>
      if decide (code ∈ codes) then Returned tt else Panicked "backends: unexpected error code"
  | _ => Returned tt
  end.

(** A [*types.Document] is an address in the store of documents. *)
Definition ptr : Type := positive.

Record QueryParams : Type := mkQueryParams {}.
Record QueryResult : Type := mkQueryResult { Iter : list ptr }.
Record InsertAllParams : Type := mkInsertAllParams { Docs : list ptr }.
Record InsertAllResult : Type := mkInsertAllResult {}.
Record UpdateParams : Type := mkUpdateParams { updateDocs : list value }.
Record UpdateResult : Type := mkUpdateResult { Updated : Z }.
Record DeleteAllParams : Type := mkDeleteAllParams { IDs : list value }.
Record DeleteAllResult : Type := mkDeleteAllResult { Deleted : Z }.
Record ExplainParams : Type := mkExplainParams {}.
Record ExplainResult : Type := mkExplainResult { QueryPlanner : option ptr }.

Section Contract.
(** The state a backend keeps. *)
Context {B : Type}.

(** The documents in memory, shared between the caller and the backend, and
    the state of the backend. *)
Record State : Type := mkState {
  documents : gmap ptr Document;
  backend : B
}.

(** A method of [Collection]: parameters and results are pointers; the
    context argument is left out, as is the tracing span that
    [observability.FuncCall] opens. *)
Definition Call (P R : Type) : Type :=
  State -> option P -> State * Outcome (option R * option Error).

(** The interface [Collection]. *)
Class Collection (C : Type) : Type := {
  Query : C -> Call QueryParams QueryResult;
  InsertAll : C -> Call InsertAllParams InsertAllResult;
  Update : C -> Call UpdateParams UpdateResult;
  DeleteAll : C -> Call DeleteAllParams DeleteAllResult;
  Explain : C -> Call ExplainParams ExplainResult
}.

Record collectionContract (C : Type) : Type := mkContract { c : C }.
Arguments mkContract {C} c.
Arguments c {C} _.

Definition CollectionContract {C : Type} (c : C) : collectionContract C :=
  mkContract c.

(** Modelled from the spec: [doc.Freeze()] marks the document frozen. *)
Definition Freeze (doc : ptr) (s : State) : State :=
  mkState (alter (fun d => {| fields := fields d; frozen := true |}) doc (documents s))
    (backend s).

(** [for _, doc := range params.Docs { doc.Freeze() }]. *)
Definition freezeDocs (docs : list ptr) (s : State) : State :=
  foldl (fun s doc => Freeze doc s) s docs.

(** The tail the five methods share: [checkError(err, codes...)] and
    [return res, err]. *)
Definition checked {R : Type} (codes : list ErrorCode)
    (r : State * Outcome (option R * option Error))
  : State * Outcome (option R * option Error) :=
  match r with
  | (s, Returned (res, err)) =>
      match checkError err codes with
      | Returned _ => (s, Returned (res, err))
      | Panicked p => (s, Panicked p)
      end
  | (s, Panicked p) => (s, Panicked p)
  end.

Context {C : Type} `{Collection C}.

Definition collectionContract_Query (cc : collectionContract C)
  : Call QueryParams QueryResult :=
  fun s params => checked [] (Query (c cc) s params).

Definition collectionContract_InsertAll (cc : collectionContract C)
  : Call InsertAllParams InsertAllResult :=
  fun s params =>
    match params with
    | None => (s, Panicked "nil pointer dereference")
    | Some p =>
        let s1 := freezeDocs (Docs p) s in
        checked [ErrorCodeInsertDuplicateID] (InsertAll (c cc) s1 params)
    end.

Definition collectionContract_Update (cc : collectionContract C)
  : Call UpdateParams UpdateResult :=
  fun s params => checked [] (Update (c cc) s params).

Definition collectionContract_DeleteAll (cc : collectionContract C)
  : Call DeleteAllParams DeleteAllResult :=
  fun s params => checked [] (DeleteAll (c cc) s params).

Definition collectionContract_Explain (cc : collectionContract C)
  : Call ExplainParams ExplainResult :=
  fun s params => checked [] (Explain (c cc) s params).


(** The document at [doc] is frozen. *)
Definition isFrozen (s : State) (doc : ptr) : Prop :=
  exists d, documents s !! doc = Some d /\ frozen d = true.

(** A backend cannot thaw a document: [types.Document] has no operation
    that clears the mark. *)
Definition keepsFrozen (impl : Call InsertAllParams InsertAllResult) : Prop :=
  forall s params s' r doc,
    impl s params = (s', r) -> isFrozen s doc -> isFrozen s' doc.

End Contract.
Arguments State B : clear implicits.
Arguments mkContract {C} c.
Arguments c {C} _.
Arguments collectionContract_InsertAll {B C _} cc s params.
End Backends.

(** * A concrete backend

    A collection kept in memory: it remembers the addresses of the
    documents inserted so far and refuses a document it already has. *)
Module DemoBackend.
Import Backends.

Definition memory : Type := gset ptr.

Definition insertAll (_ : unit) : Call (B := memory) InsertAllParams InsertAllResult :=
  fun s params =>
    match params with
    | None => (s, Panicked "nil pointer dereference")
    | Some p =>
        if decide (Exists (fun doc => doc ∈ backend s) (Docs p)) then
          (s, Returned (None, Some (BackendError ErrorCodeInsertDuplicateID "duplicate _id")))
        else
          (mkState (documents s) (backend s ∪ list_to_set (Docs p)),
           Returned (Some mkInsertAllResult, None))
    end.

#[global] Instance memory_Collection : Collection (B := memory) unit := {|
  Query := fun _ s _ => (s, Returned (Some (mkQueryResult (elements (backend s))), None));
  InsertAll := insertAll;
  Update := fun _ s _ => (s, Returned (Some (mkUpdateResult 0), None));
  DeleteAll := fun _ s _ => (s, Returned (Some (mkDeleteAllResult 0), None));
  Explain := fun _ s _ => (s, Returned (Some (mkExplainResult None), None))
|}.

Definition doc1 : Document := NewDocument [("_id", VInt32 1); ("v", VString "a")].
Definition doc2 : Document := NewDocument [("_id", VInt32 2); ("v", VString "b")].

(** Two documents in memory, the first of them already inserted. *)
Definition store : State memory :=
  mkState {[ 1%positive := doc1; 2%positive := doc2 ]} {[ 1%positive ]}.

End DemoBackend.

(** * The SQLite handler: [internal/handlers/sqlite]

    [MsgDistinct] of [msg_distinct.go] and [MsgExplain] of [msg_explain.go].
    The handler calls into the packages [common], [backends], [iterator],
    [lazyerrors], [os] and [version]; what it needs from them is a field of
    the class [Environment]. The calls into the backend and the closers are
    recorded in order as a list of [Step]s. Of the collaborators, the
    methods of [Collection] may panic; the others are taken to return. *)
Module Sqlite.

(** [common.DistinctParams]: the fields [MsgDistinct] reads. *)
Record DistinctParams : Type := mkDistinctParams {
  dp_DB : string;
  dp_Collection : string;
  dp_Key : string;
  dp_Filter : option Document
}.

(** [common.ExplainParams]: the fields [MsgExplain] reads. *)
Record ExplainParams : Type := mkExplainParams {
  ep_DB : string;
  ep_Command : Document
}.

(** [version.Info]: the fields [MsgExplain] reads. *)
Record Info : Type := mkInfo {
  Version : string;
  Commit : string;
  MongoDBVersion : string
}.

(** [*Handler]: the field the two methods read beside the backend and the
    logger. *)
Record Handler : Type := mkHandler {
  DisableFilterPushdown : bool
}.

(** The calls of [MsgDistinct] into the backend and the closers. *)
Inductive Step : Type :=
| EvDatabase (name : string) (opened : bool)
| EvCollection (name : string)
| EvNewMultiCloser
| EvQuery
| EvCloserAdd
| EvCloserClose
| EvDBClose.

#[export] Instance Step_eq_dec : EqDecision Step.
Proof. solve_decision. Defined.

Class Environment : Type := {
  (** the state of the backend *)
  B : Type;
  (** [backends.Database] *)
  Database : Type;
  (** an implementation of [backends.Collection] *)
  C : Type;
  C_Collection :: Backends.Collection (B := B) C;
  (** [types.DocumentsIterator] as [common.FilterIterator] returns it *)
  Iterator : Type;
  (** [common.GetDistinctParams(document, h.L)] *)
  GetDistinctParams : Document -> DistinctParams + error;
  (** [common.GetExplainParams(document, h.L)] *)
  GetExplainParams : Document -> ExplainParams + error;
  (** [h.b.Database(name)] *)
  b_Database : Backends.State B -> string -> Backends.State B * (Database + Backends.Error);
  (** [db.Close()] *)
  db_Close : Database -> Backends.State B -> Backends.State B;
  (** [db.Collection(name)] *)
  db_Collection : Database -> Backends.State B -> string
                  -> Backends.State B * (C + Backends.Error);
  (** [common.FilterIterator(iter, closer, filter)] *)
  FilterIterator : list Backends.ptr -> option Document -> Iterator;
  (** [common.FilterDistinctValues(iter, key)] *)
  FilterDistinctValues : Backends.State B -> Iterator -> string
                         -> Backends.State B * (list value + error);
  (** [lazyerrors.Error(err)] on an error of the backend *)
  lazyerrors_Error_backend : Backends.Error -> error;
  (** [lazyerrors.Error(err)] on any other error *)
  lazyerrors_Error : error -> error;
  (** [backends.ErrorCodeIs(err, code)] *)
  ErrorCodeIs : Backends.Error -> Backends.ErrorCode -> bool;
  (** [commonerrors.NewCommandErrorMsgWithArgument(code, msg, argument)] *)
  NewCommandErrorMsgWithArgument : Z -> string -> string -> CommandError;
  (** [commonerrors.ErrInvalidNamespace] *)
  ErrInvalidNamespace : Z;
  (** [os.Hostname()] *)
  os_Hostname : string + error;
  (** [version.Get()] *)
  version_Get : Info;
  (** [cmd.Set(key, value)] *)
  Document_Set : Document -> string -> value -> Outcome Document
}.

Section Handlers.
Context `{Environment}.

(** What a method of the handler leaves: the state of the backend, the
    steps it took, and what it returned. *)
Definition Result : Type :=
  Backends.State B * list Step * Outcome (option OpMsg * option error).

(** [var reply wire.OpMsg; must.NoError(reply.SetSections(...)); return
    &reply, nil] with the one document of the reply. *)
Definition reply (doc : Document) : Outcome (option OpMsg * option error) :=
  match SetSections OpMsg_zero [docSection doc] with
  | (res, None) => Returned (Some res, None)
  | (_, Some _) => Panicked "must.NoError"
  end.

(** [MsgDistinct] from the call of [c.Query] on: the part that runs under
    the deferred [closer.Close()]. *)
Definition MsgDistinct_query (s : Backends.State B) (c : C) (params : DistinctParams)
  : Result :=
  let '(s1, r) := Backends.Query c s None in
  match r with
  | Panicked p => (s1, [EvQuery], Panicked p)
  | Returned (_, Some err) =>
      (s1, [EvQuery], Returned (None, Some (lazyerrors_Error_backend err)))
  | Returned (None, None) => (s1, [EvQuery], Panicked "nil pointer dereference")
  | Returned (Some queryRes, None) =>
      let iter := FilterIterator (Backends.Iter queryRes) (dp_Filter params) in
      let '(s2, d) := FilterDistinctValues s1 iter (dp_Key params) in
      match d with
      | inr err => (s2, [EvQuery; EvCloserAdd], Returned (None, Some (lazyerrors_Error err)))
      | inl distinct =>
          (s2, [EvQuery; EvCloserAdd],
           reply (NewDocument [("values", VArray distinct); ("ok", VDouble float64_one)]))
      end
  end.

(** [MsgDistinct] from the call of [db.Collection] on: the part that runs
    under the deferred [db.Close()]. *)
Definition MsgDistinct_collection (s : Backends.State B) (db : Database)
    (params : DistinctParams) (document : Document) : Result :=
  let '(s1, r) := db_Collection db s (dp_Collection params) in
  match r with
  | inr err =>
      (s1, [EvCollection (dp_Collection params)],
       Returned (None, Some (
         if ErrorCodeIs err Backends.ErrorCodeCollectionNameIsInvalid then
           ErrCommand (NewCommandErrorMsgWithArgument ErrInvalidNamespace
                         ("Invalid collection name: " +:+ dp_Collection params)
                         (Document_Command (Some document)))
         else lazyerrors_Error_backend err)))
  | inl c =>
      let '(s2, evs, out) := MsgDistinct_query s1 c params in
      (s2, EvCollection (dp_Collection params) :: EvNewMultiCloser :: evs ++ [EvCloserClose],
       out)
  end.

Definition MsgDistinct (h : Handler) (s : Backends.State B) (msg : OpMsg) : Result :=
  match OpMsg_Document msg with
  | inr err => (s, [], Returned (None, Some (lazyerrors_Error err)))
  | inl document =>
      match GetDistinctParams document with
      | inr err => (s, [], Returned (None, Some err))
      | inl params =>
          let '(s1, r) := b_Database s (dp_DB params) in
          match r with
          | inr err =>
              (s1, [EvDatabase (dp_DB params) false],
               Returned (None, Some (
                 if ErrorCodeIs err Backends.ErrorCodeDatabaseNameIsInvalid then
                   ErrCommand (NewCommandErrorMsgWithArgument ErrInvalidNamespace
                                 ("Invalid namespace specified '" +:+ dp_DB params +:+ "."
                                  +:+ dp_Collection params +:+ "'")
                                 (Document_Command (Some document)))
                 else lazyerrors_Error_backend err)))
          | inl db =>
              let '(s2, evs, out) := MsgDistinct_collection s1 db params document in
              (db_Close db s2, EvDatabase (dp_DB params) true :: evs ++ [EvDBClose], out)
          end
      end
  end.

Definition MsgExplain (h : Handler) (s : Backends.State B) (msg : OpMsg) : Result :=
  match OpMsg_Document msg with
  | inr err => (s, [], Returned (None, Some (lazyerrors_Error err)))
  | inl document =>
      match GetExplainParams document with
      | inr err => (s, [], Returned (None, Some err))
      | inl params =>
          match os_Hostname with
          | inr err => (s, [], Returned (None, Some (lazyerrors_Error err)))
          | inl hostname =>
              let serverInfo :=
                NewDocument [("host", VString hostname);
                             ("version", VString (MongoDBVersion version_Get));
                             ("gitVersion", VString (Commit version_Get));
                             ("ferretdbVersion", VString (Version version_Get))] in
              match Document_Set (ep_Command params) "$db" (VString (ep_DB params)) with
              | Panicked p => (s, [], Panicked p)
              | Returned cmd =>
                  let queryPlanner := NewDocument [] in
                  (s, [],
                   reply (NewDocument
                            [("queryPlanner", VDocument (fields queryPlanner));
                             ("explainVersion", VString "1");
                             ("command", VDocument (fields cmd));
                             ("serverInfo", VDocument (fields serverInfo));
                             ("pushdown", VBool (negb (DisableFilterPushdown h)));
                             ("sortingPushdown", VBool false);
                             ("limitPushdown", VBool false);
                             ("ok", VDouble float64_one)]))
              end
          end
      end
  end.

(** The steps of a method, and what it returned. *)
Definition steps (r : Result) : list Step := snd (fst r).
Definition returned (r : Result) : Outcome (option OpMsg * option error) := snd r.

(** How many database handles were obtained. *)
Definition opened (evs : list Step) : nat :=
  length (List.filter (fun e => match e with EvDatabase _ true => true | _ => false end) evs).

(** How often a step was taken. *)
Definition count (e : Step) (evs : list Step) : nat :=
  length (List.filter (fun e' => bool_decide (e' = e)) evs).

End Handlers.
End Sqlite.

(** * A concrete handler

    The SQLite handler over the collection kept in memory; the values of
    a key are the values of the field of that name in the documents the
    query yields. *)
Module DemoSqlite.
Import Backends.

Definition distinctValues (s : State DemoBackend.memory) (iter : list ptr) (key : string)
  : list value :=
  omap (fun p => d ← documents s !! p; Document_Get d key) iter.

Definition getDistinctParams (document : Document) : Sqlite.DistinctParams + error :=
  match Document_Get document "distinct", Document_Get document "key",
        Document_Get document "$db" with
  | Some (VString coll), Some (VString key), Some (VString db) =>
      inl (Sqlite.mkDistinctParams db coll key None)
  | _, _, _ => inr (ErrCommand (NewCommandErrorMsg 2 "bad distinct command"))
  end.

#[global] Instance environment : Sqlite.Environment := {|
  Sqlite.B := DemoBackend.memory;
  Sqlite.Database := string;
  Sqlite.C := unit;
  Sqlite.C_Collection := DemoBackend.memory_Collection;
  Sqlite.Iterator := list ptr;
  Sqlite.GetDistinctParams := getDistinctParams;
  Sqlite.GetExplainParams := fun document =>
    inl (Sqlite.mkExplainParams "test" document);
  Sqlite.b_Database := fun s name =>
    if decide (name = "") then
      (s, inr (BackendError ErrorCodeDatabaseNameIsInvalid "invalid database name"))
    else (s, inl name);
  Sqlite.db_Close := fun _ s => s;
  Sqlite.db_Collection := fun _ s name =>
    if decide (name = "") then
      (s, inr (BackendError ErrorCodeCollectionNameIsInvalid "invalid collection name"))
    else (s, inl tt);
  Sqlite.FilterIterator := fun iter _ => iter;
  Sqlite.FilterDistinctValues := fun s iter key => (s, inl (distinctValues s iter key));
  Sqlite.lazyerrors_Error_backend := fun err =>
    match err with BackendError _ msg | OtherError msg => ErrOther msg end;
  Sqlite.lazyerrors_Error := fun err => err;
  Sqlite.ErrorCodeIs := fun err code =>
    match err with
    | BackendError c _ => bool_decide (c = code)
    | OtherError _ => false
    end;
  Sqlite.NewCommandErrorMsgWithArgument := fun code msg argument =>
    {| ceCode := code; ceMsg := msg; ceInfo := Some {| Argument := argument |} |};
  Sqlite.ErrInvalidNamespace := 73;
  Sqlite.os_Hostname := inl "localhost";
  Sqlite.version_Get := Sqlite.mkInfo "v1.8.0" "unknown" "6.0.42";
  Sqlite.Document_Set := fun d key v =>
    Returned {| fields := fields d ++ [(key, v)]; frozen := frozen d |}
|}.

(** [{distinct: coll, key: "v", $db: db}]. *)
Definition distinctMsg (db coll : string) : OpMsg :=
  mkOpMsg 0 [docSection (NewDocument [("distinct", VString coll); ("key", VString "v");
                                      ("$db", VString db)])].

End DemoSqlite.

(** * Notions used by the properties of the storage contract *)

(** The document [Freeze] leaves at an address: the same fields, marked. *)
Definition frozenCopy (d : Document) : Document :=
  {| fields := fields d; frozen := true |}.

(** * Notions used by the properties of the runner *)
Section RunnerNotions.
Context `{Collaborators}.

(** The run that first shows [evs] and then behaves as [r]. *)
Definition prependRun (evs : list Event) (r : runOut) : runOut :=
  mkRunOut (out_conn r) (out_world r) (evs ++ out_events r) (out_err r).

(** The [OP_MSG] that carries the document of a protocol error. *)
Definition errorResponse (pe : ProtoErr) : OpMsg :=
  mkOpMsg 0 [docSection (ProtoErr_Document pe)].

(** The connection after one more request id was issued. *)
Definition stamped (c : conn) : conn := snd (lastRequestID_Add1 c).

(** A call of the local handler. *)
Definition isHandlerCall (e : Event) : bool :=
  match e with
  | EvHandler _ _ | EvCmdQuery _ => true
  | _ => false
  end.

(** A handler error logged by [route]. *)
Definition isHandlerError (e : Event) : bool :=
  match e with
  | EvLog level (LogHandlerError _ _ _) => bool_decide (level = ErrorLevel)
  | _ => false
  end.

(** A response that [logResponse] reports above debug level: an [OP_MSG]
    whose [ok] is not 1. *)
Definition failedResponse (hd : MsgHeader) (body : option MsgBody) : Prop :=
  OpCode hd = OpCodeMsg /\
  exists m doc, body = Some (BodyMsg m) /\ OpMsg_Document m = inl doc /\ ok_is_one doc = false.


(** The levels at which the diffs of the two responses are logged. *)
Definition diffLevels (evs : list Event) : list Z :=
  omap (fun e => match e with EvLog l (LogDiff _ _ _ _) => Some l | _ => None end) evs.

(** The upstream server answers the request with something [logResponse]
    can render (outside normal mode; in normal mode nothing is asked of
    it). *)
Definition upstreamReplies (c : conn) (w : World) (reqHeader : MsgHeader) (reqBody : MsgBody)
  : Prop :=
  mode c <> NormalMode ->
  exists r, proxy c = Some r
    /\ exists evs lvl,
        logResponse "Proxy response" (fst (snd (r w reqHeader reqBody)))
          (snd (snd (r w reqHeader reqBody))) false = (evs, Returned lvl).

(** A connection as [newConn] makes it: outside normal mode it has a proxy
    router. *)
Definition hasProxy (c : conn) : Prop :=
  mode c <> NormalMode -> exists r, proxy c = Some r.

End RunnerNotions.

(** * Notions used by the further properties of the runner *)
Section RunnerNotionsFurther.
Context `{Collaborators}.


(** An effect of handling a request locally: a call of the handler, a
    metric of [route], a handler error. *)
Definition isLocal (e : Event) : bool :=
  match e with
  | EvHandler _ _ | EvCmdQuery _ | EvRequestsInc _ _ | EvResponsesInc _ _ _ _
  | EvLog _ (LogHandlerError _ _ _) => true
  | EvLog _ (LogResponseHeader who _) | EvLog _ (LogResponseMessage who _) =>
      bool_decide (who = "Response")
  | _ => false
  end.

(** An effect of mirroring a request: the call of the proxy, the records
    of its response, the diff. *)
Definition isMirror (e : Event) : bool :=
  match e with
  | EvProxyRoute _ _ | EvLog _ (LogDiff _ _ _ _) => true
  | EvLog _ (LogResponseHeader who _) | EvLog _ (LogResponseMessage who _) =>
      bool_decide (who = "Proxy response")
  | _ => false
  end.

(** A call that can change the [World]: of the handler or of the proxy. *)
Definition isCall (e : Event) : bool :=
  match e with
  | EvHandler _ _ | EvCmdQuery _ | EvProxyRoute _ _ => true
  | _ => false
  end.

(** The levels at which responses are logged. *)
Definition responseLevels (evs : list Event) : list Z :=
  omap (fun e => match e with
                 | EvLog l (LogResponseHeader _ _) | EvLog l (LogResponseMessage _ _) => Some l
                 | _ => None
                 end) evs.

(** The increments of the metric of responses: opcode, command, argument
    and result. *)
Definition responsesIncs (evs : list Event) : list (Z * string * string * string) :=
  omap (fun e => match e with
                 | EvResponsesInc opcode command argument result =>
                     Some (opcode, command, argument, result)
                 | _ => None
                 end) evs.

(** The increments of the metric of requests. *)
Definition requestsIncs (evs : list Event) : list (Z * string) :=
  omap (fun e => match e with
                 | EvRequestsInc opcode command => Some (opcode, command)
                 | _ => None
                 end) evs.

End RunnerNotionsFurther.

(** * Properties of the runner *)


Lemma int32_range (z : Z) : MinInt32 <= int32 z <= MaxInt32.
Proof.
  unfold int32, MinInt32, MaxInt32.
  pose proof (Z.mod_pos_bound (z + 2147483648) 4294967296). lia.
Qed.

Lemma errorOpMsg_returns `{Collaborators} (pe : ProtoErr) :
  errorOpMsg pe = Returned (errorResponse pe).
Proof. reflexivity. Qed.

Lemma errorResponse_Document `{Collaborators} (pe : ProtoErr) :
  OpMsg_Document (errorResponse pe) = inl (ProtoErr_Document pe).
Proof. reflexivity. Qed.

Lemma run_continue `{Collaborators} (c : conn) (w : World) (i : Input) (rest : list Input) :
  it_status (run_iter c w i) = Continue ->
  run c w (i :: rest) =
    prependRun (it_events (run_iter c w i))
      (run (it_conn (run_iter c w i)) (it_world (run_iter c w i)) rest).
Proof.
  intros Hst. unfold run, prependRun. simpl. rewrite Hst. simpl.
  destruct (it_status (run_loop _ _ rest)); simpl; try reflexivity.
  by rewrite app_assoc.
Qed.

Lemma run_stop `{Collaborators} (c : conn) (w : World) (i : Input) (rest : list Input) :
  it_status (run_iter c w i) <> Continue ->
  run c w (i :: rest) = run c w [i].
Proof.
  intros Hst. unfold run. simpl.
  destruct (it_status (run_iter c w i)) eqn:E; [done | |]; by rewrite E.
Qed.

Lemma run_invalid_ok `{Collaborators} (c : conn) (w : World) (i : Input) (reqHeader : MsgHeader)
    (validationErr : ValidationError) (b : list Byte.byte) :
  MarshalBinary (BodyMsg (errorResponse (ProtocolError (ErrValidation validationErr)))) = inl b ->
  in_write i = None ->
  in_flush i = None ->
  run_invalid c w i reqHeader validationErr =
    mkIterOut (stamped c) w
      [EvAtomicAdd (lastRequestID (stamped c));
       EvWrite {| MessageLength := int32 (MsgHeaderLen + Z.of_nat (length b));
                  RequestID := lastRequestID (stamped c);
                  ResponseTo := RequestID reqHeader;
                  OpCode := OpCode reqHeader |}
         (BodyMsg (errorResponse (ProtocolError (ErrValidation validationErr))));
       EvFlush]
      Continue.
Proof.
  intros Hm Hw Hf. unfold run_invalid. rewrite errorOpMsg_returns, Hm.
  unfold writeFlush. rewrite Hw, Hf. reflexivity.
Qed.

(** C1. A message whose decoding fails with a validation error does not end
    the run: the runner builds an [OP_MSG] from the document of the
    validation error ([ok] is 0.0), stamps it with the next request id and
    with the request id of the offending message, writes and flushes it,
    and goes on with the rest of what the connection delivers. *)
Theorem validation_error_is_answered `{Collaborators} (c : conn) (w : World) (i : Input)
    (rest : list Input)
    (reqHeader : MsgHeader) (validationErr : ValidationError) (b : list Byte.byte) :
  let doc := ProtoErr_Document (ProtocolError (ErrValidation validationErr)) in
  let res := mkOpMsg 0 [docSection doc] in
  let hd := {| MessageLength := int32 (MsgHeaderLen + Z.of_nat (length b));
               RequestID := int32 (lastRequestID c + 1);
               ResponseTo := RequestID reqHeader;
               OpCode := OpCode reqHeader |} in
  in_read i = ReadInvalid reqHeader validationErr ->
  MarshalBinary (BodyMsg res) = inl b ->
  in_write i = None ->
  in_flush i = None ->
  run c w (i :: rest) =
    prependRun [EvAtomicAdd (int32 (lastRequestID c + 1)); EvWrite hd (BodyMsg res); EvFlush]
      (run (stamped c) w rest)
  /\ out_err (run c w [i]) = None
  /\ OpMsg_Document res = inl doc
  /\ Document_Get doc "ok" = Some (VDouble float64_zero).
Proof.
  intros doc res hd Hr Hm Hw Hf.
  assert (Hit : run_iter c w i =
                mkIterOut (stamped c) w
                  [EvAtomicAdd (int32 (lastRequestID c + 1)); EvWrite hd (BodyMsg res); EvFlush]
                  Continue).
  { unfold run_iter. rewrite Hr. by apply run_invalid_ok. }
  split; [| split; [| split]].
  - rewrite run_continue; rewrite Hit; reflexivity.
  - rewrite run_continue; rewrite Hit; reflexivity.
  - reflexivity.
  - reflexivity.
Qed.

Lemma validation_error_is_answered_witness :
  out_err (run Demo.normalConn 0%nat [Demo.malformed 12 OpCodeQuery]) = None
  /\ written (out_events (run Demo.normalConn 0%nat
                            [Demo.malformed 12 OpCodeQuery; Demo.request 13 "ping"])) =
       [({| MessageLength := 53; RequestID := 1; ResponseTo := 12; OpCode := OpCodeQuery |},
         BodyMsg (errorResponse
                    (ProtocolError (ErrValidation {| veMsg := "invalid message length" |}))));
        ({| MessageLength := 29; RequestID := 2; ResponseTo := 13; OpCode := OpCodeMsg |},
         BodyMsg Demo.okMsg)].
Proof.
  pose proof (validation_error_is_answered Demo.normalConn 0%nat
                (Demo.malformed 12 OpCodeQuery) [Demo.request 13 "ping"]
                {| MessageLength := 15; RequestID := 12; ResponseTo := 0; OpCode := OpCodeQuery |}
                {| veMsg := "invalid message length" |}
                (repeat Byte.x00 37)
                eq_refl eq_refl eq_refl eq_refl) as (Hrun & Hopen & _ & _).
  split; [exact Hopen |].
  rewrite Hrun. reflexivity.
Defined.

(** C10. The response to a validation error copies the opcode of the
    request into its header, while its body is an [OP_MSG]: the frame that
    answers a malformed [OP_QUERY] carries the opcode [OP_QUERY], not
    [OP_MSG], in front of an [OP_MSG] body. *)
Theorem validation_response_copies_opcode `{Collaborators} (c : conn) (w : World)
    (i : Input) (reqHeader : MsgHeader) (validationErr : ValidationError)
    (b : list Byte.byte) :
  in_read i = ReadInvalid reqHeader validationErr ->
  MarshalBinary (BodyMsg (errorResponse (ProtocolError (ErrValidation validationErr)))) = inl b ->
  in_write i = None ->
  exists hd res,
    written (it_events (run_iter c w i)) = [(hd, BodyMsg res)]
    /\ OpCode hd = OpCode reqHeader
    /\ (OpCode reqHeader = OpCodeQuery -> OpCode hd = OpCodeQuery /\ OpCode hd <> OpCodeMsg).
Proof.
  intros Hr Hm Hw. unfold run_iter. rewrite Hr. unfold run_invalid.
  rewrite errorOpMsg_returns, Hm. unfold writeFlush. rewrite Hw.
  eexists _, _. destruct (in_flush i); simpl; (split; [reflexivity |]);
    (split; [reflexivity |]); intros ->; done.
Qed.

Lemma validation_response_copies_opcode_witness :
  exists hd res,
    written (it_events (run_iter Demo.normalConn 0%nat (Demo.malformed 12 OpCodeQuery))) =
      [(hd, BodyMsg res)]
    /\ OpCode hd = OpCodeQuery.
Proof.
  destruct (validation_response_copies_opcode Demo.normalConn 0%nat
              (Demo.malformed 12 OpCodeQuery)
              {| MessageLength := 15; RequestID := 12; ResponseTo := 0; OpCode := OpCodeQuery |}
              {| veMsg := "invalid message length" |}
              (repeat Byte.x00 37) eq_refl eq_refl eq_refl) as (hd & res & Hw & Hop & _).
  exists hd, res. split; [exact Hw | exact Hop].
Defined.

(** ** What [route] returns *)

Lemma route_finish_returned `{Collaborators} (c : conn) (w : World) (evs : list Event)
    (reqHeader : MsgHeader) (opcode : Z) (command argument result : string)
    (body : option MsgBody) (r : routeRet) :
  ro_ret (route_finish c w evs reqHeader opcode command argument result body) = Returned r ->
  exists bd b,
    body = Some bd /\ MarshalBinary bd = inl b
    /\ r = mkRet {| MessageLength := int32 (MsgHeaderLen + Z.of_nat (length b));
                    RequestID := int32 (lastRequestID c + 1);
                    ResponseTo := RequestID reqHeader;
                    OpCode := opcode |} (Some bd) false
    /\ ro_conn (route_finish c w evs reqHeader opcode command argument result body) = stamped c
    /\ issued (ro_events (route_finish c w evs reqHeader opcode command argument result body))
       = issued evs ++ [int32 (lastRequestID c + 1)].
Proof.
  unfold route_finish. destruct body as [bd |]; [| discriminate].
  destruct (MarshalBinary bd) as [b | e] eqn:Hm; [| discriminate].
  simpl. intros [= <-]. exists bd, b. repeat split; try done.
  unfold issued. by rewrite omap_app.
Qed.

Lemma route_finish_not_returned `{Collaborators} (c : conn) (w : World) (evs : list Event)
    (reqHeader : MsgHeader) (opcode : Z) (command argument result : string)
    (body : option MsgBody) (p : string) :
  ro_ret (route_finish c w evs reqHeader opcode command argument result body) = Panicked p ->
  ro_conn (route_finish c w evs reqHeader opcode command argument result body) = c
  /\ issued (ro_events (route_finish c w evs reqHeader opcode command argument result body))
     = issued evs.
Proof.
  unfold route_finish. destruct body as [bd |].
  - destruct (MarshalBinary bd) as [b | e] eqn:Hm; [discriminate |].
    simpl. intros _. split; [done |]. unfold issued. rewrite omap_app. simpl. by rewrite app_nil_r.
  - simpl. intros _. split; [done |]. unfold issued. rewrite omap_app. simpl. by rewrite app_nil_r.
Qed.

Lemma route_switch_issued `{Collaborators} (c : conn) (w : World) (reqHeader : MsgHeader)
    (reqBody : MsgBody) :
  issued (sw_events (route_switch c w reqHeader reqBody)) = [].
Proof.
  unfold route_switch, handleOpMsg.
  repeat (case_decide || case_match || simplify_eq || simpl); reflexivity.
Qed.

(** The two ways in which [route] returns: with a stamped response and the
    connection left open, or without a stamp and asking to close. *)
Lemma route_returned `{Collaborators} (c : conn) (w : World) (reqHeader : MsgHeader)
    (reqBody : MsgBody) (r : routeRet) :
  ro_ret (route c w reqHeader reqBody) = Returned r ->
  (closeConn r = false
   /\ exists bd b,
       resBody r = Some bd /\ MarshalBinary bd = inl b
       /\ resHeader r = {| MessageLength := int32 (MsgHeaderLen + Z.of_nat (length b));
                           RequestID := int32 (lastRequestID c + 1);
                           ResponseTo := RequestID reqHeader;
                           OpCode := sw_opcode (route_switch c w reqHeader reqBody) |}
       /\ ro_conn (route c w reqHeader reqBody) = stamped c
       /\ issued (ro_events (route c w reqHeader reqBody)) = [int32 (lastRequestID c + 1)])
  \/ (closeConn r = true
      /\ sw_opcode (route_switch c w reqHeader reqBody) <> OpCodeMsg
      /\ resHeader r = {| MessageLength := 0; RequestID := 0; ResponseTo := 0;
                          OpCode := sw_opcode (route_switch c w reqHeader reqBody) |}
      /\ ro_conn (route c w reqHeader reqBody) = c
      /\ issued (ro_events (route c w reqHeader reqBody)) = []
      /\ exists e, In e (ro_events (route c w reqHeader reqBody)) /\ isHandlerError e = true).
Proof.
  pose proof (route_switch_issued c w reqHeader reqBody) as Hsw.
  remember (route c w reqHeader reqBody) as ro eqn:Hro.
  unfold route in Hro.
  destruct (sw_out (route_switch c w reqHeader reqBody)) as [[body err] | p];
    [| subst ro; discriminate].
  set (evs := sw_events _ ++ [EvRequestsInc _ _]) in Hro.
  assert (Hevs : issued evs = []).
  { unfold evs, issued in *. rewrite omap_app, Hsw. reflexivity. }
  assert (Hfin : forall command argument result bd',
             ro = route_finish c (sw_world (route_switch c w reqHeader reqBody)) evs reqHeader
                    (sw_opcode (route_switch c w reqHeader reqBody))
                    command argument result bd' ->
             ro_ret ro = Returned r ->
             closeConn r = false
             /\ exists bd b,
                 resBody r = Some bd /\ MarshalBinary bd = inl b
                 /\ resHeader r =
                      {| MessageLength := int32 (MsgHeaderLen + Z.of_nat (length b));
                         RequestID := int32 (lastRequestID c + 1);
                         ResponseTo := RequestID reqHeader;
                         OpCode := sw_opcode (route_switch c w reqHeader reqBody) |}
                 /\ ro_conn ro = stamped c
                 /\ issued (ro_events ro) = [int32 (lastRequestID c + 1)]).
  { intros command argument result bd' -> Hret.
    destruct (route_finish_returned _ _ _ _ _ _ _ _ _ _ Hret) as (bd & b & Hb & Hm & -> & Hc & Hi).
    split; [done |]. exists bd, b. rewrite Hc, Hi, Hevs. done. }
  destruct err as [e |].
  - destruct (decide (sw_opcode (route_switch c w reqHeader reqBody) = OpCodeMsg)) as [Hop | Hop].
    + rewrite errorOpMsg_returns in Hro. intros Hret. left. by eapply Hfin.
    + destruct (decide (sw_opcode (route_switch c w reqHeader reqBody)
                        ∈ OpCodeQuery :: legacyOpCodes));
        subst ro; simpl; intros [= <-]; right; simpl;
        (split; [done |]); (split; [done |]); (split; [done |]); (split; [done |]);
        (split; [unfold issued in *; rewrite omap_app, Hevs; reflexivity |]);
        eexists; (split; [apply in_or_app; right; left; reflexivity | reflexivity]).
  - intros Hret. left. by eapply Hfin.
Qed.

(** ** Which steps issue request ids and write frames *)

Lemma issued_app `{Collaborators} (evs1 evs2 : list Event) :
  issued (evs1 ++ evs2) = issued evs1 ++ issued evs2.
Proof. apply omap_app. Qed.

Lemma written_app `{Collaborators} (evs1 evs2 : list Event) :
  written (evs1 ++ evs2) = written evs1 ++ written evs2.
Proof. apply omap_app. Qed.

(** Splits the results of the steps of an iteration into cases. *)
Ltac step_cases :=
  repeat (simplify_eq || case_decide || case_match || simpl in * ).

Lemma logResponse_quiet `{Collaborators} (who : string) (hd : option MsgHeader)
    (body : option MsgBody) (cc : bool) :
  issued (fst (logResponse who hd body cc)) = []
  /\ written (fst (logResponse who hd body cc)) = [].
Proof. unfold logResponse. step_cases; done. Qed.

Lemma run_proxy_quiet `{Collaborators} (c : conn) (w w1 : World) (reqHeader : MsgHeader)
    (reqBody : MsgBody) (evs : list Event) (res : option MsgHeader * option MsgBody) :
  run_proxy c w reqHeader reqBody = Returned (w1, evs, res) ->
  issued evs = [] /\ written evs = [].
Proof. unfold run_proxy. intros Hp. step_cases; done. Qed.

Lemma run_logProxy_quiet `{Collaborators} (c : conn) (hd : option MsgHeader)
    (body : option MsgBody) (lvl : Z) :
  issued (fst (run_logProxy c hd body lvl)) = []
  /\ written (fst (run_logProxy c hd body lvl)) = [].
Proof.
  unfold run_logProxy. pose proof (logResponse_quiet "Proxy response" hd body false).
  step_cases; done.
Qed.

Lemma run_diff_quiet `{Collaborators} (c : conn) (l : locals) (hd : option MsgHeader)
    (body : option MsgBody) (lvl : Z) :
  issued (run_diff c l hd body lvl) = [] /\ written (run_diff c l hd body lvl) = [].
Proof. unfold run_diff. step_cases; done. Qed.

Lemma run_send_issued `{Collaborators} (i : Input) (res : option MsgHeader * option MsgBody)
    (cc : bool) :
  issued (fst (run_send i res cc)) = [].
Proof. unfold run_send, writeFlush. step_cases; done. Qed.

Lemma route_switch_written `{Collaborators} (c : conn) (w : World) (reqHeader : MsgHeader)
    (reqBody : MsgBody) :
  written (sw_events (route_switch c w reqHeader reqBody)) = [].
Proof. unfold route_switch, handleOpMsg. step_cases; reflexivity. Qed.

(** [route] writes nothing to the client. *)
Lemma route_written `{Collaborators} (c : conn) (w : World) (reqHeader : MsgHeader)
    (reqBody : MsgBody) :
  written (ro_events (route c w reqHeader reqBody)) = [].
Proof.
  pose proof (route_switch_written c w reqHeader reqBody) as Hsw.
  unfold route, route_finish, lastRequestID_Add1.
  destruct (sw_out (route_switch c w reqHeader reqBody)) as [[body err] | p];
    step_cases; rewrite ?written_app, ?Hsw; reflexivity.
Qed.

(** [route] issues at most one request id: the next one, exactly when it
    returns a response and leaves the connection open. *)
Lemma route_issued `{Collaborators} (c : conn) (w : World) (reqHeader : MsgHeader)
    (reqBody : MsgBody) :
  (ro_conn (route c w reqHeader reqBody) = c
   /\ issued (ro_events (route c w reqHeader reqBody)) = [])
  \/ (ro_conn (route c w reqHeader reqBody) = stamped c
      /\ issued (ro_events (route c w reqHeader reqBody)) = [int32 (lastRequestID c + 1)]).
Proof.
  destruct (ro_ret (route c w reqHeader reqBody)) as [r | p] eqn:Hret.
  - destruct (route_returned _ _ _ _ _ Hret)
      as [(_ & bd & b & _ & _ & _ & Hc & Hi) | (_ & _ & _ & Hc & Hi & _)]; auto.
  - left. pose proof (route_switch_issued c w reqHeader reqBody) as Hsw.
    revert Hret. unfold route.
    destruct (sw_out (route_switch c w reqHeader reqBody)) as [[body err] | p'].
    + set (evs := sw_events _ ++ [EvRequestsInc _ _]).
      assert (Hevs : issued evs = []) by (unfold evs; rewrite issued_app, Hsw; reflexivity).
      destruct err as [e |].
      * destruct (decide (sw_opcode (route_switch c w reqHeader reqBody) = OpCodeMsg)).
        -- rewrite errorOpMsg_returns. intros Hp.
           destruct (route_finish_not_returned _ _ _ _ _ _ _ _ _ _ Hp) as [Hc Hi].
           by rewrite Hc, Hi.
        -- case_decide; discriminate.
      * intros Hp. destruct (route_finish_not_returned _ _ _ _ _ _ _ _ _ _ Hp) as [Hc Hi].
        by rewrite Hc, Hi.
    + simpl. intros _. split; [done |]. by rewrite issued_app, Hsw.
Qed.

Lemma run_message_issued `{Collaborators} (c : conn) (w : World) (i : Input)
    (reqHeader : MsgHeader) (reqBody : MsgBody) :
  (it_conn (run_message c w i reqHeader reqBody) = c
   /\ issued (it_events (run_message c w i reqHeader reqBody)) = [])
  \/ (it_conn (run_message c w i reqHeader reqBody) = stamped c
      /\ issued (it_events (run_message c w i reqHeader reqBody)) = [int32 (lastRequestID c + 1)]).
Proof.
  unfold run_message.
  destruct (run_proxy c w reqHeader reqBody) as [[[w1 evs1] [ph pb]] | p] eqn:Hp; [| by left].
  destruct (run_proxy_quiet _ _ _ _ _ _ _ Hp) as [Hi1 _].
  assert (Hloc : (fst (fst (fst (run_local c w1 reqHeader reqBody 0))) = c
                  /\ issued (snd (fst (run_local c w1 reqHeader reqBody 0))) = [])
                 \/ (fst (fst (fst (run_local c w1 reqHeader reqBody 0))) = stamped c
                     /\ issued (snd (fst (run_local c w1 reqHeader reqBody 0)))
                        = [int32 (lastRequestID c + 1)])).
  { unfold run_local. case_decide; [| by left].
    pose proof (route_issued c w1 reqHeader reqBody) as Hro.
    destruct (ro_ret (route c w1 reqHeader reqBody)) as [r | p]; [| exact Hro].
    pose proof (logResponse_quiet "Response" (Some (resHeader r)) (resBody r) (closeConn r))
      as [Hl _].
    destruct (logResponse "Response" _ _ _) as [evs [lvl | p]]; simpl in *;
      rewrite issued_app, Hl, app_nil_r; exact Hro. }
  destruct (run_local c w1 reqHeader reqBody 0) as [[[c2 w2] evs2] [l | p]]; simpl in Hloc.
  - pose proof (run_logProxy_quiet c ph pb (l_diffLogLevel l)) as [Hi3 _].
    destruct (run_logProxy c ph pb (l_diffLogLevel l)) as [evs3 [lvl | p]]; simpl in Hi3.
    + pose proof (run_diff_quiet c l ph pb lvl) as [Hi4 _].
      pose proof (run_send_issued i (run_select c l ph pb) (l_resCloseConn l)) as Hi5.
      destruct (run_send i _ _) as [evs5 st]; simpl in *.
      rewrite !issued_app, Hi1, Hi3, Hi4, Hi5, !app_nil_r. exact Hloc.
    + simpl. rewrite !issued_app, Hi1, Hi3, !app_nil_r. exact Hloc.
  - simpl. rewrite !issued_app, Hi1. exact Hloc.
Qed.

(** An iteration issues at most one request id, the next one, and leaves
    it in the counter. *)
Lemma run_iter_issued `{Collaborators} (c : conn) (w : World) (i : Input) :
  (it_conn (run_iter c w i) = c /\ issued (it_events (run_iter c w i)) = [])
  \/ (it_conn (run_iter c w i) = stamped c
      /\ issued (it_events (run_iter c w i)) = [int32 (lastRequestID c + 1)]).
Proof.
  unfold run_iter. destruct (in_read i) as [reqHeader reqBody | reqHeader ve | e].
  - apply run_message_issued.
  - unfold run_invalid. rewrite errorOpMsg_returns.
    destruct (MarshalBinary (BodyMsg _)); [| by left].
    right. unfold writeFlush, stamped, lastRequestID_Add1. step_cases; split; reflexivity.
  - by left.
Qed.

(** ** The frames an iteration writes *)






(** ** The request ids a connection issues *)





Lemma run_issued `{Collaborators} (script : list Input) (c : conn) (w : World) :
  issued (out_events (run c w script)) = issued (it_events (run_loop c w script)).
Proof.
  unfold run. destruct (it_status (run_loop c w script)); simpl; try reflexivity.
  rewrite issued_app. simpl. by rewrite app_nil_r.
Qed.






(** ** Mirrored modes *)

Lemma run_local_events `{Collaborators} (c : conn) (w : World) (reqHeader : MsgHeader)
    (reqBody : MsgBody) (lvl : Z) :
  mode c <> ProxyMode ->
  exists evs,
    snd (fst (run_local c w reqHeader reqBody lvl))
    = ro_events (route c w reqHeader reqBody) ++ evs.
Proof.
  intros Hm. unfold run_local. destruct (decide (mode c <> ProxyMode)); [| done].
  destruct (ro_ret (route c w reqHeader reqBody)) as [r | p].
  - destruct (logResponse "Response" _ _ _) as [evs [l | p]]; by exists evs.
  - exists []. by rewrite app_nil_r.
Qed.

(** The events of an iteration that handles a decoded message begin with
    the two records of the request and the events of the proxy step, and
    go on with those of the local step. *)
Lemma run_message_events `{Collaborators} (c : conn) (w w1 : World) (i : Input)
    (reqHeader : MsgHeader) (reqBody : MsgBody) (evs1 : list Event)
    (res : option MsgHeader * option MsgBody) :
  run_proxy c w reqHeader reqBody = Returned (w1, evs1, res) ->
  exists evs,
    it_events (run_message c w i reqHeader reqBody)
    = [EvLog DebugLevel (LogRequestHeader reqHeader);
       EvLog DebugLevel (LogRequestMessage reqBody)]
      ++ evs1 ++ snd (fst (run_local c w1 reqHeader reqBody 0)) ++ evs.
Proof.
  intros Hp. unfold run_message. rewrite Hp. destruct res as [ph pb].
  destruct (run_local c w1 reqHeader reqBody 0) as [[[c2 w2] evs2] [l | p]]; simpl.
  - destruct (run_logProxy c ph pb (l_diffLogLevel l)) as [evs3 [lvl | p]].
    + destruct (run_send i _ _) as [evs5 st]. simpl. by eexists.
    + simpl. by eexists.
  - exists []. by rewrite app_nil_r.
Qed.

(** C5. Outside normal mode, the iteration that handles a decoded request
    first sends it to the upstream proxy and takes its response; the local
    handler runs afterwards, in the world the upstream call has left. No
    call of the local handler comes before the call of the proxy. *)
Theorem proxy_is_called_before_handler `{Collaborators} (c : conn) (w : World) (i : Input)
    (reqHeader : MsgHeader) (reqBody : MsgBody) :
  mode c <> NormalMode ->
  in_read i = ReadMsg reqHeader reqBody ->
  (forall r, proxy c = Some r ->
     exists evs,
       it_events (run_iter c w i)
       = [EvLog DebugLevel (LogRequestHeader reqHeader);
          EvLog DebugLevel (LogRequestMessage reqBody);
          EvProxyRoute reqHeader reqBody] ++ evs
       /\ (mode c <> ProxyMode ->
           exists evs', evs = ro_events (route c (fst (r w reqHeader reqBody)) reqHeader reqBody)
                              ++ evs'))
  /\ (forall (k : nat) (e : Event),
        it_events (run_iter c w i) !! k = Some e ->
        isHandlerCall e = true ->
        (2 < k)%nat
        /\ it_events (run_iter c w i) !! 2%nat = Some (EvProxyRoute reqHeader reqBody)).
Proof.
  intros Hmode Hr. unfold run_iter. rewrite Hr.
  assert (Hfirst : forall r, proxy c = Some r ->
            exists evs,
              it_events (run_message c w i reqHeader reqBody)
              = [EvLog DebugLevel (LogRequestHeader reqHeader);
                 EvLog DebugLevel (LogRequestMessage reqBody);
                 EvProxyRoute reqHeader reqBody] ++ evs
              /\ (mode c <> ProxyMode ->
                  exists evs', evs = ro_events (route c (fst (r w reqHeader reqBody))
                                                  reqHeader reqBody) ++ evs')).
  { intros r Hpr.
    assert (Hp : run_proxy c w reqHeader reqBody
                 = Returned (fst (r w reqHeader reqBody), [EvProxyRoute reqHeader reqBody],
                             snd (r w reqHeader reqBody))).
    { unfold run_proxy. destruct (decide (mode c <> NormalMode)); [| done].
      rewrite Hpr. by destruct (r w reqHeader reqBody). }
    destruct (run_message_events _ _ _ i _ _ _ _ Hp) as [evs Hevs].
    eexists. split; [rewrite Hevs; reflexivity |].
    intros Hm. destruct (run_local_events c (fst (r w reqHeader reqBody)) reqHeader reqBody 0 Hm)
      as [evs' ->].
    eexists. by rewrite <- app_assoc. }
  split; [exact Hfirst |].
  intros k e Hk He. destruct (proxy c) as [r |] eqn:Hpr.
  - destruct (Hfirst r eq_refl) as (evs & Hevs & _). rewrite Hevs in *.
    destruct k as [| [| [| k]]]; simpl in Hk; simplify_eq; try discriminate.
    split; [lia | reflexivity].
  - exfalso. revert Hk. unfold run_message, run_proxy.
    destruct (decide (mode c <> NormalMode)); [| done]. rewrite Hpr. simpl.
    destruct k as [| [| k]]; simpl; intros Hk; simplify_eq; discriminate.
Qed.

Lemma proxy_is_called_before_handler_witness :
  exists evs,
    it_events (run_iter Demo.diffNormalConn 0%nat (Demo.request 11 "ping"))
    = [EvLog DebugLevel (LogRequestHeader (mkMsgHeader 60 11 0 OpCodeMsg));
       EvLog DebugLevel (LogRequestMessage (BodyMsg (Demo.cmdMsg "ping")));
       EvProxyRoute (mkMsgHeader 60 11 0 OpCodeMsg) (BodyMsg (Demo.cmdMsg "ping"))] ++ evs
    /\ it_events (run_iter Demo.diffNormalConn 0%nat (Demo.request 11 "ping")) !! 3%nat
       = Some (EvHandler "ping" (Demo.cmdMsg "ping")).
Proof.
  destruct (proj1 (proxy_is_called_before_handler Demo.diffNormalConn 0%nat
                     (Demo.request 11 "ping") (mkMsgHeader 60 11 0 OpCodeMsg)
                     (BodyMsg (Demo.cmdMsg "ping"))
                     ltac:(discriminate) eq_refl) Demo.upstream eq_refl)
    as (evs & Hevs & _).
  exists evs. split; [exact Hevs | reflexivity].
Defined.

(** ** Iterations that answer with the local response *)

Lemma newConn_hasProxy `{Collaborators} (opts : newConnOpts) (c : conn) :
  newConn opts = Returned (inl c) ->
  hasProxy c /\ lastRequestID c = 0 /\ mode c = o_mode opts.
Proof.
  unfold newConn, hasProxy. intros Hn. step_cases; (split; [| done]); eauto; done.
Qed.

(** The level at which [logResponse] reports a response it can render. *)
Lemma logResponse_level `{Collaborators} (who : string) (hd : MsgHeader)
    (body : option MsgBody) (cc : bool) (evs : list Event) (l : Z) :
  logResponse who (Some hd) body cc = (evs, Returned l) ->
  evs = [EvLog l (LogResponseHeader who hd); EvLog l (LogResponseMessage who body)]
  /\ (failedResponse hd body -> l = if cc then ErrorLevel else WarnLevel)
  /\ (~ failedResponse hd body -> l = DebugLevel).
Proof.
  unfold logResponse, failedResponse. intros Hl.
  destruct (decide (OpCode hd = OpCodeMsg)) as [Hop | Hop].
  - destruct body as [[m | q | r] |]; try discriminate.
    destruct (OpMsg_Document m) as [doc | e] eqn:Hd; [| discriminate].
    destruct (ok_is_one doc) eqn:Hok; simplify_eq; (split; [done |]); split.
    + intros (_ & m' & doc' & ? & Hd' & Hok'). simplify_eq. congruence.
    + done.
    + done.
    + intros Hn. exfalso. apply Hn. split; [done |]. by exists m, doc.
  - simplify_eq. split; [done |]. split; [| done]. intros [? _]. done.
Qed.

Lemma run_message_sends_local `{Collaborators} (c : conn) (w w1 : World) (i : Input)
    (reqHeader : MsgHeader) (reqBody : MsgBody) (evs1 evsL evsP : list Event)
    (ph : option MsgHeader) (pb : option MsgBody) (r : routeRet) (l1 l2 : Z) :
  run_proxy c w reqHeader reqBody = Returned (w1, evs1, (ph, pb)) ->
  mode c <> ProxyMode ->
  mode c <> DiffProxyMode ->
  ro_ret (route c w1 reqHeader reqBody) = Returned r ->
  logResponse "Response" (Some (resHeader r)) (resBody r) (closeConn r) = (evsL, Returned l1) ->
  run_logProxy c ph pb (raiseLevel l1 0) = (evsP, Returned l2) ->
  run_message c w i reqHeader reqBody
  = mkIterOut (ro_conn (route c w1 reqHeader reqBody)) (ro_world (route c w1 reqHeader reqBody))
      ([EvLog DebugLevel (LogRequestHeader reqHeader);
        EvLog DebugLevel (LogRequestMessage reqBody)]
       ++ evs1 ++ (ro_events (route c w1 reqHeader reqBody) ++ evsL) ++ evsP
       ++ run_diff c (mkLocals (Some (resHeader r)) (resBody r) (closeConn r) (raiseLevel l1 0))
            ph pb l2
       ++ fst (run_send i (Some (resHeader r), resBody r) (closeConn r)))
      (snd (run_send i (Some (resHeader r), resBody r) (closeConn r))).
Proof.
  intros Hp Hm1 Hm2 Hret HlL HlP. unfold run_message. rewrite Hp.
  unfold run_local. destruct (decide (mode c <> ProxyMode)); [| done].
  rewrite Hret, HlL. cbn [l_diffLogLevel l_resCloseConn]. rewrite HlP.
  unfold run_select.
  destruct (decide (mode c = ProxyMode \/ mode c = DiffProxyMode)) as [[? | ?] |];
    [done | done |].
  cbn [l_resHeader l_resBody]. by destruct (run_send i _ _).
Qed.

Lemma written_sends_local `{Collaborators} (c : conn) (w1 : World) (reqHeader : MsgHeader)
    (reqBody : MsgBody) (evs1 evsL evsP evs5 : list Event) (l : locals)
    (ph : option MsgHeader) (pb : option MsgBody) (l2 : Z) :
  written evs1 = [] -> written evsL = [] -> written evsP = [] ->
  written ([EvLog DebugLevel (LogRequestHeader reqHeader);
            EvLog DebugLevel (LogRequestMessage reqBody)]
           ++ evs1 ++ (ro_events (route c w1 reqHeader reqBody) ++ evsL) ++ evsP
           ++ run_diff c l ph pb l2 ++ evs5)
  = written evs5.
Proof.
  intros H1 HL HP. pose proof (run_diff_quiet c l ph pb l2) as [_ Hd].
  rewrite !written_app, H1, HL, HP, Hd, route_written. reflexivity.
Qed.

(** The proxy step of a connection that has its router, if it needs one. *)
Lemma run_proxy_returns `{Collaborators} (c : conn) (w : World) (reqHeader : MsgHeader)
    (reqBody : MsgBody) :
  hasProxy c ->
  exists w1 evs1 res,
    run_proxy c w reqHeader reqBody = Returned (w1, evs1, res)
    /\ written evs1 = [] /\ issued evs1 = []
    /\ (mode c = NormalMode -> w1 = w).
Proof.
  unfold hasProxy, run_proxy. intros Hp.
  destruct (decide (mode c <> NormalMode)) as [Hm | Hm].
  - destruct (Hp Hm) as [r ->]. destruct (r w reqHeader reqBody) as [w1 res].
    by exists w1, [EvProxyRoute reqHeader reqBody], res.
  - by exists w, [], (None, None).
Qed.

(** ** Legacy opcodes *)

Lemma legacy_not_routed (opcode : Z) :
  opcode ∈ legacyOpCodes -> opcode <> OpCodeMsg /\ opcode <> OpCodeQuery.
Proof.
  rewrite list_elem_of_In. simpl. intros Hop. split; intros ->; intuition discriminate.
Qed.

Lemma route_legacy `{Collaborators} (c : conn) (w : World) (reqHeader : MsgHeader)
    (reqBody : MsgBody) :
  OpCode reqHeader ∈ legacyOpCodes ->
  route c w reqHeader reqBody
  = mkRouteOut c w
      [EvRequestsInc (OpCode reqHeader) "unknown";
       EvLog ErrorLevel
         (LogHandlerError "Handler error for unexpected response opcode"
            (ErrOpCode "unhandled OpCode %s" (OpCode reqHeader)) 0);
       route_deferred 0 "unknown" "" "unexpected"]
      (Returned (mkRet MsgHeader_zero None true)).
Proof.
  intros Hop. destruct (legacy_not_routed _ Hop) as [Hmsg Hquery].
  unfold route, route_switch.
  destruct (decide (OpCode reqHeader = OpCodeMsg)); [done |].
  destruct (decide (OpCode reqHeader = OpCodeQuery)); [done |].
  destruct (decide (OpCode reqHeader ∈ legacyOpCodes)); [| done].
  reflexivity.
Qed.

Lemma run_iter_legacy `{Collaborators} (c : conn) (w : World) (i : Input)
    (reqHeader : MsgHeader) (reqBody : MsgBody) :
  mode c <> ProxyMode ->
  mode c <> DiffProxyMode ->
  hasProxy c ->
  in_read i = ReadMsg reqHeader reqBody ->
  OpCode reqHeader ∈ legacyOpCodes ->
  exists w1 evs p,
    run_iter c w i = mkIterOut c w1 evs (Panic p)
    /\ written evs = []
    /\ In (EvLog ErrorLevel
             (LogHandlerError "Handler error for unexpected response opcode"
                (ErrOpCode "unhandled OpCode %s" (OpCode reqHeader)) 0)) evs.
Proof.
  intros Hm1 Hm2 Hpx Hr Hop. unfold run_iter. rewrite Hr.
  destruct (run_proxy_returns c w reqHeader reqBody Hpx)
    as (w1 & evs1 & [ph pb] & Hp & Hw1 & _ & _).
  unfold run_message. rewrite Hp. unfold run_local.
  destruct (decide (mode c <> ProxyMode)); [| done].
  rewrite route_legacy by done. cbn [ro_ret ro_conn ro_world ro_events resHeader resBody closeConn].
  change (logResponse "Response" (Some MsgHeader_zero) None true)
    with ([EvLog DebugLevel (LogResponseHeader "Response" MsgHeader_zero);
           EvLog DebugLevel (LogResponseMessage "Response" None)], @Returned Z DebugLevel).
  cbn [l_diffLogLevel l_resCloseConn].
  pose proof (run_logProxy_quiet c ph pb (raiseLevel DebugLevel 0)) as [_ Hw3].
  destruct (run_logProxy c ph pb (raiseLevel DebugLevel 0)) as [evs3 [lvl | p]]; simpl in Hw3.
  - unfold run_select.
    destruct (decide (mode c = ProxyMode \/ mode c = DiffProxyMode)) as [[? | ?] |];
      [done | done |].
    cbn [l_resHeader l_resBody run_send].
    eexists _, _, _. split; [reflexivity |]. split.
    + pose proof (run_diff_quiet c (mkLocals (Some MsgHeader_zero) None true
                                      (raiseLevel DebugLevel 0)) ph pb lvl) as [_ Hw4].
      rewrite !written_app, Hw1, Hw3, Hw4. reflexivity.
    + apply in_or_app. right. apply in_or_app. right. apply in_or_app. left.
      simpl. auto.
  - eexists _, _, _. split; [reflexivity |]. split.
    + rewrite !written_app, Hw1, Hw3. reflexivity.
    + apply in_or_app. right. apply in_or_app. right. apply in_or_app. left.
      simpl. auto.
Qed.

(** C7, as amended. In a mode that answers with the local response (normal
    and diff-normal), a message with a legacy opcode makes [route] log a
    handler error; the runner writes no frame for it and the run ends in
    that iteration: nothing that follows on the connection is read. *)
Theorem legacy_opcode_ends_connection `{Collaborators} (c : conn) (w : World) (i : Input)
    (rest : list Input) (reqHeader : MsgHeader) (reqBody : MsgBody) :
  mode c <> ProxyMode ->
  mode c <> DiffProxyMode ->
  hasProxy c ->
  in_read i = ReadMsg reqHeader reqBody ->
  OpCode reqHeader ∈ legacyOpCodes ->
  (exists e, In e (out_events (run c w (i :: rest))) /\ isHandlerError e = true)
  /\ written (out_events (run c w (i :: rest))) = []
  /\ out_err (run c w (i :: rest)) = Some (ErrOther "panic")
  /\ run c w (i :: rest) = run c w [i].
Proof.
  intros Hm1 Hm2 Hpx Hr Hop.
  destruct (run_iter_legacy c w i reqHeader reqBody Hm1 Hm2 Hpx Hr Hop)
    as (w1 & evs & p & Hit & Hw & Hin).
  assert (Hstop : run c w (i :: rest) = run c w [i]).
  { apply run_stop. by rewrite Hit. }
  rewrite Hstop. unfold run. simpl. rewrite Hit. simpl.
  split; [| split; [| split]]; try done.
  - eexists. split; [apply in_or_app; left; exact Hin | reflexivity].
  - rewrite written_app, Hw. reflexivity.
Qed.

Lemma legacy_opcode_ends_connection_witness :
  written (out_events (run Demo.normalConn 0%nat [Demo.legacy 5; Demo.request 6 "ping"])) = []
  /\ out_err (run Demo.normalConn 0%nat [Demo.legacy 5; Demo.request 6 "ping"])
     = Some (ErrOther "panic").
Proof.
  destruct (legacy_opcode_ends_connection Demo.normalConn 0%nat (Demo.legacy 5)
              [Demo.request 6 "ping"] (mkMsgHeader 36 5 0 OpCodeReply)
              (BodyReply (mkOpReply 0 []))
              ltac:(discriminate) ltac:(discriminate) ltac:(intros Hm; by destruct Hm)
              eq_refl ltac:(by left)) as (_ & Hw & Herr & _).
  split; [exact Hw | exact Herr].
Defined.

(** C7, as stated, fails in proxy mode: a message with the legacy opcode
    [OP_REPLY] is forwarded like any other; no handler error is logged,
    the reply of the upstream server is written, and the connection goes
    on to serve the next request. *)
Lemma legacy_opcode_is_proxied :
  let o := run Demo.proxyConn 0%nat [Demo.legacy 5; Demo.request 6 "ping"] in
  OpCodeReply ∈ legacyOpCodes
  /\ existsb isHandlerError (out_events o) = false
  /\ (ResponseTo ∘ fst) <$> written (out_events o) = [5; 6]
  /\ out_err o = None.
Proof.
  cbv zeta. split; [by left |]. split; [reflexivity |]. split; reflexivity.
Qed.

(** ** Unknown commands *)

Lemma route_unknown_command `{Collaborators} (c : conn) (w : World) (reqHeader : MsgHeader)
    (msg : OpMsg) (doc : Document) (b : list Byte.byte) :
  let command := Document_Command (Some doc) in
  let res := errorResponse (PECommand (NewCommandErrorMsg ErrCommandNotFound
                                         ("no such command: '" +:+ command +:+ "'"))) in
  OpCode reqHeader = OpCodeMsg ->
  OpMsg_Document msg = inl doc ->
  Commands !! command = None ->
  MarshalBinary (BodyMsg res) = inl b ->
  route c w reqHeader (BodyMsg msg)
  = mkRouteOut (stamped c) w
      [EvRequestsInc (OpCode reqHeader) (if decide (command = "") then "unknown" else command);
       EvAtomicAdd (int32 (lastRequestID c + 1));
       route_deferred OpCodeMsg (if decide (command = "") then "unknown" else command)
         "" "CommandNotFound"]
      (Returned (mkRet {| MessageLength := int32 (MsgHeaderLen + Z.of_nat (length b));
                          RequestID := int32 (lastRequestID c + 1);
                          ResponseTo := RequestID reqHeader;
                          OpCode := OpCodeMsg |}
                   (Some (BodyMsg res)) false)).
Proof.
  intros command res Hop Hdoc Hcmd Hm. unfold route, route_switch, handleOpMsg.
  destruct (decide (OpCode reqHeader = OpCodeMsg)); [| done].
  rewrite Hdoc. fold command. rewrite Hcmd.
  cbn [sw_out sw_world sw_events sw_command sw_opcode].
  destruct (decide (OpCodeMsg = OpCodeMsg)); [| done].
  rewrite errorOpMsg_returns. unfold route_finish.
  change (ProtocolError (ErrCommand ?e)) with (PECommand e).
  fold res. rewrite Hm. reflexivity.
Qed.

Lemma proxy_steps `{Collaborators} (c : conn) (w : World) (reqHeader : MsgHeader)
    (reqBody : MsgBody) :
  upstreamReplies c w reqHeader reqBody ->
  exists w1 evs1 ph pb,
    run_proxy c w reqHeader reqBody = Returned (w1, evs1, (ph, pb))
    /\ written evs1 = []
    /\ forall lvl, exists evsP l2,
         run_logProxy c ph pb lvl = (evsP, Returned l2) /\ written evsP = [].
Proof.
  unfold upstreamReplies, run_proxy, run_logProxy. intros Hup.
  destruct (decide (mode c <> NormalMode)) as [Hm | Hm].
  - destruct (Hup Hm) as (r & -> & evs & l & Hl).
    destruct (r w reqHeader reqBody) as [w1 [ph pb]]. simpl in Hl.
    exists w1, [EvProxyRoute reqHeader reqBody], ph, pb. split; [done |]. split; [done |].
    intros lvl. rewrite Hl. eexists _, _. split; [reflexivity |].
    pose proof (logResponse_quiet "Proxy response" ph pb false) as [_ Hq].
    by rewrite Hl in Hq.
  - exists w, [], None, None. split; [done |]. split; [done |].
    intros lvl. by exists [], lvl.
Qed.

(** C8, as amended. In a mode that answers with the local response (normal,
    and diff-normal when the upstream reply can be logged), an [OP_MSG]
    request whose command name is not in the registry is answered with an
    [OP_MSG] whose document has [ok] 0.0, [code] 59, [codeName]
    "CommandNotFound" and an [errmsg] that starts with "no such command";
    the run goes on with the rest of what the connection delivers. *)
Theorem unknown_command_is_answered `{Collaborators} (c : conn) (w : World) (i : Input)
    (rest : list Input) (reqHeader : MsgHeader) (msg : OpMsg) (doc : Document)
    (b : list Byte.byte) :
  let command := Document_Command (Some doc) in
  let errmsg := "no such command: '" +:+ command +:+ "'" in
  let errDoc := CommandError_Document (NewCommandErrorMsg ErrCommandNotFound errmsg) in
  let res := mkOpMsg 0 [docSection errDoc] in
  let hd := {| MessageLength := int32 (MsgHeaderLen + Z.of_nat (length b));
               RequestID := int32 (lastRequestID c + 1);
               ResponseTo := RequestID reqHeader;
               OpCode := OpCodeMsg |} in
  mode c <> ProxyMode ->
  mode c <> DiffProxyMode ->
  upstreamReplies c w reqHeader (BodyMsg msg) ->
  in_read i = ReadMsg reqHeader (BodyMsg msg) ->
  OpCode reqHeader = OpCodeMsg ->
  OpMsg_Document msg = inl doc ->
  Commands !! command = None ->
  MarshalBinary (BodyMsg res) = inl b ->
  in_write i = None ->
  in_flush i = None ->
  (exists evs w1,
      run c w (i :: rest) = prependRun evs (run (stamped c) w1 rest)
      /\ written evs = [(hd, BodyMsg res)])
  /\ OpMsg_Document res = inl errDoc
  /\ Document_Get errDoc "ok" = Some (VDouble float64_zero)
  /\ Document_Get errDoc "code" = Some (VInt32 59)
  /\ Document_Get errDoc "codeName" = Some (VString "CommandNotFound")
  /\ Document_Get errDoc "errmsg" = Some (VString errmsg)
  /\ String.prefix "no such command" errmsg = true.
Proof.
  intros command errmsg errDoc res hd Hm1 Hm2 Hup Hr Hop Hdoc Hcmd Hm Hw Hf.
  split; [| repeat split; reflexivity].
  destruct (proxy_steps c w reqHeader (BodyMsg msg) Hup)
    as (w1 & evs1 & ph & pb & Hp & Hw1 & HlP).
  pose proof (route_unknown_command c w1 reqHeader msg doc b Hop Hdoc Hcmd Hm) as Hroute.
  destruct (HlP (raiseLevel WarnLevel 0)) as (evsP & l2 & HP & HwP).
  assert (HlL : logResponse "Response" (Some hd) (Some (BodyMsg res)) false
                = ([EvLog WarnLevel (LogResponseHeader "Response" hd);
                    EvLog WarnLevel (LogResponseMessage "Response" (Some (BodyMsg res)))],
                   Returned WarnLevel)) by reflexivity.
  assert (Hret : ro_ret (route c w1 reqHeader (BodyMsg msg))
                 = Returned (mkRet hd (Some (BodyMsg res)) false)) by (by rewrite Hroute).
  pose proof (run_message_sends_local c w w1 i reqHeader (BodyMsg msg) evs1 _ evsP ph pb
                _ WarnLevel l2 Hp Hm1 Hm2 Hret HlL HP) as Hit.
  assert (Hri : run_iter c w i = run_message c w i reqHeader (BodyMsg msg))
    by (unfold run_iter; by rewrite Hr).
  rewrite <- Hri, Hroute in Hit.
  cbn [ro_conn ro_world ro_events resHeader resBody closeConn run_send] in Hit.
  unfold writeFlush in Hit. rewrite Hw, Hf in Hit. cbn [fst snd] in Hit.
  eexists _, w1. split.
  - rewrite run_continue by (by rewrite Hit). rewrite Hit. reflexivity.
  - cbn [it_events].
    pose proof (run_diff_quiet c (mkLocals (Some hd) (Some (BodyMsg res)) false
                                    (raiseLevel WarnLevel 0)) ph pb l2) as [_ Hd].
    rewrite !written_app, Hw1, HwP, Hd. reflexivity.
Qed.

Lemma unknown_command_is_answered_witness :
  exists evs w1,
    run Demo.normalConn 0%nat [Demo.request 13 "Ping"; Demo.request 14 "ping"]
    = prependRun evs (run (stamped Demo.normalConn) w1 [Demo.request 14 "ping"])
    /\ (ResponseTo ∘ fst) <$> written evs = [13]
    /\ Commands !! "ping" = Some (mkCommand (Some Demo.handlePing) "Returns a pong response.")
    /\ Commands !! "Ping" = None.
Proof.
  destruct (unknown_command_is_answered Demo.normalConn 0%nat (Demo.request 13 "Ping")
              [Demo.request 14 "ping"] (mkMsgHeader 60 13 0 OpCodeMsg) (Demo.cmdMsg "Ping")
              (NewDocument [("Ping", VInt32 1); ("$db", VString "admin")])
              (repeat Byte.x00 37)
              ltac:(discriminate) ltac:(discriminate) ltac:(intros Hm; by destruct Hm)
              eq_refl eq_refl eq_refl eq_refl eq_refl eq_refl eq_refl)
    as ((evs & w1 & Hrun & Hw) & _).
  exists evs, w1. split; [exact Hrun |]. split; [by rewrite Hw |].
  split; reflexivity.
Defined.

(** C8, as stated, fails in proxy mode: a request with the command
    [mapReduce], which the registry does not have, is forwarded, and the
    client receives the answer of the upstream server, whose [ok] is
    1.0. *)
Lemma unknown_command_is_proxied :
  let o := run Demo.proxyConn 0%nat [Demo.request 13 "mapReduce"] in
  Commands !! "mapReduce" = None
  /\ issued (out_events o) = []
  /\ written (out_events o)
     = [({| MessageLength := 0; RequestID := 7000; ResponseTo := 13; OpCode := OpCodeMsg |},
         BodyMsg (mkOpMsg 0 [docSection Demo.upstreamDoc]))]
  /\ Document_Get Demo.upstreamDoc "ok" = Some (VDouble float64_one)
  /\ Document_Get Demo.upstreamDoc "code" = None.
Proof. cbv zeta. repeat split; reflexivity. Qed.

(** ** Diff modes *)

(** Whether a response counts as failed is decidable. *)
Lemma failedResponse_dec `{Collaborators} (hd : MsgHeader) (body : option MsgBody) :
  failedResponse hd body \/ ~ failedResponse hd body.
Proof.
  unfold failedResponse.
  destruct (decide (OpCode hd = OpCodeMsg)) as [Hop | Hop]; [| right; by intros [? _]].
  destruct body as [[m | q | r] |]; try (right; intros (_ & ? & ? & ? & _); congruence).
  destruct (OpMsg_Document m) as [doc | e] eqn:Hd;
    [| right; intros (_ & ? & ? & ? & ? & _); congruence].
  destruct (ok_is_one doc) eqn:Hok.
  - right. intros (_ & ? & ? & ? & ? & ?). simplify_eq. congruence.
  - left. split; [done |]. by exists m, doc.
Qed.

Lemma raiseLevel_warn (l1 l2 : Z) :
  (l1 = DebugLevel \/ l1 = WarnLevel) ->
  (l2 = DebugLevel \/ l2 = WarnLevel) ->
  (l1 = WarnLevel \/ l2 = WarnLevel) ->
  raiseLevel l2 (raiseLevel l1 0) = WarnLevel.
Proof.
  unfold raiseLevel, DebugLevel, WarnLevel. intros [-> | ->] [-> | ->] [Hw | Hw];
    try discriminate; reflexivity.
Qed.

(** C6, as amended. In diff-normal mode the client receives the local
    response, and the diff of the two responses is logged at warning level
    whenever the local response or the proxy response is an [OP_MSG] whose
    [ok] is not 1, whether the two responses agree or not. *)
Theorem diff_normal_answers_locally `{Collaborators} (c : conn) (w : World) (i : Input)
    (reqHeader : MsgHeader) (reqBody : MsgBody) (upstream : Router World) (r : routeRet)
    (body : MsgBody) (evsL evsP : list Event) (l1 l2 : Z) :
  let w1 := fst (upstream w reqHeader reqBody) in
  let ph := fst (snd (upstream w reqHeader reqBody)) in
  let pb := snd (snd (upstream w reqHeader reqBody)) in
  mode c = DiffNormalMode ->
  proxy c = Some upstream ->
  in_read i = ReadMsg reqHeader reqBody ->
  ro_ret (route c w1 reqHeader reqBody) = Returned r ->
  resBody r = Some body ->
  logResponse "Response" (Some (resHeader r)) (Some body) (closeConn r) = (evsL, Returned l1) ->
  logResponse "Proxy response" ph pb false = (evsP, Returned l2) ->
  in_write i = None ->
  written (it_events (run_iter c w i)) = [(resHeader r, body)]
  /\ (failedResponse (resHeader r) (Some body)
      \/ (exists hdP, ph = Some hdP /\ failedResponse hdP pb) ->
      In (EvLog WarnLevel (LogDiff (Some (resHeader r)) ph (Some body) pb))
         (it_events (run_iter c w i))).
Proof.
  intros w1 ph pb Hmode Hpx Hr Hret Hbody HlL HlP Hw.
  assert (Hm0 : mode c <> NormalMode) by (rewrite Hmode; discriminate).
  assert (Hm1 : mode c <> ProxyMode) by (rewrite Hmode; discriminate).
  assert (Hm2 : mode c <> DiffProxyMode) by (rewrite Hmode; discriminate).
  assert (Hp : run_proxy c w reqHeader reqBody
               = Returned (w1, [EvProxyRoute reqHeader reqBody], (ph, pb))).
  { unfold run_proxy. destruct (decide (mode c <> NormalMode)); [| done].
    rewrite Hpx. subst w1 ph pb. by destruct (upstream w reqHeader reqBody) as [? [? ?]]. }
  assert (HP : run_logProxy c ph pb (raiseLevel l1 0)
               = (evsP, Returned (raiseLevel l2 (raiseLevel l1 0)))).
  { unfold run_logProxy. destruct (decide (mode c <> NormalMode)); [| done]. by rewrite HlP. }
  rewrite <- Hbody in HlL.
  pose proof (run_message_sends_local c w w1 i reqHeader reqBody _ evsL evsP ph pb r l1 _
                Hp Hm1 Hm2 Hret HlL HP) as Hit.
  assert (Hri : run_iter c w i = run_message c w i reqHeader reqBody)
    by (unfold run_iter; by rewrite Hr).
  rewrite <- Hri in Hit. rewrite Hit. cbn [it_events].
  pose proof (logResponse_quiet "Response" (Some (resHeader r)) (resBody r) (closeConn r))
    as [_ HqL].
  pose proof (logResponse_quiet "Proxy response" ph pb false) as [_ HqP].
  rewrite HlL in HqL. rewrite HlP in HqP. simpl in HqL, HqP.
  split.
  - rewrite written_sends_local by done.
    rewrite Hbody. unfold run_send, writeFlush. rewrite Hw.
    by destruct (in_flush i), (closeConn r).
  - intros Hfailed.
    destruct ph as [hdP |] eqn:Hph; [| discriminate].
    rewrite Hbody in HlL.
    destruct (logResponse_level _ _ _ _ _ _ HlL) as (_ & HL1 & HL2).
    destruct (logResponse_level _ _ _ _ _ _ HlP) as (_ & HP1 & HP2).
    assert (Hopen : failedResponse (resHeader r) (Some body) -> closeConn r = false).
    { intros [Hop _].
      destruct (route_returned _ _ _ _ _ Hret) as [(? & _) | (_ & Hne & Hh & _)]; [done |].
      rewrite Hh in Hop. done. }
    assert (Hl1 : l1 = DebugLevel \/ l1 = WarnLevel).
    { destruct (failedResponse_dec (resHeader r) (Some body)) as [Hf | Hf].
      - right. rewrite (HL1 Hf), (Hopen Hf). reflexivity.
      - left. by apply HL2. }
    assert (Hl2 : l2 = DebugLevel \/ l2 = WarnLevel).
    { destruct (failedResponse_dec hdP pb) as [Hf | Hf].
      - right. by apply HP1.
      - left. by apply HP2. }
    assert (Hwarn : l1 = WarnLevel \/ l2 = WarnLevel).
    { destruct Hfailed as [Hf | (hd' & [= <-] & Hf)].
      - left. rewrite (HL1 Hf), (Hopen Hf). reflexivity.
      - right. by apply HP1. }
    unfold run_diff.
    destruct (decide (mode c = DiffNormalMode \/ mode c = DiffProxyMode)) as [_ | Hn];
      [| by destruct Hn; left].
    rewrite (raiseLevel_warn l1 l2 Hl1 Hl2 Hwarn). rewrite Hbody.
    apply in_or_app. right. apply in_or_app. right. apply in_or_app. right.
    apply in_or_app. right. apply in_or_app. left. by left.
Qed.

Lemma diff_normal_answers_locally_witness :
  exists hd body ph pb,
    written (it_events (run_iter Demo.diffNormalConn 0%nat (Demo.request 13 "Ping")))
    = [(hd, body)]
    /\ ResponseTo hd = 13
    /\ In (EvLog WarnLevel (LogDiff (Some hd) ph (Some body) pb))
          (it_events (run_iter Demo.diffNormalConn 0%nat (Demo.request 13 "Ping"))).
Proof.
  edestruct (diff_normal_answers_locally Demo.diffNormalConn 0%nat (Demo.request 13 "Ping")
               (mkMsgHeader 60 13 0 OpCodeMsg) (BodyMsg (Demo.cmdMsg "Ping")) Demo.upstream)
    as [Hw Hin]; [reflexivity .. |].
  eexists _, _, _, _. split; [exact Hw |]. split; [reflexivity |].
  apply Hin. left. split; [reflexivity |].
  eexists _, _. split; [reflexivity |]. split; reflexivity.
Defined.

(** C6, as stated, fails. When both responses have [ok] 1.0 the diff is
    logged at info level: at info level, not at warning level, when the
    upstream server answers [ping] with another header and another
    document than the local handler; and at info level, not at debug
    level, when its answer is the same. *)
Lemma diff_level_ignores_disagreement :
  let local := ({| MessageLength := 29; RequestID := 1; ResponseTo := 11; OpCode := OpCodeMsg |},
                BodyMsg Demo.okMsg) in
  let remote := ({| MessageLength := 0; RequestID := 7000; ResponseTo := 11;
                    OpCode := OpCodeMsg |},
                 BodyMsg (mkOpMsg 0 [docSection Demo.upstreamDoc])) in
  let evs := it_events (run_iter Demo.diffNormalConn 0%nat (Demo.request 11 "ping")) in
  let evs' := it_events (run_iter Demo.mirrorConn 0%nat (Demo.request 11 "ping")) in
  local <> remote
  /\ evs !! 11%nat = Some (EvLog InfoLevel (LogDiff (Some (fst local)) (Some (fst remote))
                                             (Some (snd local)) (Some (snd remote))))
  /\ diffLevels evs = [InfoLevel]
  /\ written evs = [local]
  /\ evs' !! 11%nat = Some (EvLog InfoLevel (LogDiff (Some (fst local)) (Some (fst local))
                                              (Some (snd local)) (Some (snd local))))
  /\ diffLevels evs' = [InfoLevel]
  /\ InfoLevel <> WarnLevel /\ InfoLevel <> DebugLevel.
Proof. cbv zeta. repeat split; try reflexivity; discriminate. Qed.

(** * Properties of the storage contract *)

Lemma Freeze_frozen {B : Type} (s : Backends.State B) (doc : Backends.ptr) :
  is_Some (Backends.documents s !! doc) -> Backends.isFrozen (Backends.Freeze doc s) doc.
Proof.
  intros [d Hd]. unfold Backends.isFrozen, Backends.Freeze. simpl.
  rewrite lookup_alter_eq, Hd. simpl. by eexists.
Qed.

Lemma Freeze_keeps {B : Type} (s : Backends.State B) (doc doc' : Backends.ptr) :
  Backends.isFrozen s doc' -> Backends.isFrozen (Backends.Freeze doc s) doc'.
Proof.
  intros (d & Hd & Hf). unfold Backends.isFrozen, Backends.Freeze. simpl.
  rewrite lookup_alter. case_decide as Heq.
  - subst doc'. rewrite Hd. simpl. by eexists.
  - by exists d.
Qed.

Lemma Freeze_present {B : Type} (s : Backends.State B) (doc doc' : Backends.ptr) :
  is_Some (Backends.documents s !! doc') ->
  is_Some (Backends.documents (Backends.Freeze doc s) !! doc').
Proof. intros Hd. unfold Backends.Freeze. simpl. by apply lookup_alter_is_Some. Qed.

Lemma freezeDocs_keeps {B : Type} (docs : list Backends.ptr) (s : Backends.State B)
    (doc : Backends.ptr) :
  Backends.isFrozen s doc -> Backends.isFrozen (Backends.freezeDocs docs s) doc.
Proof.
  revert s. induction docs as [| d docs IH]; intros s Hf; [done |].
  apply IH. by apply Freeze_keeps.
Qed.

(** After the loop over [params.Docs], every document of the slice is
    frozen. *)
Lemma freezeDocs_frozen {B : Type} (docs : list Backends.ptr) (s : Backends.State B)
    (doc : Backends.ptr) :
  doc ∈ docs ->
  is_Some (Backends.documents s !! doc) ->
  Backends.isFrozen (Backends.freezeDocs docs s) doc.
Proof.
  revert s. induction docs as [| d docs IH]; intros s Hin Hd.
  - by apply not_elem_of_nil in Hin.
  - apply elem_of_cons in Hin as [-> | Hin].
    + apply (freezeDocs_keeps docs (Backends.Freeze d s)). by apply Freeze_frozen.
    + apply (IH (Backends.Freeze d s)); [done |]. by apply Freeze_present.
Qed.

Lemma checked_state {B R : Type} (codes : list Backends.ErrorCode)
    (r : Backends.State B * Outcome (option R * option Backends.Error)) :
  fst (Backends.checked codes r) = fst r.
Proof.
  unfold Backends.checked. destruct r as [s [[res err] | p]]; [| done].
  by destruct (Backends.checkError err codes).
Qed.

(** C9. The contract wrapper freezes every document of [params.Docs] and
    only then calls [InsertAll] of the backend, on the store in which they
    are frozen. As a backend cannot thaw a document, every input document
    is frozen in the store the wrapped call leaves, whether it returns a
    result, returns an error or panics. *)
Theorem insertAll_freezes_documents {B C : Type} `{!Backends.Collection (B := B) C}
    (cc : Backends.collectionContract C) (s : Backends.State B)
    (p : Backends.InsertAllParams) :
  let s1 := Backends.freezeDocs (Backends.Docs p) s in
  Backends.collectionContract_InsertAll cc s (Some p)
  = Backends.checked [Backends.ErrorCodeInsertDuplicateID]
      (Backends.InsertAll (Backends.c cc) s1 (Some p))
  /\ (forall doc, doc ∈ Backends.Docs p -> is_Some (Backends.documents s !! doc) ->
        Backends.isFrozen s1 doc)
  /\ (Backends.keepsFrozen (Backends.InsertAll (Backends.c cc)) ->
      forall doc, doc ∈ Backends.Docs p -> is_Some (Backends.documents s !! doc) ->
        Backends.isFrozen (fst (Backends.collectionContract_InsertAll cc s (Some p))) doc).
Proof.
  intros s1. split; [reflexivity |]. split.
  - intros doc Hin Hd. by apply freezeDocs_frozen.
  - intros Hkeep doc Hin Hd. unfold Backends.collectionContract_InsertAll.
    rewrite checked_state.
    destruct (Backends.InsertAll (Backends.c cc) (Backends.freezeDocs (Backends.Docs p) s)
                (Some p)) as [s' r] eqn:Hcall.
    simpl. eapply Hkeep; [exact Hcall |]. by apply freezeDocs_frozen.
Qed.

Lemma demo_backend_keepsFrozen : Backends.keepsFrozen (DemoBackend.insertAll tt).
Proof.
  intros s params s' r doc. unfold DemoBackend.insertAll.
  destruct params as [p |]; [| by intros [= <- _]].
  case_decide; by intros [= <- _].
Qed.

Lemma insertAll_freezes_documents_witness :
  let params := Backends.mkInsertAllParams [2%positive; 1%positive] in
  let out := Backends.collectionContract_InsertAll (Backends.CollectionContract tt)
               DemoBackend.store (Some params) in
  snd out = Returned (None, Some (Backends.BackendError Backends.ErrorCodeInsertDuplicateID
                                    "duplicate _id"))
  /\ Backends.isFrozen (fst out) 1%positive
  /\ Backends.isFrozen (fst out) 2%positive.
Proof.
  cbv zeta.
  destruct (insertAll_freezes_documents (Backends.CollectionContract tt) DemoBackend.store
              (Backends.mkInsertAllParams [2%positive; 1%positive])) as (_ & _ & Hafter).
  split; [reflexivity |].
  split; apply (Hafter demo_backend_keepsFrozen); (set_solver || (by eexists)).
Defined.

(** * Further properties of the runner *)

(** ** The shape of an iteration *)

(** An iteration on a decoded message either panics before it sends
    anything, or goes through all its steps. *)
Lemma run_message_cases `{Collaborators} (c : conn) (w : World) (i : Input)
    (reqHeader : MsgHeader) (reqBody : MsgBody) :
  (exists c2 w2 pre p,
      run_message c w i reqHeader reqBody = mkIterOut c2 w2 pre (Panic p)
      /\ written pre = [])
  \/ (exists w1 evs1 ph pb c2 w2 evs2 l evs3 lvl,
        run_proxy c w reqHeader reqBody = Returned (w1, evs1, (ph, pb))
        /\ run_local c w1 reqHeader reqBody 0 = (c2, w2, evs2, Returned l)
        /\ run_logProxy c ph pb (l_diffLogLevel l) = (evs3, Returned lvl)
        /\ written evs1 = [] /\ written evs2 = [] /\ written evs3 = []
        /\ run_message c w i reqHeader reqBody
           = mkIterOut c2 w2
               ([EvLog DebugLevel (LogRequestHeader reqHeader);
                 EvLog DebugLevel (LogRequestMessage reqBody)]
                ++ evs1 ++ evs2 ++ evs3 ++ run_diff c l ph pb lvl
                ++ fst (run_send i (run_select c l ph pb) (l_resCloseConn l)))
               (snd (run_send i (run_select c l ph pb) (l_resCloseConn l)))).
Proof.
  unfold run_message.
  destruct (run_proxy c w reqHeader reqBody) as [[[w1 evs1] [ph pb]] | p] eqn:Hp.
  2: { left. by eexists _, _, _, _. }
  destruct (run_proxy_quiet _ _ _ _ _ _ _ Hp) as [_ Hw1].
  assert (Hw2 : written (snd (fst (run_local c w1 reqHeader reqBody 0))) = []).
  { unfold run_local. case_decide; [| done].
    pose proof (route_written c w1 reqHeader reqBody) as Hwr.
    destruct (ro_ret (route c w1 reqHeader reqBody)) as [r | p]; [| done].
    pose proof (logResponse_quiet "Response" (Some (resHeader r)) (resBody r) (closeConn r))
      as [_ HwL].
    destruct (logResponse "Response" _ _ _) as [evsL [l1 | p]]; simpl in *;
      by rewrite written_app, Hwr, HwL. }
  destruct (run_local c w1 reqHeader reqBody 0) as [[[c2 w2] evs2] [l | p]] eqn:Hl;
    simpl in Hw2.
  2: { left. eexists _, _, _, _. split; [reflexivity |].
       by rewrite !written_app, Hw1, Hw2. }
  pose proof (run_logProxy_quiet c ph pb (l_diffLogLevel l)) as [_ Hw3].
  destruct (run_logProxy c ph pb (l_diffLogLevel l)) as [evs3 [lvl | p]] eqn:HP;
    simpl in Hw3.
  2: { left. eexists _, _, _, _. split; [reflexivity |].
       by rewrite !written_app, Hw1, Hw2, Hw3. }
  right. exists w1, evs1, ph, pb, c2, w2, evs2, l, evs3, lvl.
  do 6 (split; [done |]).
  by destruct (run_send i (run_select c l ph pb) (l_resCloseConn l)).
Qed.

(** What [run_send] does when the loop goes on. *)
Lemma run_send_continue `{Collaborators} (i : Input) (res : option MsgHeader * option MsgBody)
    (cc : bool) :
  snd (run_send i res cc) = Continue ->
  exists hd body,
    res = (Some hd, Some body) /\ cc = false
    /\ in_write i = None /\ in_flush i = None
    /\ fst (run_send i res cc) = [EvWrite hd body; EvFlush].
Proof.
  unfold run_send, writeFlush. destruct res as [[hd |] [body |]]; try discriminate.
  destruct (in_write i); [discriminate |]. destruct (in_flush i); [discriminate |].
  destruct cc; [discriminate |]. intros _. by exists hd, body.
Qed.

Lemma run_send_written `{Collaborators} (i : Input) (res : option MsgHeader * option MsgBody)
    (cc : bool) (hd : MsgHeader) (body : MsgBody) :
  In (hd, body) (written (fst (run_send i res cc))) ->
  res = (Some hd, Some body) /\ written (fst (run_send i res cc)) = [(hd, body)].
Proof.
  unfold run_send, writeFlush. destruct res as [[hd' |] [body' |]]; try (intros []).
  destruct (in_write i); [intros [] |].
  destruct (in_flush i); simpl; intros [[= <- <-] | []]; done.
Qed.

(** An iteration after which the loop goes on has written and flushed
    exactly one frame, as its last two events. *)
Lemma run_iter_continue `{Collaborators} (c : conn) (w : World) (i : Input) :
  it_status (run_iter c w i) = Continue ->
  in_write i = None /\ in_flush i = None
  /\ exists pre hd body,
      it_events (run_iter c w i) = pre ++ [EvWrite hd body; EvFlush]
      /\ written pre = [].
Proof.
  unfold run_iter. destruct (in_read i) as [reqHeader reqBody | reqHeader ve | e].
  - destruct (run_message_cases c w i reqHeader reqBody)
      as [(c2 & w2 & pre & p & -> & _)
         | (w1 & evs1 & ph & pb & c2 & w2 & evs2 & l & evs3 & lvl
            & _ & _ & _ & Hw1 & Hw2 & Hw3 & ->)]; [discriminate |].
    cbn [it_status it_events]. intros Hst.
    destruct (run_send_continue _ _ _ Hst) as (hd & body & _ & _ & Hw & Hf & ->).
    split; [exact Hw |]. split; [exact Hf |].
    exists ([EvLog DebugLevel (LogRequestHeader reqHeader);
             EvLog DebugLevel (LogRequestMessage reqBody)]
            ++ evs1 ++ evs2 ++ evs3 ++ run_diff c l ph pb lvl), hd, body.
    split.
    { rewrite <- !app_assoc. reflexivity. }
    pose proof (run_diff_quiet c l ph pb lvl) as [_ Hd].
    rewrite !written_app, Hw1, Hw2, Hw3, Hd. reflexivity.
  - unfold run_invalid. rewrite errorOpMsg_returns.
    destruct (MarshalBinary (BodyMsg _)); [| discriminate].
    unfold lastRequestID_Add1, writeFlush.
    destruct (in_write i); [discriminate |]. destruct (in_flush i); [discriminate |].
    intros _. split; [reflexivity |]. split; [reflexivity |].
    eexists [EvAtomicAdd _], _, _. split; reflexivity.
  - discriminate.
Qed.


Lemma run_written `{Collaborators} (c : conn) (w : World) (script : list Input) :
  written (out_events (run c w script)) = written (it_events (run_loop c w script)).
Proof.
  unfold run. destruct (it_status (run_loop c w script)); simpl; try reflexivity.
  rewrite written_app. simpl. by rewrite app_nil_r.
Qed.

Lemma run_open `{Collaborators} (c : conn) (w : World) (script : list Input) :
  out_err (run c w script) = None <-> it_status (run_loop c w script) = Continue.
Proof. unfold run. destruct (it_status (run_loop c w script)); simpl; split; done. Qed.

(** An iteration leaves the connection as it was, but for the counter. *)
Lemma run_iter_conn `{Collaborators} (c : conn) (w : World) (i : Input) :
  mode (it_conn (run_iter c w i)) = mode c
  /\ h (it_conn (run_iter c w i)) = h c
  /\ proxy (it_conn (run_iter c w i)) = proxy c.
Proof. by destruct (run_iter_issued c w i) as [[-> _] | [-> _]]. Qed.




(** ** Runs over longer scripts *)




(** ** What a run keeps *)

Lemma run_loop_conn `{Collaborators} (script : list Input) (c : conn) (w : World) :
  mode (it_conn (run_loop c w script)) = mode c
  /\ h (it_conn (run_loop c w script)) = h c
  /\ proxy (it_conn (run_loop c w script)) = proxy c
  /\ lastRequestID (it_conn (run_loop c w script))
     = default (lastRequestID c) (last (issued (it_events (run_loop c w script)))).
Proof.
  revert c w. induction script as [| i rest IH]; intros c w; [done |].
  simpl. pose proof (run_iter_conn c w i) as (Hm & Hh & Hp).
  assert (Hid : lastRequestID (it_conn (run_iter c w i))
                = default (lastRequestID c) (last (issued (it_events (run_iter c w i))))).
  { by destruct (run_iter_issued c w i) as [[-> ->] | [-> ->]]. }
  destruct (it_status (run_iter c w i)); [| done ..].
  destruct (IH (it_conn (run_iter c w i)) (it_world (run_iter c w i)))
    as (IHm & IHh & IHp & IHid).
  cbn [prepend it_conn it_events]. rewrite IHm, IHh, IHp, IHid, Hid, issued_app.
  do 3 (split; [done |]).
  destruct (issued (it_events (run_loop _ _ rest))) as [| x xs] eqn:Hrest using rev_ind.
  - by rewrite app_nil_r.
  - by rewrite app_assoc, !last_snoc.
Qed.

(** X3. A run changes nothing in the connection but the counter: the mode,
    the handler and the proxy router stay what they were, and the counter
    holds the last request id issued (its initial value if none was). *)
Theorem run_keeps_connection `{Collaborators} (c : conn) (w : World) (script : list Input) :
  mode (out_conn (run c w script)) = mode c
  /\ h (out_conn (run c w script)) = h c
  /\ proxy (out_conn (run c w script)) = proxy c
  /\ lastRequestID (out_conn (run c w script))
     = default (lastRequestID c) (last (issued (out_events (run c w script)))).
Proof.
  rewrite run_issued. pose proof (run_loop_conn script c w) as Hc.
  unfold run. by destruct (it_status (run_loop c w script)).
Qed.

(** ** What the modes never do *)

(** A property of events that holds for the events of every step of an
    iteration holds for all events of the iteration. *)
Lemma run_message_Forall `{Collaborators} (P : Event -> Prop) (c : conn) (w : World)
    (i : Input) (reqHeader : MsgHeader) (reqBody : MsgBody) :
  P (EvLog DebugLevel (LogRequestHeader reqHeader)) ->
  P (EvLog DebugLevel (LogRequestMessage reqBody)) ->
  (forall w1 evs1 res, run_proxy c w reqHeader reqBody = Returned (w1, evs1, res) ->
                       Forall P evs1) ->
  (forall w1, Forall P (snd (fst (run_local c w1 reqHeader reqBody 0)))) ->
  (forall ph pb lvl, Forall P (fst (run_logProxy c ph pb lvl))) ->
  (forall l ph pb lvl, Forall P (run_diff c l ph pb lvl)) ->
  (forall res cc, Forall P (fst (run_send i res cc))) ->
  Forall P (it_events (run_message c w i reqHeader reqBody)).
Proof.
  intros H1 H2 Hp Hl HP Hd Hs. unfold run_message.
  destruct (run_proxy c w reqHeader reqBody) as [[[w1 evs1] [ph pb]] | p] eqn:Hpx.
  2: { simpl. by repeat constructor. }
  specialize (Hp _ _ _ eq_refl). specialize (Hl w1).
  destruct (run_local c w1 reqHeader reqBody 0) as [[[c2 w2] evs2] [l | p]]; simpl in Hl.
  2: { cbn [it_events]. rewrite !Forall_app. by repeat split; repeat constructor. }
  specialize (HP ph pb (l_diffLogLevel l)).
  destruct (run_logProxy c ph pb (l_diffLogLevel l)) as [evs3 [lvl | p]]; simpl in HP.
  2: { cbn [it_events]. rewrite !Forall_app. by repeat split; repeat constructor. }
  specialize (Hs (run_select c l ph pb) (l_resCloseConn l)).
  destruct (run_send i (run_select c l ph pb) (l_resCloseConn l)) as [evs5 st].
  cbn [it_events]. rewrite !Forall_app. by repeat split; repeat constructor.
Qed.

Lemma run_loop_Forall `{Collaborators} (P : Event -> Prop) (I : conn -> Prop)
    (script : list Input) (c : conn) (w : World) :
  (forall c w i, I c -> I (it_conn (run_iter c w i))) ->
  (forall c w i, I c -> Forall P (it_events (run_iter c w i))) ->
  I c ->
  Forall P (it_events (run_loop c w script)).
Proof.
  intros Hinv Hiter. revert c w. induction script as [| i rest IH]; intros c w Hc.
  - constructor.
  - simpl. destruct (it_status (run_iter c w i)); [| by apply Hiter ..].
    cbn [prepend it_events]. apply Forall_app. split; [by apply Hiter |].
    apply IH. by apply Hinv.
Qed.

Lemma run_Forall `{Collaborators} (P : Event -> Prop) (I : conn -> Prop)
    (script : list Input) (c : conn) (w : World) :
  (forall p, P (EvLog DPanicLevel (LogPanic p))) ->
  (forall c w i, I c -> I (it_conn (run_iter c w i))) ->
  (forall c w i, I c -> Forall P (it_events (run_iter c w i))) ->
  I c ->
  Forall P (out_events (run c w script)).
Proof.
  intros Hpanic Hinv Hiter Hc.
  pose proof (run_loop_Forall P I script c w Hinv Hiter Hc) as Hl.
  unfold run. destruct (it_status (run_loop c w script)); cbn [out_events]; try done.
  apply Forall_app. split; [done |]. by repeat constructor.
Qed.

Lemma run_invalid_Forall `{Collaborators} (P : Event -> Prop) (c : conn) (w : World)
    (i : Input) (reqHeader : MsgHeader) (ve : ValidationError) :
  (forall id, P (EvAtomicAdd id)) -> (forall hd body, P (EvWrite hd body)) -> P EvFlush ->
  Forall P (it_events (run_invalid c w i reqHeader ve)).
Proof.
  intros Ha Hw Hf. unfold run_invalid, writeFlush, lastRequestID_Add1.
  step_cases; by repeat constructor.
Qed.

Lemma run_send_Forall `{Collaborators} (P : Event -> Prop) (i : Input)
    (res : option MsgHeader * option MsgBody) (cc : bool) :
  (forall hd body, P (EvWrite hd body)) -> P EvFlush ->
  Forall P (fst (run_send i res cc)).
Proof.
  intros Hw Hf. unfold run_send, writeFlush. step_cases; by repeat constructor.
Qed.

Lemma logResponse_Forall `{Collaborators} (P : Event -> Prop) (who : string)
    (hd : option MsgHeader) (body : option MsgBody) (cc : bool) :
  (forall l hd', P (EvLog l (LogResponseHeader who hd'))) ->
  (forall l body', P (EvLog l (LogResponseMessage who body'))) ->
  Forall P (fst (logResponse who hd body cc)).
Proof.
  intros Hh Hb. unfold logResponse. step_cases; by repeat constructor.
Qed.

(** The events of [route]: calls of the handler, metrics, the increment of
    the counter and handler errors. *)
Lemma route_Forall `{Collaborators} (P : Event -> Prop) (c : conn) (w : World)
    (reqHeader : MsgHeader) (reqBody : MsgBody) :
  (forall command msg, P (EvHandler command msg)) ->
  (forall q, P (EvCmdQuery q)) ->
  (forall opcode command, P (EvRequestsInc opcode command)) ->
  (forall opcode command argument result, P (EvResponsesInc opcode command argument result)) ->
  (forall id, P (EvAtomicAdd id)) ->
  (forall msg e opcode, P (EvLog ErrorLevel (LogHandlerError msg e opcode))) ->
  Forall P (ro_events (route c w reqHeader reqBody)).
Proof.
  intros Hh Hq Hreq Hres Ha He.
  assert (Hsw : Forall P (sw_events (route_switch c w reqHeader reqBody))).
  { unfold route_switch, handleOpMsg. step_cases; by repeat constructor. }
  unfold route, route_finish, lastRequestID_Add1, route_deferred.
  destruct (sw_out (route_switch c w reqHeader reqBody)) as [[body err] | p];
    step_cases; rewrite ?Forall_app; repeat split; by repeat constructor.
Qed.

Lemma run_proxy_Forall `{Collaborators} (P : Event -> Prop) (c : conn) (w w1 : World)
    (reqHeader : MsgHeader) (reqBody : MsgBody) (evs1 : list Event)
    (res : option MsgHeader * option MsgBody) :
  (mode c <> NormalMode -> P (EvProxyRoute reqHeader reqBody)) ->
  run_proxy c w reqHeader reqBody = Returned (w1, evs1, res) ->
  Forall P evs1.
Proof.
  unfold run_proxy. intros HP Hp. step_cases; repeat constructor. by apply HP.
Qed.

(** X4. Proxy mode only proxies: whatever the connection receives, a run in
    proxy mode never calls a handler, never counts a request or a response
    in the metrics of [route], and never logs a local response or a
    handler error. *)
Theorem proxy_mode_never_handles `{Collaborators} (c : conn) (w : World)
    (script : list Input) :
  mode c = ProxyMode ->
  Forall (fun e => isLocal e = false) (out_events (run c w script)).
Proof.
  intros Hmode.
  apply (run_Forall _ (fun c => mode c = ProxyMode)); [done | | | done].
  - intros c' w' i Hc. by rewrite (proj1 (run_iter_conn c' w' i)).
  - intros c' w' i Hc. unfold run_iter.
    destruct (in_read i) as [reqHeader reqBody | reqHeader ve | e].
    + apply run_message_Forall; try done.
      * intros w1 evs1 res. by apply run_proxy_Forall.
      * intros w1. unfold run_local. destruct (decide (mode c' <> ProxyMode)); [done |].
        constructor.
      * intros ph pb lvl. unfold run_logProxy. case_decide; [| constructor].
        pose proof (logResponse_Forall (fun e => isLocal e = false) "Proxy response"
                      ph pb false ltac:(done) ltac:(done)) as Hl.
        by destruct (logResponse "Proxy response" ph pb false) as [evs [l | p]].
      * intros l ph pb lvl. unfold run_diff. case_decide; by repeat constructor.
      * intros res cc. by apply run_send_Forall.
    + by apply run_invalid_Forall.
    + constructor.
Qed.

Lemma proxy_mode_never_handles_witness :
  Forall (fun e => isLocal e = false)
    (out_events (run Demo.proxyConn 0%nat [Demo.request 1 "ping"; Demo.legacy 2])).
Proof. exact (proxy_mode_never_handles Demo.proxyConn 0%nat _ eq_refl). Defined.

(** X5. Normal mode only handles: whatever the connection receives, a run
    in normal mode never calls the proxy, never logs a proxy response and
    never logs a diff. *)
Theorem normal_mode_never_mirrors `{Collaborators} (c : conn) (w : World)
    (script : list Input) :
  mode c = NormalMode ->
  Forall (fun e => isMirror e = false) (out_events (run c w script)).
Proof.
  intros Hmode.
  apply (run_Forall _ (fun c => mode c = NormalMode)); [done | | | done].
  - intros c' w' i Hc. by rewrite (proj1 (run_iter_conn c' w' i)).
  - intros c' w' i Hc. unfold run_iter.
    destruct (in_read i) as [reqHeader reqBody | reqHeader ve | e].
    + apply run_message_Forall; try done.
      * intros w1 evs1 res. by apply run_proxy_Forall.
      * intros w1. unfold run_local. case_decide; [| constructor].
        pose proof (route_Forall (fun e => isMirror e = false) c' w1 reqHeader reqBody
                      ltac:(done) ltac:(done) ltac:(done) ltac:(done) ltac:(done)
                      ltac:(done)) as Hr.
        destruct (ro_ret (route c' w1 reqHeader reqBody)) as [r | p]; [| done].
        pose proof (logResponse_Forall (fun e => isMirror e = false) "Response"
                      (Some (resHeader r)) (resBody r) (closeConn r)
                      ltac:(done) ltac:(done)) as Hl.
        destruct (logResponse "Response" _ _ _) as [evs [l | p]]; simpl in *;
          by apply Forall_app.
      * intros ph pb lvl. unfold run_logProxy.
        destruct (decide (mode c' <> NormalMode)); [done | constructor].
      * intros l ph pb lvl. unfold run_diff. rewrite Hc.
        case_decide as Hd; [by destruct Hd | constructor].
      * intros res cc. by apply run_send_Forall.
    + by apply run_invalid_Forall.
    + constructor.
Qed.

Lemma normal_mode_never_mirrors_witness :
  Forall (fun e => isMirror e = false)
    (out_events (run Demo.normalConn 0%nat [Demo.request 1 "ping"; Demo.legacy 2])).
Proof. exact (normal_mode_never_mirrors Demo.normalConn 0%nat _ eq_refl). Defined.

(** ** What changes the world *)






(** ** Which response reaches the client in the proxy modes *)

(** X7. In proxy mode and in diff-proxy mode the client receives the
    response of the upstream server: a frame written while handling a
    decoded message is, header and body, what the proxy router returned
    for that message. *)
Theorem proxy_modes_answer_with_upstream_reply `{Collaborators} (c : conn) (w : World)
    (i : Input) (reqHeader : MsgHeader) (reqBody : MsgBody) (r : Router World)
    (hd : MsgHeader) (body : MsgBody) :
  mode c = ProxyMode \/ mode c = DiffProxyMode ->
  proxy c = Some r ->
  in_read i = ReadMsg reqHeader reqBody ->
  In (hd, body) (written (it_events (run_iter c w i))) ->
  snd (r w reqHeader reqBody) = (Some hd, Some body).
Proof.
  intros Hmode Hpx Hr. unfold run_iter. rewrite Hr.
  destruct (run_message_cases c w i reqHeader reqBody)
    as [(c2 & w2 & pre & p & -> & Hpre)
       | (w1 & evs1 & ph & pb & c2 & w2 & evs2 & l & evs3 & lvl
          & Hp & _ & _ & Hw1 & Hw2 & Hw3 & ->)]; cbn [it_events].
  { rewrite Hpre. intros []. }
  pose proof (run_diff_quiet c l ph pb lvl) as [_ Hd].
  rewrite !written_app, Hw1, Hw2, Hw3, Hd. simpl. intros Hin.
  destruct (run_send_written _ _ _ _ _ Hin) as [Hsel _].
  unfold run_select in Hsel. destruct (decide (mode c = ProxyMode \/ mode c = DiffProxyMode));
    [| done].
  unfold run_proxy in Hp. rewrite Hpx in Hp.
  destruct (decide (mode c <> NormalMode)) as [_ | Hn].
  - destruct (r w reqHeader reqBody) as [w1' res]. by simplify_eq.
  - exfalso. apply Hn. destruct Hmode as [-> | ->]; discriminate.
Qed.

Lemma proxy_modes_answer_with_upstream_reply_witness :
  written (it_events (run_iter Demo.diffProxyConn 0%nat (Demo.request 13 "Ping")))
  = [({| MessageLength := 0; RequestID := 7000; ResponseTo := 13; OpCode := OpCodeMsg |},
      BodyMsg (mkOpMsg 0 [docSection Demo.upstreamDoc]))]
  /\ snd (Demo.upstream 0%nat (mkMsgHeader 60 13 0 OpCodeMsg) (BodyMsg (Demo.cmdMsg "Ping")))
     = (Some {| MessageLength := 0; RequestID := 7000; ResponseTo := 13; OpCode := OpCodeMsg |},
        Some (BodyMsg (mkOpMsg 0 [docSection Demo.upstreamDoc]))).
Proof.
  split; [reflexivity |].
  apply (proxy_modes_answer_with_upstream_reply Demo.diffProxyConn 0%nat
           (Demo.request 13 "Ping") (mkMsgHeader 60 13 0 OpCodeMsg)
           (BodyMsg (Demo.cmdMsg "Ping")) Demo.upstream);
    [by right | reflexivity | reflexivity | by left].
Defined.

(** ** Log levels *)

Lemma logResponse_level_range `{Collaborators} (who : string) (hd : option MsgHeader)
    (body : option MsgBody) (cc : bool) (evs : list Event) (l : Z) :
  logResponse who hd body cc = (evs, Returned l) ->
  (cc = true -> forall hd', hd = Some hd' -> OpCode hd' <> OpCodeMsg) ->
  (l = DebugLevel \/ l = WarnLevel)
  /\ Forall (fun x => x = l) (responseLevels evs).
Proof.
  unfold logResponse. intros Hl Hcc.
  destruct hd as [hd' |]; [| discriminate].
  destruct (decide (OpCode hd' = OpCodeMsg)) as [Hop | Hop].
  - destruct cc; [by destruct (Hcc eq_refl hd' eq_refl) |].
    step_cases; (split; [auto | by repeat constructor]).
  - simplify_eq. split; [auto | by repeat constructor].
Qed.

(** The response [route] returns with the close flag is not an [OP_MSG]. *)
Lemma route_close_not_msg `{Collaborators} (c : conn) (w : World) (reqHeader : MsgHeader)
    (reqBody : MsgBody) (r : routeRet) :
  ro_ret (route c w reqHeader reqBody) = Returned r ->
  closeConn r = true ->
  OpCode (resHeader r) <> OpCodeMsg.
Proof.
  intros Hret Hcc.
  destruct (route_returned _ _ _ _ _ Hret) as [(Hopen & _) | (_ & Hne & Hh & _)].
  - congruence.
  - by rewrite Hh.
Qed.

Lemma responseLevels_app `{Collaborators} (evs1 evs2 : list Event) :
  responseLevels (evs1 ++ evs2) = responseLevels evs1 ++ responseLevels evs2.
Proof. apply omap_app. Qed.

Lemma diffLevels_app `{Collaborators} (evs1 evs2 : list Event) :
  diffLevels (evs1 ++ evs2) = diffLevels evs1 ++ diffLevels evs2.
Proof. apply omap_app. Qed.

Lemma responseLevels_nil `{Collaborators} (evs : list Event) :
  Forall (fun e => responseLevels [e] = []) evs -> responseLevels evs = [].
Proof.
  induction 1 as [| e evs He _ IH]; [done |].
  change (e :: evs) with ([e] ++ evs). rewrite responseLevels_app, He, IH. done.
Qed.

Lemma diffLevels_nil `{Collaborators} (evs : list Event) :
  Forall (fun e => diffLevels [e] = []) evs -> diffLevels evs = [].
Proof.
  induction 1 as [| e evs He _ IH]; [done |].
  change (e :: evs) with ([e] ++ evs). rewrite diffLevels_app, He, IH. done.
Qed.

(** The levels of the local step: the response is logged at debug or
    warning level, and the level of the diff so far is info or warning. *)
Lemma run_local_levels `{Collaborators} (c : conn) (w1 : World) (reqHeader : MsgHeader)
    (reqBody : MsgBody) :
  Forall (fun l => l = DebugLevel \/ l = WarnLevel)
    (responseLevels (snd (fst (run_local c w1 reqHeader reqBody 0))))
  /\ diffLevels (snd (fst (run_local c w1 reqHeader reqBody 0))) = []
  /\ forall l, snd (run_local c w1 reqHeader reqBody 0) = Returned l ->
               l_diffLogLevel l = InfoLevel \/ l_diffLogLevel l = WarnLevel.
Proof.
  unfold run_local. case_decide; [| by repeat split; auto; intros l [= <-]; auto].
  assert (Hro1 : responseLevels (ro_events (route c w1 reqHeader reqBody)) = []).
  { apply responseLevels_nil. by apply route_Forall. }
  assert (Hro2 : diffLevels (ro_events (route c w1 reqHeader reqBody)) = []).
  { apply diffLevels_nil. by apply route_Forall. }
  destruct (ro_ret (route c w1 reqHeader reqBody)) as [r | p] eqn:Hret.
  2: { cbn [fst snd]. rewrite Hro1, Hro2. by repeat split. }
  assert (HdL : diffLevels (fst (logResponse "Response" (Some (resHeader r)) (resBody r)
                                   (closeConn r))) = []).
  { apply diffLevels_nil. by apply logResponse_Forall. }
  destruct (logResponse "Response" (Some (resHeader r)) (resBody r) (closeConn r))
    as [evsL out] eqn:HlL.
  cbn [fst] in HdL.
  destruct out as [level | p].
  - destruct (logResponse_level_range _ _ _ _ _ _ HlL) as [Hlv Hall].
    { intros Hcc hd' [= <-]. by eapply route_close_not_msg. }
    cbn [fst snd]. rewrite responseLevels_app, diffLevels_app, Hro1, Hro2, HdL.
    split; [| split; [done |]].
    + cbn [app]. eapply Forall_impl; [exact Hall |]. by intros x ->.
    + intros l [= <-]. cbn [l_diffLogLevel]. unfold raiseLevel.
      destruct Hlv as [-> | ->]; [by left | by right].
  - cbn [fst snd]. rewrite responseLevels_app, diffLevels_app, Hro1, Hro2, HdL.
    split; [| split; [done | discriminate]].
    cbn [app]. revert HlL. unfold logResponse. step_cases; intros; simplify_eq; constructor.
Qed.

Lemma responseLevels_Forall `{Collaborators} (Q : Z -> Prop) (evs : list Event) :
  Forall (fun e => Forall Q (responseLevels [e])) evs <-> Forall Q (responseLevels evs).
Proof.
  induction evs as [| e evs IH]; [by split; constructor |].
  change (e :: evs) with ([e] ++ evs) at 2.
  rewrite responseLevels_app, Forall_app, Forall_cons, IH. done.
Qed.

(** X8. Responses are logged at debug or at warning level, never at error
    level: the only response [logResponse] is given with the close flag
    set is the one [route] returns when it cannot answer, and that one is
    not an [OP_MSG]. *)
Theorem responses_are_logged_at_debug_or_warning `{Collaborators} (c : conn) (w : World)
    (script : list Input) :
  Forall (fun l => l = DebugLevel \/ l = WarnLevel)
    (responseLevels (out_events (run c w script))).
Proof.
  apply responseLevels_Forall.
  apply (run_Forall _ (fun _ => True)); [by constructor | done | | done].
  intros c' w' i _. unfold run_iter.
  destruct (in_read i) as [reqHeader reqBody | reqHeader ve | e].
  - apply run_message_Forall; try (by constructor).
    + intros w1 evs1 res. apply run_proxy_Forall. by constructor.
    + intros w1. apply responseLevels_Forall. apply run_local_levels.
    + intros ph pb lvl. apply responseLevels_Forall. unfold run_logProxy.
      case_decide; [| constructor].
      destruct (logResponse "Proxy response" ph pb false) as [evs [l | p]] eqn:Hl.
      * destruct (logResponse_level_range _ _ _ _ _ _ Hl ltac:(done)) as [Hlv Hall].
        cbn [fst]. eapply Forall_impl; [exact Hall |]. by intros x ->.
      * revert Hl. unfold logResponse. step_cases; intros; simplify_eq; constructor.
    + intros l ph pb lvl. unfold run_diff. case_decide; by repeat constructor.
    + intros res cc. apply run_send_Forall; by constructor.
  - apply run_invalid_Forall; by constructor.
  - constructor.
Qed.




(** ** The metrics of [route] *)

Lemma responsesIncs_app `{Collaborators} (evs1 evs2 : list Event) :
  responsesIncs (evs1 ++ evs2) = responsesIncs evs1 ++ responsesIncs evs2.
Proof. apply omap_app. Qed.

Lemma requestsIncs_app `{Collaborators} (evs1 evs2 : list Event) :
  requestsIncs (evs1 ++ evs2) = requestsIncs evs1 ++ requestsIncs evs2.
Proof. apply omap_app. Qed.

Lemma route_switch_metrics `{Collaborators} (c : conn) (w : World) (reqHeader : MsgHeader)
    (reqBody : MsgBody) :
  responsesIncs (sw_events (route_switch c w reqHeader reqBody)) = []
  /\ requestsIncs (sw_events (route_switch c w reqHeader reqBody)) = [].
Proof. unfold route_switch, handleOpMsg. step_cases; done. Qed.

Lemma route_deferred_labels (opcode : Z) (command argument result : string) :
  exists arg res,
    route_deferred opcode command argument result = EvResponsesInc opcode command arg res
    /\ arg <> "" /\ res <> ""
    /\ (result = "" -> res = "panic")
    /\ (result <> "" -> res = result).
Proof.
  unfold route_deferred. eexists _, _. split; [reflexivity |].
  repeat case_decide; subst; repeat split; done.
Qed.

(** X10. [route] counts every request it is given in the metric of
    responses, exactly once and as its last effect, whether it returns or
    panics; the labels for the argument and the result are never empty,
    the result is "panic" for a panic and "unhandled" or "unexpected"
    when [route] asks to close the connection. It counts the request in
    the metric of requests at most once, and exactly once, under a
    command name that is not empty, when it returns. *)
Theorem route_counts_every_request `{Collaborators} (c : conn) (w : World)
    (reqHeader : MsgHeader) (reqBody : MsgBody) :
  (exists opcode command argument result,
      responsesIncs (ro_events (route c w reqHeader reqBody))
      = [(opcode, command, argument, result)]
      /\ last (ro_events (route c w reqHeader reqBody))
         = Some (EvResponsesInc opcode command argument result)
      /\ argument <> "" /\ result <> ""
      /\ (forall p, ro_ret (route c w reqHeader reqBody) = Panicked p -> result = "panic")
      /\ (forall r, ro_ret (route c w reqHeader reqBody) = Returned r ->
                    opcode = OpCode (resHeader r)
                    /\ (closeConn r = true -> result = "unhandled" \/ result = "unexpected")))
  /\ (length (requestsIncs (ro_events (route c w reqHeader reqBody))) <= 1)%nat
  /\ (forall r, ro_ret (route c w reqHeader reqBody) = Returned r ->
        exists command,
          requestsIncs (ro_events (route c w reqHeader reqBody))
          = [(OpCode reqHeader, command)] /\ command <> "").
Proof.
  destruct (route_switch_metrics c w reqHeader reqBody) as [Hsw1 Hsw2].
  unfold route.
  destruct (sw_out (route_switch c w reqHeader reqBody)) as [[body err] | p].
  2: { cbn [ro_events ro_ret].
       rewrite responsesIncs_app, requestsIncs_app, Hsw1, Hsw2, last_snoc.
       split; [| split; [simpl; lia | discriminate]].
       eexists _, _, _, _. split; [reflexivity |]. split; [reflexivity |].
       repeat split; try done. }
  set (command := if decide (sw_command _ = "") then "unknown" else sw_command _).
  assert (Hcmd : command <> "") by (unfold command; by case_decide).
  set (evs := sw_events _ ++ [EvRequestsInc _ command]).
  assert (He1 : responsesIncs evs = []) by (unfold evs; by rewrite responsesIncs_app, Hsw1).
  assert (He2 : requestsIncs evs = [(OpCode reqHeader, command)])
    by (unfold evs; by rewrite requestsIncs_app, Hsw2).
  assert (Hfin : forall argument result bd,
             (bd = None -> result = "") ->
             let ro := route_finish c (sw_world (route_switch c w reqHeader reqBody)) evs
                         reqHeader (sw_opcode (route_switch c w reqHeader reqBody))
                         command argument result bd in
             (exists opcode command' argument' result',
                 responsesIncs (ro_events ro) = [(opcode, command', argument', result')]
                 /\ last (ro_events ro) = Some (EvResponsesInc opcode command' argument' result')
                 /\ argument' <> "" /\ result' <> ""
                 /\ (forall p, ro_ret ro = Panicked p -> result' = "panic")
                 /\ (forall r, ro_ret ro = Returned r ->
                               opcode = OpCode (resHeader r)
                               /\ (closeConn r = true ->
                                   result' = "unhandled" \/ result' = "unexpected")))
             /\ (length (requestsIncs (ro_events ro)) <= 1)%nat
             /\ (forall r, ro_ret ro = Returned r ->
                   exists command', requestsIncs (ro_events ro) = [(OpCode reqHeader, command')]
                                    /\ command' <> "")).
  { intros argument result bd Hnil. unfold route_finish, lastRequestID_Add1.
    destruct bd as [bd |].
    - destruct (MarshalBinary bd) as [b | e]; cbn zeta; cbn [ro_events ro_ret].
      + destruct (route_deferred_labels (sw_opcode (route_switch c w reqHeader reqBody))
                    command argument (if decide (result = "") then "ok" else result))
          as (arg & res & -> & Ha & Hr & _ & _).
        rewrite responsesIncs_app, requestsIncs_app, He1, He2.
        change (evs ++ [EvAtomicAdd ?x; ?y]) with (evs ++ [EvAtomicAdd x] ++ [y]).
        rewrite !app_assoc, last_snoc. simpl.
        split; [| split; [lia | by eexists]].
        eexists _, _, _, _. do 4 (split; [done |]). split; [discriminate |].
        intros r [= <-]. by split.
      + destruct (route_deferred_labels (sw_opcode (route_switch c w reqHeader reqBody))
                    command argument "") as (arg & res & -> & Ha & Hr & Hp & _).
        rewrite responsesIncs_app, requestsIncs_app, He1, He2, last_snoc. simpl.
        split; [| split; [lia | discriminate]].
        eexists _, _, _, _. do 4 (split; [done |]). split; [auto | discriminate].
    - cbn zeta. cbn [ro_events ro_ret].
      destruct (route_deferred_labels (sw_opcode (route_switch c w reqHeader reqBody))
                  command argument result) as (arg & res & -> & Ha & Hr & Hp & _).
      rewrite responsesIncs_app, requestsIncs_app, He1, He2, last_snoc. simpl.
      split; [| split; [lia | discriminate]].
      eexists _, _, _, _. do 4 (split; [done |]). split; [| discriminate].
      intros _ _. apply Hp, Hnil. reflexivity. }
  destruct err as [e |]; [| apply Hfin; reflexivity].
  destruct (decide (sw_opcode (route_switch c w reqHeader reqBody) = OpCodeMsg)).
  { destruct (errorOpMsg (ProtocolError e)) as [res | p]; [apply Hfin; discriminate |].
    cbn [ro_events ro_ret].
    rewrite responsesIncs_app, requestsIncs_app, He1, He2, last_snoc. simpl.
    split; [| split; [lia | discriminate]].
    eexists _, _, _, _. do 4 (split; [done |]). split; [done | discriminate]. }
  destruct (decide (sw_opcode (route_switch c w reqHeader reqBody)
                    ∈ OpCodeQuery :: legacyOpCodes));
    cbn [ro_events ro_ret];
    rewrite responsesIncs_app, requestsIncs_app, He1, He2;
    change (evs ++ [?x; ?y]) with (evs ++ [x] ++ [y]);
    rewrite !app_assoc, last_snoc; simpl;
    (split; [| split; [lia | by eexists]]);
    eexists _, _, _, _; do 4 (split; [done |]); (split; [discriminate |]);
    intros r [= <-]; cbn [resHeader closeConn OpCode]; split; auto.
Qed.

Lemma route_counts_every_request_witness :
  exists command,
    requestsIncs (ro_events (route Demo.normalConn 0%nat (mkMsgHeader 60 7 0 OpCodeMsg)
                               (BodyMsg (Demo.cmdMsg "ping"))))
    = [(OpCodeMsg, command)] /\ command <> "".
Proof.
  destruct (route_counts_every_request Demo.normalConn 0%nat (mkMsgHeader 60 7 0 OpCodeMsg)
              (BodyMsg (Demo.cmdMsg "ping"))) as (_ & _ & Hreq).
  exact (Hreq _ eq_refl).
Defined.

(** ** The responses of [route] *)

Lemma route_switch_kinds `{Collaborators} (c : conn) (w : World) (reqHeader : MsgHeader)
    (reqBody : MsgBody) (body : option MsgBody) (err : option error) :
  sw_out (route_switch c w reqHeader reqBody) = Returned (body, err) ->
  (OpCode reqHeader = OpCodeMsg
   /\ sw_opcode (route_switch c w reqHeader reqBody) = OpCodeMsg
   /\ (body = None \/ exists m, body = Some (BodyMsg m)))
  \/ (OpCode reqHeader <> OpCodeMsg /\ OpCode reqHeader = OpCodeQuery
      /\ sw_opcode (route_switch c w reqHeader reqBody) = OpCodeReply
      /\ (body = None \/ exists rp, body = Some (BodyReply rp)))
  \/ (OpCode reqHeader <> OpCodeMsg /\ OpCode reqHeader <> OpCodeQuery
      /\ sw_opcode (route_switch c w reqHeader reqBody) = 0
      /\ body = None /\ err <> None).
Proof.
  unfold route_switch.
  destruct (decide (OpCode reqHeader = OpCodeMsg)) as [Hm | Hm].
  - destruct reqBody as [msg | q | rp]; try discriminate.
    destruct (OpMsg_Document msg) as [doc | e].
    + destruct (handleOpMsg c w msg _) as [[w' evs] [[resMsg err'] | p]]; try discriminate.
      cbn [sw_out sw_opcode]. intros [= <- <-]. left. do 2 (split; [done |]).
      destruct resMsg; [right; by eexists | by left].
    + cbn [sw_out sw_opcode]. intros [= <- <-]. left. do 2 (split; [done |]). by left.
  - destruct (decide (OpCode reqHeader = OpCodeQuery)) as [Hq | Hq].
    + destruct reqBody as [msg | q | rp]; try discriminate.
      destruct (CmdQuery (h c) w q) as [w' [[resReply err'] | p]]; try discriminate.
      cbn [sw_out sw_opcode]. intros [= <- <-]. right. left. do 3 (split; [done |]).
      destruct resReply; [right; by eexists | by left].
    + destruct (decide (OpCode reqHeader ∈ legacyOpCodes));
        cbn [sw_out sw_opcode]; intros [= <- <-]; right; right; done.
Qed.

(** X11. What [route] returns matches the request's opcode. An OP_MSG
    request is answered with an OP_MSG body under an OP_MSG header and
    never closes the connection. An OP_QUERY request is answered under an
    OP_REPLY header with an OP_REPLY body or none, and with a body when
    the connection stays open. Every other opcode closes the connection
    with no body and the zero header. *)
Theorem route_answers_in_kind `{Collaborators} (c : conn) (w : World)
    (reqHeader : MsgHeader) (reqBody : MsgBody) (r : routeRet) :
  ro_ret (route c w reqHeader reqBody) = Returned r ->
  (OpCode reqHeader = OpCodeMsg ->
     closeConn r = false /\ OpCode (resHeader r) = OpCodeMsg
     /\ exists m, resBody r = Some (BodyMsg m))
  /\ (OpCode reqHeader = OpCodeQuery ->
        OpCode (resHeader r) = OpCodeReply
        /\ (resBody r = None \/ exists rp, resBody r = Some (BodyReply rp))
        /\ (closeConn r = false -> exists rp, resBody r = Some (BodyReply rp)))
  /\ (OpCode reqHeader <> OpCodeMsg -> OpCode reqHeader <> OpCodeQuery ->
        closeConn r = true /\ resBody r = None /\ resHeader r = MsgHeader_zero).
Proof.
  unfold route.
  destruct (sw_out (route_switch c w reqHeader reqBody)) as [[body err] | p] eqn:Hsw;
    [| discriminate].
  apply route_switch_kinds in Hsw.
  destruct Hsw as [(Hop & -> & Hb) | [(Hnm & Hop & -> & Hb) | (Hnm & Hnq & -> & -> & Herr)]].
  - (* OP_MSG *)
    intros Hr.
    assert (Hret : closeConn r = false /\ OpCode (resHeader r) = OpCodeMsg
                   /\ exists m, resBody r = Some (BodyMsg m)).
    { destruct err as [e |].
      - rewrite decide_True in Hr by reflexivity.
        destruct (errorOpMsg (ProtocolError e)) as [res | p]; [| discriminate].
        apply route_finish_returned in Hr as (bd & b & [= <-] & _ & -> & _).
        cbn [closeConn resHeader resBody OpCode]. do 2 (split; [reflexivity |]). by eexists.
      - apply route_finish_returned in Hr as (bd & b & -> & _ & -> & _).
        cbn [closeConn resHeader resBody OpCode]. do 2 (split; [reflexivity |]).
        destruct Hb as [Hb | [m Hb]]; [discriminate |]. injection Hb as ->. by eexists. }
    split; [intros _; exact Hret |].
    split; [intros Hq; rewrite Hop in Hq; discriminate | intros Hnm; by destruct Hnm].
  - (* OP_QUERY *)
    intros Hr. split; [intros Hm; by destruct Hnm |].
    split; [intros _ | intros _ Hnq; by destruct Hnq].
    destruct err as [e |].
    + rewrite decide_False in Hr by discriminate.
      rewrite decide_True in Hr by (unfold legacyOpCodes; rewrite !elem_of_cons; auto).
      injection Hr as <-. cbn [closeConn resHeader resBody OpCode].
      split; [reflexivity |]. split; [exact Hb | discriminate].
    + apply route_finish_returned in Hr as (bd & b & -> & _ & -> & _).
      cbn [closeConn resHeader resBody OpCode]. split; [reflexivity |].
      destruct Hb as [Hb | [rp Hb]]; [discriminate |]. injection Hb as ->.
      split; [right |]; by eexists.
  - (* every other opcode *)
    intros Hr. split; [intros Hm; by destruct Hnm |].
    split; [intros Hq; by destruct Hnq | intros _ _].
    destruct err as [e |]; [| by destruct Herr].
    rewrite decide_False in Hr by discriminate.
    rewrite decide_False in Hr
      by (unfold legacyOpCodes; rewrite !elem_of_cons, elem_of_nil; intros Hin;
          repeat (destruct Hin as [Hin | Hin]; [discriminate |]); exact Hin).
    injection Hr as <-. cbn [closeConn resHeader resBody]. done.
Qed.

Lemma route_answers_in_kind_witness :
  exists r, ro_ret (route Demo.normalConn 0%nat (mkMsgHeader 60 7 0 OpCodeMsg)
                      (BodyMsg (Demo.cmdMsg "ping"))) = Returned r
            /\ closeConn r = false /\ OpCode (resHeader r) = OpCodeMsg.
Proof.
  eexists. split; [reflexivity |].
  destruct (route_answers_in_kind Demo.normalConn 0%nat (mkMsgHeader 60 7 0 OpCodeMsg)
              (BodyMsg (Demo.cmdMsg "ping")) _ eq_refl) as [Hmsg _].
  destruct (Hmsg eq_refl) as (Hc & Ho & _). split; [exact Hc | exact Ho].
Defined.

Lemma route_msg_error `{Collaborators} (c : conn) (w w' : World) (reqHeader : MsgHeader)
    (msg : OpMsg) (evs : list Event) (command : string) (body : option MsgBody) (e : error)
    (b : list Byte.byte) :
  route_switch c w reqHeader (BodyMsg msg)
  = mkSwitched w' evs command OpCodeMsg (Returned (body, Some e)) ->
  MarshalBinary (BodyMsg (errorResponse (ProtocolError e))) = inl b ->
  ro_ret (route c w reqHeader (BodyMsg msg))
  = Returned (mkRet {| MessageLength := int32 (MsgHeaderLen + Z.of_nat (length b));
                       RequestID := int32 (lastRequestID c + 1);
                       ResponseTo := RequestID reqHeader;
                       OpCode := OpCodeMsg |}
                (Some (BodyMsg (errorResponse (ProtocolError e)))) false)
  /\ ro_world (route c w reqHeader (BodyMsg msg)) = w'
  /\ ro_conn (route c w reqHeader (BodyMsg msg)) = stamped c
  /\ (Forall (fun ev => isCall ev = false) evs ->
      Forall (fun ev => isCall ev = false) (ro_events (route c w reqHeader (BodyMsg msg)))).
Proof.
  intros Hsw Hm. unfold route. rewrite Hsw.
  cbn [sw_out sw_world sw_events sw_command sw_opcode].
  rewrite decide_True by reflexivity. rewrite errorOpMsg_returns.
  unfold route_finish, lastRequestID_Add1. rewrite Hm. cbn zeta.
  cbn [ro_ret ro_world ro_conn ro_events].
  split; [reflexivity |]. split; [reflexivity |]. split; [reflexivity |].
  intros Hevs. rewrite <- app_assoc. apply Forall_app. split; [exact Hevs |].
  repeat constructor.
Qed.

(** X12. When the handler of an OP_MSG command returns an error, [route]
    answers with the document of that error, rendered as a protocol
    error, under a freshly stamped OP_MSG header; whatever response the
    handler returned beside the error is dropped, the connection stays
    open and the handler's effect on the state is kept. *)
Theorem handler_error_replaces_response `{Collaborators} (c : conn) (w w' : World)
    (reqHeader : MsgHeader) (msg : OpMsg) (doc : Document) (evs : list Event)
    (resMsg : option OpMsg) (e : error) (b : list Byte.byte) :
  OpCode reqHeader = OpCodeMsg ->
  OpMsg_Document msg = inl doc ->
  handleOpMsg c w msg (Document_Command (Some doc)) = (w', evs, Returned (resMsg, Some e)) ->
  MarshalBinary (BodyMsg (errorResponse (ProtocolError e))) = inl b ->
  ro_ret (route c w reqHeader (BodyMsg msg))
  = Returned (mkRet {| MessageLength := int32 (MsgHeaderLen + Z.of_nat (length b));
                       RequestID := int32 (lastRequestID c + 1);
                       ResponseTo := RequestID reqHeader;
                       OpCode := OpCodeMsg |}
                (Some (BodyMsg (errorResponse (ProtocolError e)))) false)
  /\ ro_world (route c w reqHeader (BodyMsg msg)) = w'
  /\ ro_conn (route c w reqHeader (BodyMsg msg)) = stamped c
  /\ OpMsg_Document (errorResponse (ProtocolError e)) = inl (ProtoErr_Document (ProtocolError e)).
Proof.
  intros Hop Hdoc Hh Hm.
  assert (Hsw : route_switch c w reqHeader (BodyMsg msg)
                = mkSwitched w' evs (Document_Command (Some doc)) OpCodeMsg
                    (Returned (BodyMsg <$> resMsg, Some e))).
  { unfold route_switch. rewrite decide_True by exact Hop. rewrite Hdoc, Hh. reflexivity. }
  destruct (route_msg_error c w w' reqHeader msg evs _ _ e b Hsw Hm) as (Hr & Hw & Hc & _).
  split; [exact Hr |]. split; [exact Hw |]. split; [exact Hc |].
  apply errorResponse_Document.
Qed.

Lemma handler_error_replaces_response_witness :
  let c := @mkConn Demo.failing NormalMode tt None 0 in
  let reqHeader := mkMsgHeader 60 7 0 OpCodeMsg in
  ro_ret (@route Demo.failing c 0%nat reqHeader (BodyMsg (Demo.cmdMsg "ping")))
  = Returned (mkRet {| MessageLength := 16 + 37; RequestID := 1; ResponseTo := 7;
                       OpCode := OpCodeMsg |}
                (Some (BodyMsg (@errorResponse Demo.failing
                                  (PECommand (mkCommandError 1 "internal error" None)))))
                false)
  /\ ro_world (@route Demo.failing c 0%nat reqHeader (BodyMsg (Demo.cmdMsg "ping"))) = 1%nat.
Proof.
  intros c reqHeader.
  destruct (@handler_error_replaces_response Demo.failing c 0%nat 1%nat reqHeader
              (Demo.cmdMsg "ping") _ _ (Some Demo.okMsg) (ErrOther "disk full")
              (repeat Byte.x00 37) eq_refl eq_refl eq_refl eq_refl) as (Hr & Hw & _).
  split; [exact Hr | exact Hw].
Defined.

(** X13. An OP_MSG whose sections do not give a document is not
    dispatched: no handler is called, the state is unchanged, and the
    client is answered with the document of the decoding error under a
    freshly stamped OP_MSG header, the connection staying open. *)
Theorem undecodable_document_is_not_dispatched `{Collaborators} (c : conn) (w : World)
    (reqHeader : MsgHeader) (msg : OpMsg) (e : error) (b : list Byte.byte) :
  OpCode reqHeader = OpCodeMsg ->
  OpMsg_Document msg = inr e ->
  MarshalBinary (BodyMsg (errorResponse (ProtocolError e))) = inl b ->
  ro_ret (route c w reqHeader (BodyMsg msg))
  = Returned (mkRet {| MessageLength := int32 (MsgHeaderLen + Z.of_nat (length b));
                       RequestID := int32 (lastRequestID c + 1);
                       ResponseTo := RequestID reqHeader;
                       OpCode := OpCodeMsg |}
                (Some (BodyMsg (errorResponse (ProtocolError e)))) false)
  /\ ro_world (route c w reqHeader (BodyMsg msg)) = w
  /\ Forall (fun ev => isCall ev = false) (ro_events (route c w reqHeader (BodyMsg msg))).
Proof.
  intros Hop Hdoc Hm.
  assert (Hsw : route_switch c w reqHeader (BodyMsg msg)
                = mkSwitched w [] "" OpCodeMsg (Returned (None, Some e))).
  { unfold route_switch. rewrite decide_True by exact Hop. rewrite Hdoc. reflexivity. }
  destruct (route_msg_error c w w reqHeader msg [] _ _ e b Hsw Hm) as (Hr & Hw & _ & Hf).
  split; [exact Hr |]. split; [exact Hw |]. apply Hf. constructor.
Qed.

Lemma undecodable_document_is_not_dispatched_witness :
  let reqHeader := mkMsgHeader 21 7 0 OpCodeMsg in
  ro_world (route Demo.normalConn 5%nat reqHeader (BodyMsg Demo.emptyMsg)) = 5%nat
  /\ Forall (fun ev => isCall ev = false)
       (ro_events (route Demo.normalConn 5%nat reqHeader (BodyMsg Demo.emptyMsg))).
Proof.
  intros reqHeader.
  destruct (undecodable_document_is_not_dispatched Demo.normalConn 5%nat reqHeader
              Demo.emptyMsg _ (repeat Byte.x00 37) eq_refl eq_refl eq_refl) as (_ & Hw & Hf).
  split; [exact Hw | exact Hf].
Defined.

(** X14. A command that is registered without a handler is answered
    exactly like a command that is not registered: error 59,
    CommandNotFound, with the message "no such command", the state
    unchanged and the connection open. *)
Theorem command_without_handler_is_not_found `{Collaborators} (c : conn) (w : World)
    (reqHeader : MsgHeader) (msg : OpMsg) (doc : Document) (cmd : Command World Interface)
    (b : list Byte.byte) :
  let command := Document_Command (Some doc) in
  let res := errorResponse (PECommand (NewCommandErrorMsg ErrCommandNotFound
                                         ("no such command: '" +:+ command +:+ "'"))) in
  OpCode reqHeader = OpCodeMsg ->
  OpMsg_Document msg = inl doc ->
  Commands !! command = Some cmd ->
  Handler cmd = None ->
  MarshalBinary (BodyMsg res) = inl b ->
  route c w reqHeader (BodyMsg msg)
  = mkRouteOut (stamped c) w
      [EvRequestsInc (OpCode reqHeader) (if decide (command = "") then "unknown" else command);
       EvAtomicAdd (int32 (lastRequestID c + 1));
       route_deferred OpCodeMsg (if decide (command = "") then "unknown" else command)
         "" "CommandNotFound"]
      (Returned (mkRet {| MessageLength := int32 (MsgHeaderLen + Z.of_nat (length b));
                          RequestID := int32 (lastRequestID c + 1);
                          ResponseTo := RequestID reqHeader;
                          OpCode := OpCodeMsg |}
                   (Some (BodyMsg res)) false)).
Proof.
  intros command res Hop Hdoc Hcmd Hh Hm. unfold route, route_switch, handleOpMsg.
  rewrite decide_True by exact Hop.
  rewrite Hdoc. fold command. rewrite Hcmd, Hh.
  cbn [sw_out sw_world sw_events sw_command sw_opcode].
  rewrite decide_True by reflexivity.
  rewrite errorOpMsg_returns. unfold route_finish.
  change (ProtocolError (ErrCommand ?e)) with (PECommand e).
  fold res. rewrite Hm. reflexivity.
Qed.

Lemma command_without_handler_is_not_found_witness :
  ro_ret (route Demo.normalConn 0%nat (mkMsgHeader 60 7 0 OpCodeMsg)
            (BodyMsg (Demo.cmdMsg "whatsmyuri")))
  = Returned (mkRet {| MessageLength := 16 + 37; RequestID := 1; ResponseTo := 7;
                       OpCode := OpCodeMsg |}
                (Some (BodyMsg (errorResponse
                   (PECommand (NewCommandErrorMsg ErrCommandNotFound
                                 "no such command: 'whatsmyuri'")))))
                false).
Proof.
  exact (f_equal ro_ret
           (command_without_handler_is_not_found Demo.normalConn 0%nat
              (mkMsgHeader 60 7 0 OpCodeMsg) (Demo.cmdMsg "whatsmyuri") _ _
              (repeat Byte.x00 37) eq_refl eq_refl eq_refl eq_refl eq_refl)).
Defined.

(** ** Failures of the transport *)

Lemma run_single `{Collaborators} (c : conn) (w : World) (i : Input) :
  out_conn (run c w [i]) = it_conn (run_iter c w i)
  /\ out_world (run c w [i]) = it_world (run_iter c w i)
  /\ written (out_events (run c w [i])) = written (it_events (run_iter c w i)).
Proof.
  rewrite run_written. unfold run. cbn [run_loop].
  destruct (it_status (run_iter c w i)) eqn:Hst.
  - cbn [prepend it_status it_conn it_world it_events out_conn out_world].
    rewrite app_nil_r. split; [reflexivity |]. split; reflexivity.
  - rewrite Hst. split; [reflexivity |]. split; reflexivity.
  - rewrite Hst. split; [reflexivity |]. split; reflexivity.
Qed.

Lemma run_iter_reads `{Collaborators} (c : conn) (w : World) (i i' : Input) :
  in_read i = in_read i' ->
  it_conn (run_iter c w i) = it_conn (run_iter c w i')
  /\ it_world (run_iter c w i) = it_world (run_iter c w i').
Proof.
  intros Hread. unfold run_iter. rewrite Hread.
  destruct (in_read i') as [reqHeader reqBody | reqHeader ve | err].
  - unfold run_message.
    destruct (run_proxy c w reqHeader reqBody) as [[[w1 evs1] [ph pb]] | p];
      [| split; reflexivity].
    destruct (run_local c w1 reqHeader reqBody 0) as [[[c2 w2] evs2] [l | p]];
      [| split; reflexivity].
    destruct (run_logProxy c ph pb (l_diffLogLevel l)) as [evs3 [lvl | p]];
      [| split; reflexivity].
    destruct (run_send i (run_select c l ph pb) (l_resCloseConn l)) as [evs5 st].
    destruct (run_send i' (run_select c l ph pb) (l_resCloseConn l)) as [evs5' st'].
    split; reflexivity.
  - unfold run_invalid, lastRequestID_Add1.
    destruct (errorOpMsg _) as [res | p]; [| split; reflexivity].
    destruct (MarshalBinary (BodyMsg res)) as [b | e]; [| split; reflexivity].
    cbn zeta.
    destruct (writeFlush i _ (BodyMsg res)) as [evs err].
    destruct (writeFlush i' _ (BodyMsg res)) as [evs' err'].
    split; reflexivity.
  - split; reflexivity.
Qed.

Lemma writeFlush_write_failed `{Collaborators} (i : Input) (hd : MsgHeader) (body : MsgBody) :
  in_write i <> None -> writeFlush i hd body = ([], in_write i).
Proof. unfold writeFlush. destruct (in_write i); [reflexivity | intros Hn; by destruct Hn]. Qed.

Lemma run_iter_write_failed `{Collaborators} (c : conn) (w : World) (i : Input) :
  in_write i <> None -> written (it_events (run_iter c w i)) = [].
Proof.
  intros Hw. unfold run_iter.
  destruct (in_read i) as [reqHeader reqBody | reqHeader ve | err]; [| | reflexivity].
  - destruct (run_message_cases c w i reqHeader reqBody)
      as [(c2 & w2 & pre & p & -> & Hpre)
         | (w1 & evs1 & ph & pb & c2 & w2 & evs2 & l & evs3 & lvl
            & _ & _ & _ & H1 & H2 & H3 & ->)];
      [exact Hpre |].
    cbn [it_events]. rewrite !written_app, H1, H2, H3.
    assert (Hd : written (run_diff c l ph pb lvl) = [])
      by (unfold run_diff; by destruct (decide _)).
    rewrite Hd. cbn [written omap app].
    unfold run_send. destruct (run_select c l ph pb) as [[hd |] [body |]]; try reflexivity.
    rewrite writeFlush_write_failed by exact Hw.
    destruct (in_write i); [reflexivity | by destruct Hw].
  - unfold run_invalid, lastRequestID_Add1.
    destruct (errorOpMsg _) as [res | p]; [| reflexivity].
    destruct (MarshalBinary (BodyMsg res)) as [b | e]; [| reflexivity].
    cbn zeta. rewrite writeFlush_write_failed by exact Hw. reflexivity.
Qed.

(** X15. When writing or flushing the response of a message fails, [run]
    ends with an error at that message and reads nothing after it; when
    it is the write that fails, no frame is written for the message. The
    message was processed all the same: the request-id counter and the
    state are what they would be had the response been sent. *)
Theorem transport_failure_ends_run `{Collaborators} (c : conn) (w : World) (i : Input)
    (rest : list Input) :
  in_write i <> None \/ in_flush i <> None ->
  run c w (i :: rest) = run c w [i]
  /\ out_err (run c w [i]) <> None
  /\ (in_write i <> None -> written (out_events (run c w [i])) = [])
  /\ out_conn (run c w [i]) = out_conn (run c w [mkInput (in_read i) None None])
  /\ out_world (run c w [i]) = out_world (run c w [mkInput (in_read i) None None]).
Proof.
  intros Hfail.
  assert (Hst : it_status (run_iter c w i) <> Continue).
  { intros Hc. apply run_iter_continue in Hc as (Hw & Hf & _).
    destruct Hfail as [Hn | Hn]; by destruct Hn. }
  split; [by apply run_stop |].
  split.
  { intros Hopen. apply run_open in Hopen. cbn [run_loop] in Hopen.
    destruct (it_status (run_iter c w i)) eqn:Hs; [by destruct Hst | |];
      rewrite Hs in Hopen; discriminate. }
  destruct (run_single c w i) as (Hc1 & Hw1 & Hwr1).
  destruct (run_single c w (mkInput (in_read i) None None)) as (Hc2 & Hw2 & _).
  destruct (run_iter_reads c w i (mkInput (in_read i) None None) eq_refl) as [Hc Hw].
  split; [intros Hn; rewrite Hwr1; by apply run_iter_write_failed |].
  split; [by rewrite Hc1, Hc2 | by rewrite Hw1, Hw2].
Qed.

Lemma transport_failure_ends_run_witness :
  let i := mkInput (ReadMsg (mkMsgHeader 60 7 0 OpCodeMsg) (BodyMsg (Demo.cmdMsg "ping")))
             (Some (ErrOther "broken pipe")) None in
  run Demo.normalConn 0%nat [i; Demo.request 8 "ping"] = run Demo.normalConn 0%nat [i]
  /\ written (out_events (run Demo.normalConn 0%nat [i])) = []
  /\ out_world (run Demo.normalConn 0%nat [i]) = 1%nat.
Proof.
  intros i.
  destruct (transport_failure_ends_run Demo.normalConn 0%nat i [Demo.request 8 "ping"])
    as (Hr & _ & Hw & _ & Hs).
  { left. discriminate. }
  split; [exact Hr |]. split; [apply Hw; discriminate | exact Hs].
Defined.

(** ** Closing the connection *)




(** ** Connections made by [newConn] *)

Lemma run_out_conn `{Collaborators} (c : conn) (w : World) (script : list Input) :
  out_conn (run c w script) = it_conn (run_loop c w script).
Proof. unfold run. by destruct (it_status (run_loop c w script)). Qed.

(** X17. On a connection made by [newConn], at every point of its life,
    the step of [run] that forwards a request upstream cannot hit the
    panic for a missing proxy: in normal mode it does nothing, and in the
    other modes it calls the router [newConn] obtained from [proxy.New]
    for the configured address. *)
Theorem newConn_connection_has_its_router `{Collaborators} (opts : newConnOpts) (c : conn)
    (w w' : World) (script : list Input) (reqHeader : MsgHeader) (reqBody : MsgBody) :
  newConn opts = Returned (inl c) ->
  (o_mode opts = NormalMode /\
   run_proxy (out_conn (run c w script)) w' reqHeader reqBody = Returned (w', [], (None, None)))
  \/ (o_mode opts <> NormalMode /\
      exists r, proxy_New (o_proxyAddr opts) = inl r
                /\ run_proxy (out_conn (run c w script)) w' reqHeader reqBody
                   = Returned (fst (r w' reqHeader reqBody),
                               [EvProxyRoute reqHeader reqBody],
                               snd (r w' reqHeader reqBody))).
Proof.
  intros Hnew. rewrite run_out_conn.
  destruct (run_loop_conn script c w) as (Hmode & _ & Hproxy & _).
  unfold run_proxy. rewrite Hmode, Hproxy. clear Hmode Hproxy.
  unfold newConn in Hnew.
  destruct (decide (o_mode opts = "")); [discriminate |].
  destruct (o_handler opts) as [hd |]; [| discriminate].
  destruct (decide (o_mode opts <> NormalMode)) as [Hm | Hm].
  - destruct (proxy_New (o_proxyAddr opts)) as [r | e]; [| discriminate].
    injection Hnew as <-. cbn [mode proxy]. right. split; [exact Hm |].
    exists r. split; [reflexivity |].
    rewrite decide_True by exact Hm. by destruct (r w' reqHeader reqBody).
  - injection Hnew as <-. cbn [mode proxy]. left.
    split; [by apply dec_stable |]. by rewrite decide_False.
Qed.

Lemma newConn_connection_has_its_router_witness :
  exists c, newConn (@mkOpts Demo.collaborators DiffNormalMode (Some tt) "127.0.0.1:27018")
            = Returned (inl c)
            /\ exists res,
                 run_proxy (out_conn (run c 0%nat [Demo.request 7 "ping"])) 1%nat
                   (mkMsgHeader 60 8 0 OpCodeMsg) (BodyMsg (Demo.cmdMsg "ping"))
                 = Returned (1%nat, [EvProxyRoute (mkMsgHeader 60 8 0 OpCodeMsg)
                                       (BodyMsg (Demo.cmdMsg "ping"))], res).
Proof.
  eexists. split; [reflexivity |].
  destruct (newConn_connection_has_its_router
              (@mkOpts Demo.collaborators DiffNormalMode (Some tt) "127.0.0.1:27018") _ 0%nat 1%nat
              [Demo.request 7 "ping"] (mkMsgHeader 60 8 0 OpCodeMsg)
              (BodyMsg (Demo.cmdMsg "ping")) eq_refl)
    as [[[=] _] | (_ & r & Hr & Hrun)].
  injection Hr as <-. eexists. exact Hrun.
Defined.

(** * Further properties of the storage contract *)

Lemma checked_returned {B R : Type} (codes : list Backends.ErrorCode)
    (r : Backends.State B * Outcome (option R * option Backends.Error))
    (s' : Backends.State B) (res : option R) (err : option Backends.Error) :
  Backends.checked codes r = (s', Returned (res, err))
  <-> r = (s', Returned (res, err))
      /\ forall code msg, err = Some (Backends.BackendError code msg) -> code ∈ codes.
Proof.
  unfold Backends.checked, Backends.checkError.
  destruct r as [s [[res0 err0] | p]].
  - destruct err0 as [[code msg | msg] |].
    + destruct (decide (code ∈ codes)) as [Hin | Hout].
      * split.
        -- intros [= <- <- <-]. split; [reflexivity |]. by intros code' msg' [= <- _].
        -- by intros [[= <- <- <-] _].
      * split; [discriminate |]. intros [[= <- <- <-] Hc]. destruct Hout. by eapply Hc.
    + split; [intros [= <- <- <-]; by split | by intros [[= <- <- <-] _]].
    + split; [intros [= <- <- <-]; by split | by intros [[= <- <- <-] _]].
  - split; [discriminate | by intros [[=] _]].
Qed.

(** X18. The contract wrapper adds nothing to what a backend returns and
    hides nothing of it: a wrapped method returns exactly when the
    backend's method returns with an error that is not a coded backend
    error outside the set allowed for that method, and then with the
    backend's state, result and error. No coded error is allowed for
    Query, Update, DeleteAll and Explain; only the duplicate-id error is
    allowed for InsertAll, which the backend sees after the documents
    have been frozen. *)
Theorem contract_returns_what_backend_returns {B C : Type}
    `{!Backends.Collection (B := B) C}
    (cc : Backends.collectionContract C) (s s' : Backends.State B) (err : option Backends.Error) :
  (forall params res,
      Backends.collectionContract_Query cc s params = (s', Returned (res, err))
      <-> Backends.Query (Backends.c cc) s params = (s', Returned (res, err))
          /\ forall code msg, err <> Some (Backends.BackendError code msg))
  /\ (forall params res,
        Backends.collectionContract_Update cc s params = (s', Returned (res, err))
        <-> Backends.Update (Backends.c cc) s params = (s', Returned (res, err))
            /\ forall code msg, err <> Some (Backends.BackendError code msg))
  /\ (forall params res,
        Backends.collectionContract_DeleteAll cc s params = (s', Returned (res, err))
        <-> Backends.DeleteAll (Backends.c cc) s params = (s', Returned (res, err))
            /\ forall code msg, err <> Some (Backends.BackendError code msg))
  /\ (forall params res,
        Backends.collectionContract_Explain cc s params = (s', Returned (res, err))
        <-> Backends.Explain (Backends.c cc) s params = (s', Returned (res, err))
            /\ forall code msg, err <> Some (Backends.BackendError code msg))
  /\ (forall p res,
        Backends.collectionContract_InsertAll cc s (Some p) = (s', Returned (res, err))
        <-> Backends.InsertAll (Backends.c cc) (Backends.freezeDocs (Backends.Docs p) s) (Some p)
            = (s', Returned (res, err))
            /\ forall code msg, err = Some (Backends.BackendError code msg) ->
                                code = Backends.ErrorCodeInsertDuplicateID).
Proof.
  assert (Hnone : forall (P : Prop),
             (P /\ forall code msg, err = Some (Backends.BackendError code msg) ->
                                    code ∈ @nil Backends.ErrorCode)
             <-> (P /\ forall code msg, err <> Some (Backends.BackendError code msg))).
  { intros P. split; intros [HP Hc]; (split; [exact HP |]).
    - intros code msg Heq. by apply Hc, not_elem_of_nil in Heq.
    - intros code msg Heq. by apply Hc in Heq. }
  split; [| split; [| split; [| split]]]; intros params res.
  1-4: unfold Backends.collectionContract_Query, Backends.collectionContract_Update,
         Backends.collectionContract_DeleteAll, Backends.collectionContract_Explain;
       rewrite checked_returned; apply Hnone.
  unfold Backends.collectionContract_InsertAll. rewrite checked_returned.
  split; intros [Hr Hc]; (split; [exact Hr |]); intros code msg Heq; apply Hc in Heq.
  - by apply list_elem_of_singleton in Heq.
  - by apply list_elem_of_singleton.
Qed.

Lemma contract_returns_what_backend_returns_witness :
  let params := Backends.mkInsertAllParams [2%positive; 1%positive] in
  Backends.collectionContract_InsertAll (Backends.CollectionContract tt)
    DemoBackend.store (Some params)
  = (Backends.freezeDocs [2%positive; 1%positive] DemoBackend.store,
     Returned (None, Some (Backends.BackendError Backends.ErrorCodeInsertDuplicateID
                             "duplicate _id"))).
Proof.
  intros params.
  destruct (contract_returns_what_backend_returns (Backends.CollectionContract tt)
              DemoBackend.store (Backends.freezeDocs [2%positive; 1%positive] DemoBackend.store)
              (Some (Backends.BackendError Backends.ErrorCodeInsertDuplicateID "duplicate _id")))
    as (_ & _ & _ & _ & Hins).
  apply Hins. split; [reflexivity |]. intros code msg Heq. injection Heq as <- _. reflexivity.
Defined.

(** ** Freezing *)

Lemma freezeDocs_backend {B : Type} (docs : list Backends.ptr) (s : Backends.State B) :
  Backends.backend (Backends.freezeDocs docs s) = Backends.backend s.
Proof.
  revert s. induction docs as [| d docs IH]; intros s; [reflexivity |].
  unfold Backends.freezeDocs in *. cbn [foldl]. rewrite IH. reflexivity.
Qed.

Lemma freezeDocs_lookup {B : Type} (docs : list Backends.ptr) (s : Backends.State B)
    (doc : Backends.ptr) :
  Backends.documents (Backends.freezeDocs docs s) !! doc
  = if decide (doc ∈ docs) then frozenCopy <$> Backends.documents s !! doc
    else Backends.documents s !! doc.
Proof.
  revert s. induction docs as [| d docs IH]; intros s.
  - rewrite decide_False by apply not_elem_of_nil. reflexivity.
  - unfold Backends.freezeDocs in *. cbn [foldl]. rewrite IH.
    unfold Backends.Freeze. cbn [Backends.documents].
    fold frozenCopy. rewrite lookup_alter.
    destruct (decide (doc ∈ d :: docs)) as [Hin' | Hout'];
      destruct (decide (doc ∈ docs)) as [Hin | Hout];
      destruct (decide (d = doc)) as [-> | Hne]; try reflexivity.
    + by destruct (Backends.documents s !! doc).
    + apply elem_of_cons in Hin' as [-> | Hin']; [by destruct Hne | by destruct Hout].
    + destruct Hout'. apply elem_of_cons. by left.
    + destruct Hout'. apply elem_of_cons. by right.
    + destruct Hout'. apply elem_of_cons. by left.
Qed.

Lemma State_eq {B : Type} (s1 s2 : Backends.State B) :
  Backends.documents s1 = Backends.documents s2 ->
  Backends.backend s1 = Backends.backend s2 ->
  s1 = s2.
Proof. destruct s1, s2. cbn. by intros -> ->. Qed.

Lemma freezeDocs_ext {B : Type} (docs docs' : list Backends.ptr) (s : Backends.State B) :
  (forall doc, doc ∈ docs <-> doc ∈ docs') ->
  Backends.freezeDocs docs' s = Backends.freezeDocs docs s.
Proof.
  intros Hsame. apply State_eq; [| by rewrite !freezeDocs_backend].
  apply map_eq. intros doc. rewrite !freezeDocs_lookup.
  destruct (decide (doc ∈ docs')) as [Hin' | Hout'];
    destruct (decide (doc ∈ docs)) as [Hin | Hout]; try reflexivity.
  - destruct Hout. by apply Hsame.
  - destruct Hout'. by apply Hsame.
Qed.

Lemma freezeDocs_idemp {B : Type} (docs : list Backends.ptr) (s : Backends.State B) :
  Backends.freezeDocs docs (Backends.freezeDocs docs s) = Backends.freezeDocs docs s.
Proof.
  apply State_eq; [| by rewrite !freezeDocs_backend].
  apply map_eq. intros doc. rewrite !freezeDocs_lookup.
  destruct (decide (doc ∈ docs)); [| reflexivity].
  by destruct (Backends.documents s !! doc).
Qed.

(** X19. The loop of InsertAll that freezes the documents changes only
    their marks: the state of the backend, the set of documents in
    memory, the fields of every document and the documents outside
    [params.Docs] are as they were. Freezing again changes nothing, and
    neither the order of the documents in the slice nor a document that
    occurs twice matters. *)
Theorem freezing_changes_only_the_mark {B : Type} (docs : list Backends.ptr)
    (s : Backends.State B) :
  Backends.backend (Backends.freezeDocs docs s) = Backends.backend s
  /\ (forall doc, fields <$> Backends.documents (Backends.freezeDocs docs s) !! doc
                  = fields <$> Backends.documents s !! doc)
  /\ (forall doc, doc ∉ docs ->
        Backends.documents (Backends.freezeDocs docs s) !! doc = Backends.documents s !! doc)
  /\ Backends.freezeDocs docs (Backends.freezeDocs docs s) = Backends.freezeDocs docs s
  /\ (forall docs', (forall doc, doc ∈ docs <-> doc ∈ docs') ->
        Backends.freezeDocs docs' s = Backends.freezeDocs docs s).
Proof.
  split; [apply freezeDocs_backend |].
  split.
  { intros doc. rewrite freezeDocs_lookup. destruct (decide (doc ∈ docs)); [| reflexivity].
    by destruct (Backends.documents s !! doc). }
  split.
  { intros doc Hout. rewrite freezeDocs_lookup. by rewrite decide_False. }
  split; [apply freezeDocs_idemp |].
  intros docs'. apply freezeDocs_ext.
Qed.

Lemma freezing_changes_only_the_mark_witness :
  Backends.documents (Backends.freezeDocs [1%positive] DemoBackend.store) !! 2%positive
  = Some DemoBackend.doc2
  /\ Backends.freezeDocs [1%positive; 2%positive; 1%positive] DemoBackend.store
     = Backends.freezeDocs [2%positive; 1%positive] DemoBackend.store.
Proof.
  split.
  - destruct (freezing_changes_only_the_mark [1%positive] DemoBackend.store)
      as (_ & _ & Hout & _).
    rewrite Hout; [reflexivity |]. by intros [[=] | []%not_elem_of_nil]%elem_of_cons.
  - destruct (freezing_changes_only_the_mark [2%positive; 1%positive] DemoBackend.store)
      as (_ & _ & _ & _ & Hext).
    apply Hext. intros doc. rewrite !elem_of_cons, !elem_of_nil. tauto.
Defined.



(** * Properties of the SQLite handler *)

Lemma reply_returns `{Sqlite.Environment} (doc : Document) :
  Sqlite.reply doc = Returned (Some (mkOpMsg 0 [docSection doc]), None).
Proof. reflexivity. Qed.

(** The exits of [MsgDistinct]: the steps taken up to each of them and
    what is returned there. *)
Lemma MsgDistinct_exits `{Sqlite.Environment} (h : Sqlite.Handler)
    (s : Backends.State Sqlite.B) (msg : OpMsg) :
  let evs := Sqlite.steps (Sqlite.MsgDistinct h s msg) in
  let out := Sqlite.returned (Sqlite.MsgDistinct h s msg) in
  let failed := exists e, out = Returned (None, Some e) in
  (evs = [] /\ failed)
  \/ (exists n, evs = [Sqlite.EvDatabase n false] /\ failed)
  \/ (exists n m, evs = [Sqlite.EvDatabase n true; Sqlite.EvCollection m; Sqlite.EvDBClose]
                  /\ failed)
  \/ (exists n m,
         evs = [Sqlite.EvDatabase n true; Sqlite.EvCollection m; Sqlite.EvNewMultiCloser;
                Sqlite.EvQuery; Sqlite.EvCloserClose; Sqlite.EvDBClose]
         /\ (failed \/ exists p, out = Panicked p))
  \/ (exists n m,
         evs = [Sqlite.EvDatabase n true; Sqlite.EvCollection m; Sqlite.EvNewMultiCloser;
                Sqlite.EvQuery; Sqlite.EvCloserAdd; Sqlite.EvCloserClose; Sqlite.EvDBClose]
         /\ (failed
             \/ exists distinct,
                 out = Returned (Some (mkOpMsg 0 [docSection
                                   (NewDocument [("values", VArray distinct);
                                                 ("ok", VDouble float64_one)])]),
                                 None))).
Proof.
  cbv zeta. unfold Sqlite.MsgDistinct, Sqlite.steps, Sqlite.returned.
  destruct (OpMsg_Document msg) as [document | e]; [| left; split; [done | by eexists]].
  destruct (Sqlite.GetDistinctParams document) as [params | e];
    [| left; split; [done | by eexists]].
  destruct (Sqlite.b_Database s (Sqlite.dp_DB params)) as [s1 [db | e]];
    [| right; left; eexists; split; [done | by eexists]].
  unfold Sqlite.MsgDistinct_collection.
  destruct (Sqlite.db_Collection db s1 (Sqlite.dp_Collection params)) as [s2 [c | e]];
    [| right; right; left; eexists _, _; split; [done | by eexists]].
  unfold Sqlite.MsgDistinct_query.
  destruct (Backends.Query c s2 None) as [s3 [[[queryRes |] [e |]] | p]].
  - right; right; right; left. eexists _, _. split; [done |]. left. by eexists.
  - destruct (Sqlite.FilterDistinctValues s3 _ (Sqlite.dp_Key params)) as [s4 [distinct | e]].
    + right; right; right; right. eexists _, _. split; [done |]. right. by eexists.
    + right; right; right; right. eexists _, _. split; [done |]. left. by eexists.
  - right; right; right; left. eexists _, _. split; [done |]. left. by eexists.
  - right; right; right; left. eexists _, _. split; [done |]. right. by eexists.
  - right; right; right; left. eexists _, _. split; [done |]. right. by eexists.
Qed.

(** X21. Whatever [MsgDistinct] is given and however it ends, with a
    reply, an error or a panic, it leaves nothing open: it closes the
    database handle it obtained, once and as its last step, and the
    multi-closer it created, once and just before; it queries only on an
    open database; and a panic, which comes from the query or from its
    nil result, finds the handle and the closer closed all the same. *)
Theorem distinct_closes_what_it_opens `{Sqlite.Environment} (h : Sqlite.Handler)
    (s : Backends.State Sqlite.B) (msg : OpMsg) :
  let evs := Sqlite.steps (Sqlite.MsgDistinct h s msg) in
  Sqlite.opened evs = Sqlite.count Sqlite.EvDBClose evs
  /\ (Sqlite.opened evs <= 1)%nat
  /\ Sqlite.count Sqlite.EvNewMultiCloser evs = Sqlite.count Sqlite.EvCloserClose evs
  /\ (In Sqlite.EvDBClose evs -> last evs = Some Sqlite.EvDBClose)
  /\ (In Sqlite.EvCloserClose evs ->
      exists pre, evs = pre ++ [Sqlite.EvCloserClose; Sqlite.EvDBClose])
  /\ (In Sqlite.EvQuery evs ->
      Sqlite.opened evs = 1%nat /\ Sqlite.count Sqlite.EvNewMultiCloser evs = 1%nat)
  /\ (forall p, Sqlite.returned (Sqlite.MsgDistinct h s msg) = Panicked p ->
        In Sqlite.EvQuery evs
        /\ Sqlite.count Sqlite.EvDBClose evs = 1%nat
        /\ Sqlite.count Sqlite.EvCloserClose evs = 1%nat).
Proof.
  intros evs. subst evs.
  destruct (MsgDistinct_exits h s msg)
    as [[-> [e He]] | [(n & -> & e & He) | [(n & m & -> & e & He)
       | [(n & m & -> & Hout) | (n & m & -> & Hout)]]]].
  - do 3 (split; [vm_compute; lia |]). do 3 (split; [intros [] |]).
    intros p Hp. rewrite He in Hp. discriminate.
  - do 3 (split; [vm_compute; lia |]).
    split; [intros [[=] | []] |]. split; [intros [[=] | []] |]. split; [intros [[=] | []] |].
    intros p Hp. rewrite He in Hp. discriminate.
  - do 3 (split; [vm_compute; lia |]). split; [reflexivity |].
    split; [intros [[=] | [[=] | [[=] | []]]] |].
    split; [intros [[=] | [[=] | [[=] | []]]] |].
    intros p Hp. rewrite He in Hp. discriminate.
  - do 3 (split; [vm_compute; lia |]). split; [reflexivity |].
    split; [intros _; by eexists [_; _; _; _] |].
    split; [intros _; split; vm_compute; reflexivity |].
    intros p _. split; [cbn; tauto | split; vm_compute; reflexivity].
  - do 3 (split; [vm_compute; lia |]). split; [reflexivity |].
    split; [intros _; by eexists [_; _; _; _; _] |].
    split; [intros _; split; vm_compute; reflexivity |].
    intros p Hp. destruct Hout as [[e He] | [distinct Hd]]; rewrite ?He, ?Hd in Hp; discriminate.
Qed.

Lemma distinct_closes_what_it_opens_witness :
  let evs := Sqlite.steps (Sqlite.MsgDistinct (Sqlite.mkHandler false) DemoBackend.store
                             (DemoSqlite.distinctMsg "test" "values")) in
  In Sqlite.EvQuery evs /\ Sqlite.opened evs = 1%nat /\ last evs = Some Sqlite.EvDBClose.
Proof.
  intros evs.
  assert (Hq : In Sqlite.EvQuery evs) by (vm_compute; tauto).
  destruct (distinct_closes_what_it_opens (H := DemoSqlite.environment)
              (Sqlite.mkHandler false) DemoBackend.store
              (DemoSqlite.distinctMsg "test" "values")) as (_ & _ & _ & Hlast & _ & Hopen & _).
  split; [exact Hq |]. split; [exact (proj1 (Hopen Hq)) |].
  apply Hlast. vm_compute. tauto.
Defined.

Lemma MsgExplain_exits `{Sqlite.Environment} (h : Sqlite.Handler)
    (s : Backends.State Sqlite.B) (msg : OpMsg) :
  let out := Sqlite.returned (Sqlite.MsgExplain h s msg) in
  Sqlite.MsgExplain h s msg = (s, [], out)
  /\ ((exists e, out = Returned (None, Some e))
      \/ (exists p, out = Panicked p)
      \/ (exists kvs, out = Returned (Some (mkOpMsg 0 [docSection
                                        (NewDocument (kvs ++ [("ok", VDouble float64_one)]))]),
                                      None)
                      /\ lookup_field "ok" kvs = None)).
Proof.
  cbv zeta. unfold Sqlite.MsgExplain, Sqlite.returned.
  destruct (OpMsg_Document msg) as [document | e]; [| split; [done | left; by eexists]].
  destruct (Sqlite.GetExplainParams document) as [params | e];
    [| split; [done | left; by eexists]].
  destruct Sqlite.os_Hostname as [hostname | e]; [| split; [done | left; by eexists]].
  destruct (Sqlite.Document_Set _ _ _) as [cmd | p]; [| split; [done | right; left; by eexists]].
  split; [done |]. right; right.
  eexists [_; _; _; _; _; _; _]. split; reflexivity.
Qed.

(** X22. A reply of [MsgDistinct] or of [MsgExplain] is a successful one:
    each of them returns either an error and no reply, or no error and a
    well-formed OP_MSG whose document has the field ok with the double
    1.0, so that [logResponse] of the runner logs it at debug level. *)
Theorem handler_replies_are_ok `{Collaborators} `{Sqlite.Environment} (h : Sqlite.Handler)
    (s : Backends.State Sqlite.B) (msg : OpMsg) (res : option OpMsg) (err : option error) :
  Sqlite.returned (Sqlite.MsgDistinct h s msg) = Returned (res, err)
  \/ Sqlite.returned (Sqlite.MsgExplain h s msg) = Returned (res, err) ->
  (res = None /\ err <> None)
  \/ (err = None
      /\ exists rep doc,
          res = Some rep
          /\ OpMsg_Document rep = inl doc
          /\ Document_Get doc "ok" = Some (VDouble float64_one)
          /\ forall who hd cc,
               snd (logResponse who (Some hd) (Some (BodyMsg rep)) cc) = Returned DebugLevel).
Proof.
  assert (Hok : forall doc,
             Document_Get doc "ok" = Some (VDouble float64_one) ->
             forall who hd cc,
               snd (logResponse who (Some hd) (Some (BodyMsg (mkOpMsg 0 [docSection doc]))) cc)
               = Returned DebugLevel).
  { intros doc Hget who hd cc. unfold logResponse.
    destruct (decide (OpCode hd = OpCodeMsg)); [| reflexivity].
    change (OpMsg_Document (mkOpMsg 0 [docSection doc])) with (@inl Document error doc).
    unfold ok_is_one. rewrite Hget. reflexivity. }
  intros [Hd | He].
  - destruct (MsgDistinct_exits h s msg)
      as [[_ [e Hout]] | [(n & _ & e & Hout) | [(n & m & _ & e & Hout)
         | [(n & m & _ & [[e Hout] | [p Hout]])
           | (n & m & _ & [[e Hout] | [distinct Hout]])]]]];
      rewrite Hout in Hd; try discriminate; injection Hd as <- <-;
      try (left; split; [reflexivity | discriminate]).
    right. split; [reflexivity |]. eexists _, _. split; [reflexivity |].
    split; [reflexivity |]. split; [reflexivity |]. by apply Hok.
  - destruct (MsgExplain_exits h s msg) as [_ [[e Hout] | [[p Hout] | (kvs & Hout & Hkvs)]]];
      rewrite Hout in He; try discriminate; injection He as <- <-;
      try (left; split; [reflexivity | discriminate]).
    assert (Hget : Document_Get (NewDocument (kvs ++ [("ok", VDouble float64_one)])) "ok"
                   = Some (VDouble float64_one)).
    { unfold Document_Get, NewDocument. cbn [fields]. clear -Hkvs.
      induction kvs as [| [k v] kvs IH]; [reflexivity |].
      cbn [app lookup_field] in *. destruct (String.eqb k "ok"); [discriminate | by apply IH]. }
    right. split; [reflexivity |]. eexists _, _. split; [reflexivity |].
    split; [reflexivity |]. split; [exact Hget |]. by apply Hok.
Qed.

Lemma handler_replies_are_ok_witness :
  exists rep doc,
    Sqlite.returned (Sqlite.MsgDistinct (Sqlite.mkHandler false) DemoBackend.store
                       (DemoSqlite.distinctMsg "test" "values")) = Returned (Some rep, None)
    /\ OpMsg_Document rep = inl doc
    /\ Document_Get doc "values" = Some (VArray [VString "a"])
    /\ Document_Get doc "ok" = Some (VDouble float64_one).
Proof.
  destruct (handler_replies_are_ok (H := Demo.collaborators) (H0 := DemoSqlite.environment)
              (Sqlite.mkHandler false) DemoBackend.store
              (DemoSqlite.distinctMsg "test" "values")
              (Some (mkOpMsg 0 [docSection (NewDocument [("values", VArray [VString "a"]);
                                                         ("ok", VDouble float64_one)])]))
              None (or_introl eq_refl))
    as [[[=] _] | (_ & rep & doc & [= <-] & Hdoc & Hget & _)].
  eexists _, _. split; [reflexivity |]. split; [exact Hdoc |].
  injection Hdoc as <-. split; [reflexivity | exact Hget].
Defined.
